(** * Flow diagram generation of the MuleSoft documentation generator

    A shallow embedding of [src/generator/flow_visualizer.py]: the class
    [FlowVisualizer] with [generate_flow_diagram], [_sanitize_id] and
    [_escape_text], and the module functions [generate_flow_visualization]
    and [generate_visualization]; and of the classes [Flow] and
    [Interface] of [src/model/interface.py], which build the input of
    the visualizer.

    The Python code reads its input through [hasattr], [getattr], truth
    tests and [str], so the embedding works on a small universe of Python
    values ([pyval]) and spells those primitives out.  Exceptions are an
    explicit result type; the two file writes of [generate_visualization]
    go through a state-and-error monad over a file-system log. *)

From Stdlib Require Import String Ascii ZArith List Bool Lia DecimalString.
From stdpp Require Import base decidable option list gmap sets strings.

Local Set Warnings "-register-all,-clear-no-such-hyp".
Local Open Scope Z_scope.

(** ** Python values *)

Module Py.

(** Characters are code points below 256.  A dictionary has text keys and
    keeps insertion order.  An object is a plain instance: it carries its
    identity, on which the default [==] and [hash] of Python rest, and
    its attribute table (a property counts as an attribute); it is true
    in a truth test. *)
Inductive pyval : Type :=
| PNone
| PBool (b : bool)
| PInt (z : Z)
| PStr (s : string)
| PList (l : list pyval)
| PDict (d : list (string * pyval))
| PObj (oid : positive) (attrs : list (string * pyval)).

Inductive exn : Type := AttributeError | TypeError | OSError.

Inductive result (A : Type) : Type :=
| Ok (a : A)
| Raise (e : exn).
Arguments Ok {A} a.
Arguments Raise {A} e.

Definition bind {A B} (r : result A) (k : A -> result B) : result B :=
  match r with
  | Ok a => k a
  | Raise e => Raise e
  end.

#[global] Instance result_mbind : MBind result := fun A B k r => bind r k.
#[global] Instance result_mret : MRet result := fun A a => Ok a.

(** [bool(v)]: the truth test behind [if v] and [not v]. *)
Definition truthy (v : pyval) : bool :=
  match v with
  | PNone => false
  | PBool b => b
  | PInt z => negb (z =? 0)
  | PStr s => negb (String.eqb s EmptyString)
  | PList l => match l with [] => false | _ => true end
  | PDict d => match d with [] => false | _ => true end
  | PObj _ _ => true
  end.

Fixpoint assoc {A} (k : string) (l : list (string * A)) : option A :=
  match l with
  | [] => None
  | (k', v) :: l' => if String.eqb k k' then Some v else assoc k l'
  end.

(** [getattr(v, name)] as an option: the attribute names the module asks
    for ([flows], [id], [name], [is_subflow], [source], [processors],
    [type], [config]) exist on no built-in value, only on objects. *)
Definition attr (v : pyval) (name : string) : option pyval :=
  match v with
  | PObj _ attrs => assoc name attrs
  | _ => None
  end.

Definition hasattr (v : pyval) (name : string) : bool :=
  match attr v name with Some _ => true | None => false end.

(** [getattr(v, name, default)]. *)
Definition getattr (v : pyval) (name : string) (default : pyval) : pyval :=
  match attr v name with Some x => x | None => default end.

(** [v.name] after a successful [hasattr] test (the code never reads an
    attribute otherwise, except [interface.flows] in
    [generate_visualization], which is modelled apart). *)
Definition dot (v : pyval) (name : string) : pyval := getattr v name PNone.

(** [d.get(key, default)] on a dictionary. *)
Definition dict_get (d : list (string * pyval)) (key : string) (default : pyval) : pyval :=
  match assoc key d with Some x => x | None => default end.

Definition char_str (c : ascii) : string := String c EmptyString.

Fixpoint chars (s : string) : list ascii :=
  match s with
  | EmptyString => []
  | String c s' => c :: chars s'
  end.

(** What a [for] loop iterates over: the elements of a list, the keys of a
    dictionary, the characters of a string; anything else is not iterable
    and the loop raises [TypeError]. *)
Definition iterate (v : pyval) : result (list pyval) :=
  match v with
  | PList l => Ok l
  | PDict d => Ok (map (fun kv => PStr (fst kv)) d)
  | PStr s => Ok (map (fun c => PStr (char_str c)) (chars s))
  | _ => Raise TypeError
  end.

(** Keys of dictionaries and members of sets must be hashable. *)
Definition hashable (v : pyval) : bool :=
  match v with
  | PList _ | PDict _ => false
  | _ => true
  end.

Definition num_of (v : pyval) : option Z :=
  match v with
  | PBool b => Some (if b then 1 else 0)
  | PInt z => Some z
  | _ => None
  end.

(** [==] between two hashable values, as a dictionary compares keys. *)
Definition key_eqb (a b : pyval) : bool :=
  match a, b with
  | PNone, PNone => true
  | PStr s, PStr t => String.eqb s t
  | PObj i _, PObj j _ => Pos.eqb i j
  | _, _ =>
      match num_of a, num_of b with
      | Some x, Some y => x =? y
      | _, _ => false
      end
  end.

(** [v == 'text']. *)
Definition eq_text (v : pyval) (t : string) : bool :=
  match v with
  | PStr s => String.eqb s t
  | _ => false
  end.

Section Str.

(** [str(v)] is fixed by the language for text, [None], booleans and
    integers.  For containers and objects it is the [repr], which depends
    on the class and on addresses: it is a parameter. *)
Variable repr_text : pyval -> string.

Definition str (v : pyval) : string :=
  match v with
  | PStr s => s
  | PNone => "None"
  | PBool true => "True"
  | PBool false => "False"
  | PInt z => NilZero.string_of_int (Z.to_int z)
  | _ => repr_text v
  end.

End Str.

End Py.

(** ** The class [FlowVisualizer] *)

Module FlowVisualizer.
Import Py.

(** *** Characters and text *)

Definition code (c : ascii) : nat := nat_of_ascii c.

Definition between (lo hi n : nat) : bool := (lo <=? n)%nat && (n <=? hi)%nat.

(** The character class [[a-zA-Z0-9_]] of the regular expression. *)
Definition word_char (c : ascii) : bool :=
  between 97 122 (code c) || between 65 90 (code c)
  || between 48 57 (code c) || (code c =? 95)%nat.

(** [c.isalpha()] on code points below 256: the ASCII letters and the
    letters of the Latin-1 block. *)
Definition isalpha (c : ascii) : bool :=
  between 97 122 (code c) || between 65 90 (code c)
  || (code c =? 170)%nat || (code c =? 181)%nat || (code c =? 186)%nat
  || between 192 214 (code c) || between 216 246 (code c)
  || between 248 255 (code c).

Fixpoint map_chars (f : ascii -> ascii) (s : string) : string :=
  match s with
  | EmptyString => EmptyString
  | String c s' => String (f c) (map_chars f s')
  end.

(** [re.sub(r'[^a-zA-Z0-9_]', '_', s)]. *)
Definition re_sub_nonword (s : string) : string :=
  map_chars (fun c => if word_char c then c else "_"%char) s.

(** [s.replace(old, new)] for a pattern of one character. *)
Fixpoint replace (old : ascii) (new : string) (s : string) : string :=
  match s with
  | EmptyString => EmptyString
  | String c s' =>
      if Ascii.eqb c old then new +:+ replace old new s'
      else String c (replace old new s')
  end.

Definition newline : string := char_str "010".

(** ["\n".join(lines)]. *)
Fixpoint join_lines (lines : list string) : string :=
  match lines with
  | [] => EmptyString
  | [l] => l
  | l :: rest => l +:+ newline +:+ join_lines rest
  end.

Section Visualizer.

Variable repr_text : pyval -> string.

Local Abbreviation str := (Py.str repr_text).

Definition _sanitize_id (id_str : pyval) : string :=
  if negb (truthy id_str) then "unknown"
  else
    let id_str := str id_str in
    let sanitized := re_sub_nonword id_str in
    match sanitized with
    | String c _ => if negb (isalpha c) then "f_" +:+ sanitized else sanitized
    | EmptyString => sanitized
    end.

Definition _escape_text (text : pyval) : string :=
  if negb (truthy text) then "Unnamed Flow"
  else
    let text := str text in
    let escaped := replace "034" EmptyString text in
    let escaped := replace "[" "(" escaped in
    let escaped := replace "]" ")" escaped in
    let escaped := replace "<" "(" escaped in
    let escaped := replace ">" ")" escaped in
    let escaped := replace "&" "+" escaped in
    let escaped := replace "092" "/" escaped in
    escaped.

(** *** The two passes of [generate_flow_diagram] *)

(** The local variables of [generate_flow_diagram]. *)
Record builder : Type := Builder {
  nodes : gset string;
  links : gset string;
  flow_references : list (pyval * list pyval);
  mermaid_diagram : list string
}.

Definition append_line (line : string) (b : builder) : builder :=
  Builder (nodes b) (links b) (flow_references b) (mermaid_diagram b ++ [line]).

Definition add_node (flow_id : string) (b : builder) : builder :=
  Builder ({[flow_id]} ∪ nodes b) (links b) (flow_references b) (mermaid_diagram b).

Definition add_link (link : string) (b : builder) : builder :=
  Builder (nodes b) ({[link]} ∪ links b) (flow_references b) (mermaid_diagram b).

(** [flow_references[key] = value]: an existing key keeps its place. *)
Fixpoint dict_set {V} (key : pyval) (value : V) (d : list (pyval * V)) : list (pyval * V) :=
  match d with
  | [] => [(key, value)]
  | (k, v) :: d' =>
      if key_eqb k key then (k, value) :: d' else (k, v) :: dict_set key value d'
  end.

Definition store_references (key : pyval) (refs : list pyval) (b : builder) : builder :=
  Builder (nodes b) (links b) (dict_set key refs (flow_references b)) (mermaid_diagram b).

(** The text of the label: [getattr(flow, 'name', flow.id)]. *)
Definition label_of (flow : pyval) : pyval := getattr flow "name" (dot flow "id").

(** The node declaration and the style line of one flow (lines 54-65). *)
Definition node_lines (flow_id : string) (flow : pyval) : list string :=
  if hasattr flow "is_subflow" && truthy (dot flow "is_subflow") then
    [ flow_id +:+ "[" +:+ _escape_text (label_of flow) +:+ "]";
      "style " +:+ flow_id +:+ " fill:#e1f5fe,stroke:#0277bd" ]
  else if hasattr flow "source" && truthy (dot flow "source") then
    [ flow_id +:+ "(" +:+ _escape_text (label_of flow) +:+ ")";
      "style " +:+ flow_id +:+ " fill:#e8f5e9,stroke:#2e7d32" ]
  else
    [ flow_id +:+ "[" +:+ _escape_text (label_of flow) +:+ "]";
      "style " +:+ flow_id +:+ " fill:#f9f9f9,stroke:#333" ].

(** [not hasattr(flow, 'id') or not flow.id]. *)
Definition no_id (flow : pyval) : bool :=
  negb (hasattr flow "id") || negb (truthy (dot flow "id")).

(** Body of the first loop (lines 43-67). *)
Definition node_step (b : builder) (flow : pyval) : builder :=
  if no_id flow then b
  else
    let flow_id := _sanitize_id (dot flow "id") in
    if decide (flow_id ∈ nodes b) then b
    else
      let b := foldl (fun b line => append_line line b) b (node_lines flow_id flow) in
      add_node flow_id b.

(** Lines 80-87: the name a processor refers to, [None] when it is no
    flow reference. *)
Definition ref_name_of (processor : pyval) : pyval :=
  if hasattr processor "type" && eq_text (dot processor "type") "flow-ref" then
    if hasattr processor "config" && hasattr (dot processor "config") "name" then
      dot (dot processor "config") "name"
    else if hasattr processor "name" then
      dot processor "name"
    else PNone
  else PNone.

(** Body of the loop over the processors of one flow (lines 79-98); the
    second component is the local list [references]. *)
Definition processor_step (flow_id : string) (st : builder * list pyval)
    (processor : pyval) : builder * list pyval :=
  let '(b, references) := st in
  let ref_flow_name := ref_name_of processor in
  if truthy ref_flow_name then
    let ref_flow_id := _sanitize_id ref_flow_name in
    if decide (ref_flow_id ∈ nodes b) then
      let link := flow_id +:+ " --> " +:+ ref_flow_id in
      if decide (link ∈ links b) then st
      else (add_link link (append_line link b), references ++ [ref_flow_name])
    else st
  else st.

(** Body of the second loop (lines 70-102). *)
Definition link_step (b : builder) (flow : pyval) : result builder :=
  if no_id flow then Ok b
  else
    let flow_id := _sanitize_id (dot flow "id") in
    '(b, references) ←
      (if hasattr flow "processors"
       then processors ← iterate (dot flow "processors");
            Ok (foldl (processor_step flow_id) (b, []) processors)
       else Ok (b, []));
    match references with
    | [] => Ok b
    | _ :: _ =>
        if hashable (dot flow "id")
        then Ok (store_references (dot flow "id") references b)
        else Raise TypeError
    end.

(** A [for] loop whose body may raise. *)
Fixpoint for_each {S A} (body : S -> A -> result S) (s : S) (xs : list A) : result S :=
  match xs with
  | [] => Ok s
  | x :: xs' => s' ← body s x; for_each body s' xs'
  end.

Definition no_flows_diagram : string := "graph TD" +:+ newline +:+ "A[No flows found]".

Definition initial : builder := Builder ∅ ∅ [] ["graph TD"].

(** The two loops over [interface.flows] (lines 43-102). *)
Definition run_passes (flows : list pyval) : result builder :=
  let b := foldl node_step initial flows in
  for_each link_step b flows.

(** The guard of line 31. *)
Definition no_flows (interface : pyval) : bool :=
  negb (truthy interface) || negb (hasattr interface "flows")
  || negb (truthy (dot interface "flows")).

Definition generate_flow_diagram (interface : pyval)
    : result (string * list (pyval * list pyval)) :=
  if no_flows interface
  then Ok (no_flows_diagram, [])
  else
    flows ← iterate (dot interface "flows");
    b ← run_passes flows;
    Ok (join_lines (mermaid_diagram b), flow_references b).

(** The entries of [mermaid_diagram] that [generate_flow_diagram] joins
    with newlines into the diagram text: the header, then a declaration
    and a style line per node, then the edge lines. *)
Definition diagram_lines (interface : pyval) : result (list string) :=
  if no_flows interface
  then Ok ["graph TD"; "A[No flows found]"]
  else
    flows ← iterate (dot interface "flows");
    b ← run_passes flows;
    Ok (mermaid_diagram b).

End Visualizer.

End FlowVisualizer.

(** ** The module functions *)

Module Adapter.
Import Py.

(** *** Files *)

(** One element of [flow_data["nodes"]]. *)
Record viz_node : Type := VizNode {
  node_index : nat;
  node_name : pyval;
  node_type : string
}.

(** The dictionary [flow_data]; a link is a pair (source, target). *)
Record flow_data : Type := FlowData {
  fd_nodes : list viz_node;
  fd_links : list (nat * nat)
}.

Inductive content : Type :=
| Text (s : string)
| Json (d : flow_data).

Inductive event : Type :=
| Mkdir (path : string)
| Opened (path : string)
| Wrote (path : string) (c : content).

(** The file system: which calls succeed, and what has happened so far
    (most recent event last).  Only completed writes are logged: when
    [json.dump] raises, the file is open and its content is not
    specified. *)
Record world : Type := World {
  mkdir_ok : string -> bool;
  open_ok : string -> bool;
  write_ok : string -> bool;
  log : list event
}.

Definition io (A : Type) : Type := world -> world * result A.

Definition ret {A} (a : A) : io A := fun w => (w, Ok a).

Definition io_bind {A B} (m : io A) (k : A -> io B) : io B :=
  fun w =>
    match m w with
    | (w', Ok a) => k a w'
    | (w', Raise e) => (w', Raise e)
    end.

Definition lift {A} (r : result A) : io A := fun w => (w, r).

Definition emit (e : event) : io unit :=
  fun w => (World (mkdir_ok w) (open_ok w) (write_ok w) (log w ++ [e]), Ok tt).

Definition guard_io (ok : world -> bool) : io unit :=
  fun w => (w, if ok w then Ok tt else Raise OSError).

#[global] Instance io_mbind : MBind io := fun A B k m => io_bind m k.
#[global] Instance io_mret : MRet io := fun A a => ret a.

(** [os.path.join(a, b)] for a relative [b], POSIX flavour. *)
Fixpoint ends_with_slash (a : string) : bool :=
  match a with
  | EmptyString => false
  | String c EmptyString => Ascii.eqb c "/"
  | String _ a' => ends_with_slash a'
  end.

Definition path_join (a b : string) : string :=
  if String.eqb a EmptyString then b
  else if ends_with_slash a then a +:+ b
  else a +:+ "/" +:+ b.

(** [os.makedirs(path, exist_ok=True)]. *)
Definition makedirs (path : string) : io unit :=
  guard_io (fun w => mkdir_ok w path) ;; emit (Mkdir path).

(** [with open(path, 'w') as f: body]. *)
Definition with_open (path : string) (body : io unit) : io unit :=
  guard_io (fun w => open_ok w path) ;; emit (Opened path) ;; body.

Definition write (path : string) (c : content) : io unit :=
  guard_io (fun w => write_ok w path) ;; emit (Wrote path c).

(** What [json.dump] accepts without a custom encoder. *)
Fixpoint json_serializable (v : pyval) : bool :=
  match v with
  | PObj _ _ => false
  | PList l => forallb json_serializable l
  | PDict d => forallb (fun kv => match kv with (_, x) => json_serializable x end) d
  | _ => true
  end.

Definition json_dump (path : string) (d : flow_data) : io unit :=
  lift (if forallb (fun n => json_serializable (node_name n)) (fd_nodes d)
        then Ok tt else Raise TypeError) ;;
  write path (Json d).

(** *** Dictionaries keyed by Python values *)

Fixpoint lookup_key {V} (key : pyval) (d : list (pyval * V)) : option V :=
  match d with
  | [] => None
  | (k, v) :: d' => if key_eqb k key then Some v else lookup_key key d'
  end.

(** [key in d]: hashing an unhashable key raises. *)
Definition contains {V} (key : pyval) (d : list (pyval * V)) : result bool :=
  if hashable key
  then Ok (match lookup_key key d with Some _ => true | None => false end)
  else Raise TypeError.

Section Adapter.

Variable repr_text : pyval -> string.

Definition generate_flow_visualization (interface : pyval)
    : result (string * list (pyval * list pyval)) :=
  FlowVisualizer.generate_flow_diagram repr_text interface.

(** Lines 218-230: identifier, sub-flow flag and source of a flow given
    as a dictionary or as an object, and the resulting type text. *)
Definition viz_fields (flow : pyval) : pyval * pyval * pyval :=
  match flow with
  | PDict d =>
      (dict_get d "id" (PStr "unknown"),
       PBool (eq_text (dict_get d "type" PNone) "sub-flow"),
       dict_get d "source" PNone)
  | _ =>
      (getattr flow "id" (PStr "unknown"),
       getattr flow "is_subflow" (PBool false),
       getattr flow "source" PNone)
  end.

Definition viz_type (is_subflow source : pyval) : string :=
  let node_type := if truthy is_subflow then "subflow" else "flow" in
  if truthy source then "source" else node_type.

(** The dictionary [node_map] and the list [flow_data["nodes"]]. *)
Definition viz_state : Type := list (pyval * nat) * list viz_node.

(** Body of the loop over [enumerate(interface.flows)] (lines 216-237). *)
Definition viz_node_step (st : viz_state) (item : nat * pyval) : result viz_state :=
  let '(node_map, nodes) := st in
  let '(i, flow) := item in
  let '(flow_id, is_subflow, source) := viz_fields flow in
  let node_type := viz_type is_subflow source in
  if hashable flow_id
  then Ok (FlowVisualizer.dict_set flow_id i node_map,
           nodes ++ [VizNode i flow_id node_type])
  else Raise TypeError.

(** [enumerate(l, start)]. *)
Fixpoint enumerate_from {A} (start : nat) (l : list A) : list (nat * A) :=
  match l with
  | [] => []
  | x :: l' => (start, x) :: enumerate_from (S start) l'
  end.

Definition enumerate {A} (l : list A) : list (nat * A) := enumerate_from 0 l.

(** Body of the inner loop over [targets] (lines 243-249). *)
Definition viz_target_step (node_map : list (pyval * nat)) (source_idx : nat)
    (links : list (nat * nat)) (target_id : pyval) : result (list (nat * nat)) :=
  known ← contains target_id node_map;
  if known : bool then
    match lookup_key target_id node_map with
    | Some target_idx => Ok (links ++ [(source_idx, target_idx)])
    | None => Ok links
    end
  else Ok links.

(** Body of the loop over [flow_references.items()] (lines 240-249). *)
Definition viz_link_step (node_map : list (pyval * nat))
    (links : list (nat * nat)) (item : pyval * list pyval) : result (list (nat * nat)) :=
  let '(source_id, targets) := item in
  known ← contains source_id node_map;
  if known : bool then
    match lookup_key source_id node_map with
    | Some source_idx =>
        FlowVisualizer.for_each (viz_target_step node_map source_idx) links targets
    | None => Ok links
    end
  else Ok links.

Definition mermaid_file : string := path_join "static" "flow_diagram.mmd".
Definition d3_file : string := path_join "static" "flow_data.json".

(** [interface.flows] without a preceding [hasattr] test. *)
Definition read_flows (interface : pyval) : result pyval :=
  match attr interface "flows" with
  | Some v => Ok v
  | None => Raise AttributeError
  end.

(** The dictionary [flow_data] built on lines 209-249. *)
Definition build_flow_data (interface : pyval)
    (flow_references : list (pyval * list pyval)) : result flow_data :=
  flows ← read_flows interface;
  flows ← iterate flows;
  '(node_map, nodes) ← FlowVisualizer.for_each viz_node_step ([], []) (enumerate flows);
  links ← FlowVisualizer.for_each (viz_link_step node_map) [] flow_references;
  Ok (FlowData nodes links).

Definition generate_visualization (interface : pyval) (output_dir : string)
    : io (list (string * string)) :=
  '(diagram_content, flow_references) ← lift (generate_flow_visualization interface);
  let static_dir := path_join output_dir "static" in
  makedirs static_dir ;;
  with_open (path_join output_dir mermaid_file)
    (write (path_join output_dir mermaid_file) (Text diagram_content)) ;;
  data ← lift (build_flow_data interface flow_references);
  with_open (path_join output_dir d3_file)
    (json_dump (path_join output_dir d3_file) data) ;;
  mret [("mermaid", mermaid_file); ("d3", d3_file)].

End Adapter.

End Adapter.

(** ** Vocabulary of the specification *)

Module Spec.
Import Py FlowVisualizer Adapter.

(** The letters [[A-Za-z]]. *)
Definition ascii_letter (c : ascii) : bool :=
  between 97 122 (code c) || between 65 90 (code c).

Fixpoint all_word (s : string) : bool :=
  match s with
  | EmptyString => true
  | String c s' => word_char c && all_word s'
  end.

(** A match of [^[A-Za-z][A-Za-z0-9_]*$]. *)
Definition valid_identifier (s : string) : bool :=
  match s with
  | EmptyString => false
  | String c s' => ascii_letter c && all_word s'
  end.

(** The escaping rules of section 4.4, in their fixed order. *)
Definition escape_rules (s : string) : string :=
  replace "092" "/" (replace "&" "+" (replace ">" ")" (replace "<" "("
    (replace "]" ")" (replace "[" "(" (replace "034" EmptyString s)))))).

(** A text of [n] double quotes. *)
Fixpoint quotes (n : nat) : string :=
  match n with
  | O => EmptyString
  | S n' => String "034" (quotes n')
  end.

Inductive category : Type := ENTRY | REUSABLE | PLAIN.

(** The category behind the branch that [node_lines] takes. *)
Definition classify (flow : pyval) : category :=
  if hasattr flow "is_subflow" && truthy (dot flow "is_subflow") then REUSABLE
  else if hasattr flow "source" && truthy (dot flow "source") then ENTRY
  else PLAIN.

(** Opening bracket, closing bracket and style of a category. *)
Definition shape (c : category) : string * string * string :=
  match c with
  | REUSABLE => ("[", "]", "fill:#e1f5fe,stroke:#0277bd")
  | ENTRY => ("(", ")", "fill:#e8f5e9,stroke:#2e7d32")
  | PLAIN => ("[", "]", "fill:#f9f9f9,stroke:#333")
  end.

(** The category a type text of the visualization stands for. *)
Definition type_category (t : string) : option category :=
  if String.eqb t "source" then Some ENTRY
  else if String.eqb t "subflow" then Some REUSABLE
  else if String.eqb t "flow" then Some PLAIN
  else None.

(** The name [generate_visualization] gives the node of a flow. *)
Definition viz_id (flow : pyval) : pyval :=
  let '(flow_id, _, _) := viz_fields flow in flow_id.

(** The type text [generate_visualization] gives the node of a flow. *)
Definition viz_type_of (flow : pyval) : string :=
  let '(_, is_subflow, source) := viz_fields flow in viz_type is_subflow source.

(** The node of the flow at position [i]. *)
Definition viz_node_of (item : nat * pyval) : viz_node :=
  VizNode (fst item) (viz_id (snd item)) (viz_type_of (snd item)).

(** *** Reading the lines of a diagram *)

(** The longest prefix of word characters, and what follows it. *)
Fixpoint split_word (s : string) : string * string :=
  match s with
  | EmptyString => (EmptyString, EmptyString)
  | String c s' =>
      if word_char c
      then let '(w, r) := split_word s' in (String c w, r)
      else (EmptyString, s)
  end.

Fixpoint strip_prefix (p s : string) : option string :=
  match p, s with
  | EmptyString, _ => Some s
  | String a p', String b s' => if Ascii.eqb a b then strip_prefix p' s' else None
  | String _ _, EmptyString => None
  end.

Definition starts_with (p s : string) : bool :=
  match strip_prefix p s with Some _ => true | None => false end.

(** [Some id] on a node declaration [id[label]] or [id(label)]. *)
Definition decl_id (line : string) : option string :=
  let '(w, rest) := split_word line in
  if starts_with "[" rest || starts_with "(" rest then Some w else None.

(** [Some id] on a style line [style id fill:...]. *)
Definition style_id (line : string) : option string :=
  let '(w, rest) := split_word line in
  if String.eqb w "style" then
    match strip_prefix " " rest with
    | Some r =>
        let '(t, rest') := split_word r in
        if starts_with " fill:" rest' then Some t else None
    | None => None
    end
  else None.

(** [Some (a, b)] on an edge line [a --> b]. *)
Definition edge_ends (line : string) : option (string * string) :=
  let '(a, rest) := split_word line in
  match strip_prefix " --> " rest with
  | Some c => if all_word c then Some (a, c) else None
  | None => None
  end.

Definition edge_line (a c : string) : string := a +:+ " --> " +:+ c.

(** The line declares or styles the node [id]. *)
Definition about (id : string) (line : string) : bool :=
  bool_decide (decl_id line = Some id) || bool_decide (style_id line = Some id).

Definition occurrences (line : string) (lines : list string) : nat :=
  count_occ string_dec lines line.

(** What follows a word: nothing, or a character outside the class. *)
Definition word_end (rest : string) : bool :=
  match rest with
  | EmptyString => true
  | String c _ => negb (word_char c)
  end.

Section Registry.

Variable repr_text : pyval -> string.

(** The flow has an identifier and it normalizes to [id]. *)
Definition has_safe_id (id : string) (flow : pyval) : bool :=
  negb (no_id flow) && String.eqb (_sanitize_id repr_text (dot flow "id")) id.

(** The flow that stands for [id]: the first one in declaration order. *)
Definition first_with (id : string) (flows : list pyval) : option pyval :=
  List.find (has_safe_id id) flows.

(** The lines the first loop appends when [seen] is already registered. *)
Fixpoint first_pass_lines (seen : gset string) (flows : list pyval) : list string :=
  match flows with
  | [] => []
  | flow :: rest =>
      if no_id flow then first_pass_lines seen rest
      else
        let flow_id := _sanitize_id repr_text (dot flow "id") in
        if decide (flow_id ∈ seen) then first_pass_lines seen rest
        else node_lines repr_text flow_id flow
               ++ first_pass_lines ({[flow_id]} ∪ seen) rest
  end.

(** The identifiers the first loop registers. *)
Definition registered (flows : list pyval) : gset string :=
  nodes (foldl (node_step repr_text) initial flows).

(** The processors the second loop scans in a flow: none without the
    attribute, else the iterated attribute. *)
Definition scanned (flow : pyval) (processors : list pyval) : Prop :=
  if hasattr flow "processors"
  then iterate (dot flow "processors") = Ok processors
  else processors = [].

(** Invariant of the second loop: the registry [known] is fixed, and the
    diagram is the lines [pre] of the first loop followed by the members
    of [links], each once, all of them edges between identifiers. *)
Definition edges_inv (known : gset string) (pre : list string) (b : builder) : Prop :=
  nodes b = known
  /\ exists es,
       mermaid_diagram b = pre ++ es
       /\ NoDup es
       /\ (forall l, l ∈ es <-> l ∈ links b)
       /\ Forall (fun l => exists a c,
                    all_word a = true /\ all_word c = true /\ l = edge_line a c) es.

(** Invariant of the reference index: no key maps to the empty list. *)
Definition refs_inv (refs : list (pyval * list pyval)) : Prop :=
  Forall (fun kv => snd kv <> []) refs.

End Registry.

End Spec.

(** ** Sample inputs *)

Module Samples.
Import Py FlowVisualizer Adapter.

Definition sample_repr (v : pyval) : string := "<object>".

Definition all_ok : world :=
  World (fun _ => true) (fun _ => true) (fun _ => true) [].

Definition flow_ref (target : string) : pyval :=
  PObj 90 [("type", PStr "flow-ref"); ("name", PStr target)].

Definition mk_flow (oid : positive) (id : string) (is_subflow : bool)
    (source : pyval) (processors : list pyval) : pyval :=
  PObj oid [("id", PStr id); ("is_subflow", PBool is_subflow);
            ("source", source); ("processors", PList processors)].

Definition mk_interface (flows : list pyval) : pyval :=
  PObj 1 [("name", PStr "sample"); ("flows", PList flows)].

Definition http : pyval := PDict [("type", PStr "http")].

(** A sub-flow that also declares a source. *)
Definition both_signals : pyval := mk_flow 2 "Job" true http [].

(** Two identifiers with one normal form, and a flow without identifier. *)
Definition colliding : list pyval :=
  [ mk_flow 2 "a b" false http []; mk_flow 3 "a_b" true PNone [];
    mk_flow 4 EmptyString false PNone [] ].

(** A flow reference whose [config.name] is empty and whose flat name is not. *)
Definition empty_config_name : pyval :=
  PObj 91 [("type", PStr "flow-ref");
           ("config", PObj 92 [("name", PStr EmptyString)]);
           ("name", PStr "B")].

Definition caller_and_target : list pyval :=
  [ mk_flow 2 "A" false http [empty_config_name]; mk_flow 3 "B" false PNone [] ].

(** A flow that invokes the same target twice. *)
Definition twice : list pyval :=
  [ mk_flow 2 "A" false http [flow_ref "B"; flow_ref "B"];
    mk_flow 3 "B" false PNone [] ].

End Samples.

(** ** The model classes of [model/interface.py] *)

Module Model.
Import Py Adapter.

(** [v or default]. *)
Definition or_default (v default : pyval) : pyval :=
  if truthy v then v else default.

(** [Flow.__init__]: the instance attributes, and the property
    [is_subflow] at its value [self.type == 'sub-flow'].  The other
    properties of the class are not read by the visualizer and are left
    out of the table. *)
Definition Flow (oid : positive)
    (flow_id description flow_type source processors file_name : pyval) : pyval :=
  PObj oid
    [ ("id", flow_id); ("description", description); ("type", flow_type);
      ("source", source); ("processors", or_default processors (PList []));
      ("file_name", file_name); ("transformations", PList []);
      ("is_subflow", PBool (eq_text flow_type "sub-flow")) ].

(** [Flow.from_dict(data)]: [data.get] exists on dictionaries only. *)
Definition Flow_from_dict (oid : positive) (data : pyval) : result pyval :=
  match data with
  | PDict d =>
      Ok (Flow oid (dict_get d "id" (PStr "Unknown"))
            (dict_get d "description" (PStr EmptyString))
            (dict_get d "type" (PStr "flow"))
            (dict_get d "source" PNone)
            (dict_get d "processors" (PList []))
            (dict_get d "file" (PStr "Unknown")))
  | _ => Raise AttributeError
  end.

(** [Interface.__init__]. *)
Definition Interface (oid : positive)
    (name description flows configs xml_files : pyval) : pyval :=
  PObj oid
    [ ("name", name); ("description", description);
      ("flows", or_default flows (PList []));
      ("global_configs", or_default configs (PDict []));
      ("xml_files", or_default xml_files (PList [])) ].

(** [d[key] = value] on a dictionary with text keys. *)
Fixpoint sdict_set (key : string) (value : pyval) (d : list (string * pyval))
    : list (string * pyval) :=
  match d with
  | [] => [(key, value)]
  | (k, v) :: d' =>
      if String.eqb k key then (k, value) :: d' else (k, v) :: sdict_set key value d'
  end.

(** The first loop of [from_parser_result]: one [Flow] per record, each
    a new object. *)
Fixpoint make_flows (next : positive) (records : list pyval) : result (list pyval) :=
  match records with
  | [] => Ok []
  | record :: rest =>
      flow ← Flow_from_dict next record;
      flows ← make_flows (Pos.succ next) rest;
      Ok (flow :: flows)
  end.

(** [d.items()]. *)
Definition items (v : pyval) : result (list (string * pyval)) :=
  match v with
  | PDict d => Ok d
  | _ => Raise AttributeError
  end.

(** [Interface.from_parser_result(name, parser_result, description)];
    the interface is the object [next], the flows are the objects that
    follow. *)
Definition from_parser_result (next : positive) (name parser_result description : pyval)
    : result pyval :=
  match parser_result with
  | PDict pr =>
      records ← iterate (dict_get pr "flows" (PList []));
      flows ← make_flows (Pos.succ next) records;
      configs ← items (dict_get pr "global_configs" (PDict []));
      let global_configs :=
        foldl (fun d kv => sdict_set (fst kv) (snd kv) d) [] configs in
      Ok (PObj next
            [ ("name", name); ("description", description);
              ("flows", PList flows);
              ("global_configs", PDict global_configs);
              ("xml_files", PList []) ])
  | _ => Raise AttributeError
  end.

(** The sub-flow flag and the source of a flow given as a dictionary or
    as an object, as [source_flows] and [subflows] read them. *)
Definition flow_signals (flow : pyval) : pyval * pyval :=
  match flow with
  | PDict d =>
      (PBool (eq_text (dict_get d "type" PNone) "sub-flow"), dict_get d "source" PNone)
  | _ =>
      (getattr flow "is_subflow" (PBool false), getattr flow "source" PNone)
  end.


(** The property [Interface.subflows]. *)
Definition subflows (interface : pyval) : result (list pyval) :=
  flows ← read_flows interface;
  flows ← iterate flows;
  Ok (List.filter (fun flow => truthy (fst (flow_signals flow))) flows).

Definition get_subflows (interface : pyval) : result (list pyval) :=
  subflows interface.

(** [v.get(key, default)]: a method of dictionaries.  On an object the
    name [get] is looked up like any attribute, and an attribute that
    holds data cannot be called; no other value has the method. *)
Definition method_get (v : pyval) (key : string) (default : pyval) : result pyval :=
  match v with
  | PDict d => Ok (dict_get d key default)
  | PObj _ _ =>
      match attr v "get" with
      | Some _ => Raise TypeError
      | None => Raise AttributeError
      end
  | _ => Raise AttributeError
  end.

(** The five local flags of [infer_purpose]. *)
Record purpose_flags : Type := Flags {
  has_file_input : bool;
  has_file_output : bool;
  has_sftp_input : bool;
  has_sftp_output : bool;
  has_http_endpoints : bool
}.

Definition no_flags : purpose_flags := Flags false false false false false.

(** The test of the source of one flow. *)
Definition source_step (f : purpose_flags) (source : pyval) : result purpose_flags :=
  if truthy source then
    source_type ← method_get source "type" (PStr EmptyString);
    if eq_text source_type "file-listener" then
      Ok (Flags true (has_file_output f) (has_sftp_input f) (has_sftp_output f)
            (has_http_endpoints f))
    else if eq_text source_type "sftp-listener" then
      Ok (Flags (has_file_input f) (has_file_output f) true (has_sftp_output f)
            (has_http_endpoints f))
    else if eq_text source_type "http-listener" then
      Ok (Flags (has_file_input f) (has_file_output f) (has_sftp_input f)
            (has_sftp_output f) true)
    else Ok f
  else Ok f.

(** Body of the loop over the processors of one flow. *)
Definition output_step (f : purpose_flags) (processor : pyval) : result purpose_flags :=
  kind ← method_get processor "type" PNone;
  if eq_text kind "file:write" then
    Ok (Flags (has_file_input f) true (has_sftp_input f) (has_sftp_output f)
          (has_http_endpoints f))
  else
    kind ← method_get processor "type" PNone;
    if eq_text kind "sftp:write" then
      Ok (Flags (has_file_input f) (has_file_output f) (has_sftp_input f) true
            (has_http_endpoints f))
    else Ok f.

(** Body of the loop over [self.flows]. *)
Definition purpose_step (f : purpose_flags) (flow : pyval) : result purpose_flags :=
  let '(source, processors) :=
    match flow with
    | PDict d => (dict_get d "source" PNone, dict_get d "processors" (PList []))
    | _ => (getattr flow "source" PNone, getattr flow "processors" (PList []))
    end in
  f ← source_step f source;
  processors ← iterate processors;
  FlowVisualizer.for_each output_step f processors.

Definition purpose_text (f : purpose_flags) : string :=
  if (has_file_input f || has_sftp_input f) && (has_file_output f || has_sftp_output f)
  then "File Transfer/Transformation"
  else if has_http_endpoints f then "API Service"
  else if has_file_input f || has_sftp_input f then "File Import"
  else if has_file_output f || has_sftp_output f then "File Export"
  else "Unknown Purpose".

(** [Interface.infer_purpose]. *)
Definition infer_purpose (interface : pyval) : result string :=
  flows ← read_flows interface;
  flows ← iterate flows;
  f ← FlowVisualizer.for_each purpose_step no_flags flows;
  Ok (purpose_text f).

End Model.

(** ** Further vocabulary *)

Module Shape.
Import Py FlowVisualizer Adapter Spec Model.

Fixpoint has_char (c : ascii) (s : string) : bool :=
  match s with
  | EmptyString => false
  | String x s' => Ascii.eqb x c || has_char c s'
  end.

(** The characters that [_escape_text] rewrites. *)
Definition special_chars : list ascii :=
  [ "034"; "["; "]"; "<"; ">"; "&"; "092" ]%char.

Fixpoint length_of (s : string) : nat :=
  match s with
  | EmptyString => O
  | String _ s' => S (length_of s')
  end.

(** The line is an edge line. *)
Definition is_edge (line : string) : bool :=
  match edge_ends line with Some _ => true | None => false end.

(** A value that is hashable and that [json.dump] accepts. *)
Definition simple (v : pyval) : bool :=
  match v with
  | PNone | PBool _ | PInt _ | PStr _ => true
  | _ => false
  end.

Definition is_dict (v : pyval) : bool :=
  match v with
  | PDict _ => true
  | _ => false
  end.

Definition iterable (v : pyval) : bool :=
  match iterate v with Ok _ => true | Raise _ => false end.

(** The processors of the flow, when it has the attribute, are a list of
    dictionaries. *)
Definition dict_processors (flow : pyval) : bool :=
  match attr flow "processors" with
  | None => true
  | Some (PList processors) => forallb is_dict processors
  | Some _ => false
  end.

(** The second loop cannot raise on the flow: its processors, if any,
    can be iterated, and its identifier can be a dictionary key. *)
Definition loop_safe (flow : pyval) : bool :=
  no_id flow
  || ((negb (hasattr flow "processors") || iterable (dot flow "processors"))
      && hashable (dot flow "id")).

(** The processors that the second loop scans, as a function: none
    without the attribute or when the attribute cannot be iterated. *)
Definition processors_of (flow : pyval) : list pyval :=
  if hasattr flow "processors"
  then match iterate (dot flow "processors") with Ok ps => ps | Raise _ => [] end
  else [].

(** [generate_visualization] cannot raise on the flow: on top of
    [loop_safe], its name in the graph is a simple value and the names
    its processors refer to are hashable. *)
Definition viz_safe (flow : pyval) : bool :=
  loop_safe flow && simple (viz_id flow)
  && forallb (fun p => hashable (ref_name_of p)) (processors_of flow).


(** The five events of a successful [generate_visualization]. *)
Definition success_log (output_dir : string) (text : string) (data : flow_data)
    : list event :=
  [ Mkdir (path_join output_dir "static");
    Opened (path_join output_dir mermaid_file);
    Wrote (path_join output_dir mermaid_file) (Text text);
    Opened (path_join output_dir d3_file);
    Wrote (path_join output_dir d3_file) (Json data) ].

(** The file system after further events. *)
Definition logged (w : world) (events : list event) : world :=
  World (mkdir_ok w) (open_ok w) (write_ok w) (log w ++ events).

(** Every file-system call of [generate_visualization] succeeds. *)
Definition fs_ok (w : world) (output_dir : string) : Prop :=
  mkdir_ok w (path_join output_dir "static") = true
  /\ open_ok w (path_join output_dir mermaid_file) = true
  /\ write_ok w (path_join output_dir mermaid_file) = true
  /\ open_ok w (path_join output_dir d3_file) = true
  /\ write_ok w (path_join output_dir d3_file) = true.

(** An entry of the reference index that the loop over the index can
    look up: the key and the targets are hashable. *)
Definition hashable_entry (entry : pyval * list pyval) : Prop :=
  hashable entry.1 = true /\ Forall (fun t => hashable t = true) entry.2.

(** The position, counted from [start], of the last flow whose name in
    the graph is, as a dictionary key, [key]. *)
Fixpoint last_named (start : nat) (key : pyval) (flows : list pyval) : option nat :=
  match flows with
  | [] => None
  | flow :: rest =>
      match last_named (S start) key rest with
      | Some i => Some i
      | None => if key_eqb (viz_id flow) key then Some start else None
      end
  end.

(** The links that one entry of the reference index stands for. *)
Definition links_of (flows : list pyval) (entry : pyval * list pyval)
    : list (nat * nat) :=
  match last_named 0 (fst entry) flows with
  | Some source_idx =>
      flat_map
        (fun target =>
           match last_named 0 target flows with
           | Some target_idx => [(source_idx, target_idx)]
           | None => []
           end)
        (snd entry)
  | None => []
  end.

(** The flags raised in either of two sets. *)
Definition flags_or (a b : purpose_flags) : purpose_flags :=
  Flags (has_file_input a || has_file_input b)
        (has_file_output a || has_file_output b)
        (has_sftp_input a || has_sftp_input b)
        (has_sftp_output a || has_sftp_output b)
        (has_http_endpoints a || has_http_endpoints b).

(** A loop body that raises flags which depend on the element alone. *)
Definition additive {A} (body : purpose_flags -> A -> result purpose_flags) : Prop :=
  forall f x, body f x = (g ← body no_flags x; Ok (flags_or f g)).


(** A flow record whose source is absent or a dictionary, the shape
    [_extract_source] gives it. *)
Definition parsed_source (record : pyval) : bool :=
  match record with
  | PDict d =>
      match dict_get d "source" PNone with
      | PNone | PDict _ => true
      | _ => false
      end
  | _ => false
  end.

(** A flow record whose processors are a list of dictionaries, the shape
    [_extract_processors] gives them. *)
Definition parsed_record (record : pyval) : bool :=
  match record with
  | PDict d =>
      match dict_get d "processors" (PList []) with
      | PList processors => forallb is_dict processors
      | _ => false
      end
  | _ => false
  end.

Section Invariants.

Variable repr_text : pyval -> string.

(** Invariant of the two loops: the header, two lines per registered
    identifier, one line per link. *)
Definition counted (b : builder) : Prop :=
  length (mermaid_diagram b) = (1 + 2 * size (nodes b) + size (links b))%nat.

(** A reference list of the flow [flow_id]: truthy names of registered
    flows, no two with the same normalized identifier, the edge of each
    in [links]. *)
Definition references_ok (flow_id : string) (b : builder) (references : list pyval) : Prop :=
  Forall (fun t => truthy t = true
                   /\ _sanitize_id repr_text t ∈ nodes b
                   /\ edge_line flow_id (_sanitize_id repr_text t) ∈ links b)
    references
  /\ NoDup (map (_sanitize_id repr_text) references).

(** An entry of the reference index: the key is, as a dictionary key, the
    identifier of a flow of the input, and the targets are a reference
    list of that flow. *)
Definition entry_ok (flows : list pyval) (b : builder)
    (entry : pyval * list pyval) : Prop :=
  exists flow,
    flow ∈ flows /\ no_id flow = false
    /\ key_eqb (fst entry) (dot flow "id") = true
    /\ references_ok (_sanitize_id repr_text (dot flow "id")) b (snd entry).

(** Invariant of the second loop on edges: both ends are registered. *)
Definition ends_known (known : gset string) (b : builder) : Prop :=
  nodes b = known
  /\ forall l, l ∈ links b ->
       exists a c, a ∈ known /\ c ∈ known /\ l = edge_line a c.

End Invariants.

End Shape.

(** ** Further sample inputs *)

Module MoreSamples.
Import Py FlowVisualizer Adapter Model Samples.

(** A flow record as [MuleFileXmlParser.get_flows] builds it. *)
Definition record (id kind : string) (source : pyval) (processors : list pyval) : pyval :=
  PDict [ ("id", PStr id); ("description", PStr "Flow");
          ("source", source); ("processors", PList processors);
          ("type", PStr kind) ].

(** A processor as [_extract_processors] builds it. *)
Definition dict_ref (target : string) : pyval :=
  PDict [ ("type", PStr "flow-ref"); ("attributes", PDict [("name", PStr target)]) ].

Definition records : list pyval :=
  [ record "main" "flow" http [dict_ref "helper"];
    record "helper" "sub-flow" PNone [] ].

Definition parser_entries : list (string * pyval) :=
  [ ("flows", PList records);
    ("global_configs", PDict [("http", PDict [("port", PStr "8081")])]) ].

Definition parser_result : pyval := PDict parser_entries.

(** The interface that [from_parser_result] builds from [parser_result]. *)
Definition parsed_interface : pyval :=
  match from_parser_result 1 (PStr "sample") parser_result (PStr EmptyString) with
  | Ok interface => interface
  | Raise _ => PNone
  end.

(** Flow objects whose processors are dictionaries. *)
Definition parsed_flows : list pyval :=
  [ Flow 11 (PStr "main") (PStr "Flow") (PStr "flow") http
      (PList [dict_ref "helper"]) (PStr "Unknown");
    Flow 12 (PStr "helper") (PStr "Flow") (PStr "sub-flow") PNone
      (PList []) (PStr "Unknown") ].

(** Records of a file listener and of a sub-flow that writes over SFTP. *)
Definition transfer : list pyval :=
  [ record "in" "flow" (PDict [("type", PStr "file-listener")])
      [PDict [("type", PStr "logger")]];
    record "out" "sub-flow" PNone [PDict [("type", PStr "sftp:write")]] ].

(** An interface whose flows cannot be iterated. *)
Definition not_iterable : pyval := PObj 1 [("flows", PInt 5)].

(** Two flows that refer to each other, and a flow with an unknown target. *)
Definition linked : list pyval :=
  [ mk_flow 2 "A" false http [flow_ref "B"; flow_ref "missing"];
    mk_flow 3 "B" true PNone [flow_ref "A"; flow_ref "A"] ].

(** The lines, the reference index and the graph of [linked]. *)
Definition linked_lines : list string :=
  [ "graph TD"; "A(A)"; "style A fill:#e8f5e9,stroke:#2e7d32";
    "B[B]"; "style B fill:#e1f5fe,stroke:#0277bd"; "A --> B"; "B --> A" ].

Definition linked_refs : list (pyval * list pyval) :=
  [ (PStr "A", [PStr "B"]); (PStr "B", [PStr "A"]) ].

Definition linked_data : flow_data :=
  FlowData [ VizNode 0 (PStr "A") "source"; VizNode 1 (PStr "B") "subflow" ]
           [ (0, 1); (1, 0) ]%nat.

(** A file system on which no directory can be created. *)
Definition no_mkdir : world :=
  World (fun _ => false) (fun _ => true) (fun _ => true) [].

End MoreSamples.

(** * Properties *)

Import Py FlowVisualizer Adapter Spec Samples.

(** ** Text *)

Lemma append_cons (x : ascii) (a b : string) :
  String x a +:+ b = String x (a +:+ b).
Proof. reflexivity. Qed.

Lemma append_nil (b : string) : EmptyString +:+ b = b.
Proof. reflexivity. Qed.

(** ** The identifier normalizer *)

Section Normalizer.

Variable repr_text : pyval -> string.

Local Abbreviation str := (Py.str repr_text).
Local Abbreviation _sanitize_id := (FlowVisualizer._sanitize_id repr_text).

Lemma word_char_isalpha c : word_char c = true -> isalpha c = ascii_letter c.
Proof.
  destruct c as [[] [] [] [] [] [] [] []]; vm_compute; congruence.
Qed.

Lemma word_char_sub c : word_char (if word_char c then c else "_"%char) = true.
Proof. destruct (word_char c) eqn:E; [exact E | reflexivity]. Qed.

Lemma all_word_re_sub s : all_word (re_sub_nonword s) = true.
Proof.
  induction s as [|c s IH]; [reflexivity|].
  cbn [re_sub_nonword map_chars all_word].
  rewrite word_char_sub. exact IH.
Qed.

Lemma all_word_sanitize v : all_word (_sanitize_id v) = true.
Proof.
  unfold FlowVisualizer._sanitize_id.
  destruct (truthy v); cbn [negb]; [|reflexivity].
  pose proof (all_word_re_sub (str v)) as H.
  destruct (re_sub_nonword (str v)) as [|c r]; [reflexivity|].
  destruct (isalpha c); cbn [negb]; [exact H|].
  change (all_word ("f_" +:+ String c r)) with (all_word (String c r)).
  exact H.
Qed.

Lemma re_sub_nonempty s : s <> EmptyString -> re_sub_nonword s <> EmptyString.
Proof. destruct s; [congruence | discriminate]. Qed.

Lemma sanitize_valid v :
  truthy v = true -> str v <> EmptyString ->
  valid_identifier (_sanitize_id v) = true.
Proof.
  intros Ht Hs. unfold FlowVisualizer._sanitize_id. rewrite Ht. cbn [negb].
  pose proof (all_word_re_sub (str v)) as H.
  pose proof (re_sub_nonempty _ Hs) as Hne.
  destruct (re_sub_nonword (str v)) as [|c r]; [congruence|].
  cbn [all_word] in H. apply andb_true_iff in H as [Hc Hr].
  destruct (isalpha c) eqn:Ha; cbn [negb].
  - cbn [valid_identifier]. rewrite <- (word_char_isalpha c Hc), Ha. exact Hr.
  - change (valid_identifier ("f_" +:+ String c r)) with (all_word (String c r)).
    cbn [all_word]. rewrite Hc. exact Hr.
Qed.



Lemma re_sub_char c d :
  d <> "_"%char -> (if word_char c then c else "_"%char) = d -> c = d.
Proof. destruct (word_char c); congruence. Qed.

Lemma re_sub_unknown s : re_sub_nonword s = "unknown" -> s = "unknown".
Proof.
  unfold re_sub_nonword. intros H.
  do 7 (destruct s as [|? s]; [discriminate H|];
        cbn [map_chars] in H; injection H as Hc H;
        apply re_sub_char in Hc; [subst|discriminate]).
  destruct s; [reflexivity | discriminate H].
Qed.

(** Among the texts, only the empty one and [unknown] itself are
    normalized to [unknown]. *)
Lemma sanitize_unknown_iff s :
  _sanitize_id (PStr s) = "unknown" <-> s = EmptyString \/ s = "unknown".
Proof.
  split; [|intros [-> | ->]; reflexivity].
  intros H. destruct s as [|c s]; [by left|]. right.
  unfold FlowVisualizer._sanitize_id in H.
  change (truthy (PStr (String c s))) with true in H. cbn [negb] in H.
  change (str (PStr (String c s))) with (String c s) in H.
  apply re_sub_unknown.
  remember (re_sub_nonword (String c s)) as t eqn:Et.
  destruct t as [|x t]; [discriminate H|].
  destruct (isalpha x); cbn [negb] in H; [exact H|].
  rewrite !append_cons in H. discriminate H.
Qed.

End Normalizer.

Example sanitize_my_flow :
  FlowVisualizer._sanitize_id sample_repr (PStr "My Flow!") = "My_Flow_".
Proof. reflexivity. Qed.

Example sanitize_leading_digit :
  FlowVisualizer._sanitize_id sample_repr (PStr "1Flow") = "f_1Flow".
Proof. reflexivity. Qed.


(** ** Display labels *)

Section Labels.

Variable repr_text : pyval -> string.

Local Abbreviation str := (Py.str repr_text).
Local Abbreviation _escape_text := (FlowVisualizer._escape_text repr_text).

Lemma replace_quotes n : replace "034" EmptyString (quotes n) = EmptyString.
Proof. induction n as [|n IH]; [reflexivity | exact IH]. Qed.

Lemma escape_rules_quotes n : escape_rules (quotes n) = EmptyString.
Proof. unfold escape_rules. rewrite replace_quotes. reflexivity. Qed.

Lemma escape_text_rules text :
  _escape_text text =
  if truthy text then escape_rules (str text) else "Unnamed Flow".
Proof.
  unfold FlowVisualizer._escape_text, escape_rules.
  destruct (truthy text); reflexivity.
Qed.

(** C4, as the code has it.  The fallback [Unnamed Flow] is decided on the
    label before escaping: an empty or absent label gives the fallback,
    and a non-empty label gives its escaped text, also when that text is
    empty.  A label of double quotes only is escaped to the empty text. *)
Theorem escape_text_fallback_before_escaping :
  (forall text : pyval,
     (truthy text = false -> _escape_text text = "Unnamed Flow")
     /\ (truthy text = true -> _escape_text text = escape_rules (str text)))
  /\ (forall n : nat, _escape_text (PStr (quotes (S n))) = EmptyString).
Proof.
  split.
  - intros text. rewrite escape_text_rules.
    split; intros ->; reflexivity.
  - intros n. rewrite escape_text_rules.
    change (truthy (PStr (quotes (S n)))) with true.
    change (str (PStr (quotes (S n)))) with (quotes (S n)).
    apply escape_rules_quotes.
Qed.

End Labels.

(** C4 fails as stated: the label of two double quotes is empty after
    escaping, and [_escape_text] returns that empty text, not the
    fallback. *)
Lemma escape_text_no_late_fallback :
  escape_rules (Py.str sample_repr (PStr (quotes 2))) = EmptyString
  /\ FlowVisualizer._escape_text sample_repr (PStr (quotes 2)) = EmptyString
  /\ FlowVisualizer._escape_text sample_repr (PStr (quotes 2)) <> "Unnamed Flow".
Proof.
  split; [reflexivity|]. split; [reflexivity | discriminate].
Qed.

Lemma escape_text_witness :
  FlowVisualizer._escape_text sample_repr (PStr "a[b]") = "a(b)".
Proof.
  apply (proj2 (proj1 (escape_text_fallback_before_escaping sample_repr) (PStr "a[b]"))).
  reflexivity.
Defined.

(** ** Empty input *)

Section EmptyInput.

Variable repr_text : pyval -> string.

Local Abbreviation generate_flow_diagram := (FlowVisualizer.generate_flow_diagram repr_text).
Local Abbreviation diagram_lines := (FlowVisualizer.diagram_lines repr_text).

(** C9. Without an interface, without a [flows] attribute, or with an
    empty or absent flow collection, [generate_flow_diagram] returns
    normally: the diagram has the header and the single node
    [A[No flows found]], no edge line, and the reference index is empty. *)
Theorem no_flows_is_normal_return (interface : pyval) :
  truthy interface = false \/ hasattr interface "flows" = false
    \/ truthy (dot interface "flows") = false ->
  generate_flow_diagram interface
    = Ok (join_lines ["graph TD"; "A[No flows found]"], [])
  /\ diagram_lines interface = Ok ["graph TD"; "A[No flows found]"]
  /\ map decl_id ["graph TD"; "A[No flows found]"] = [None; Some "A"]
  /\ map edge_ends ["graph TD"; "A[No flows found]"] = [None; None].
Proof.
  intros H.
  assert (Hn : no_flows interface = true).
  { unfold no_flows. destruct H as [-> | [-> | ->]]; cbn [negb];
      rewrite ?orb_true_r; reflexivity. }
  unfold FlowVisualizer.generate_flow_diagram, FlowVisualizer.diagram_lines.
  rewrite Hn. repeat split.
Qed.

End EmptyInput.

Lemma no_flows_witness :
  FlowVisualizer.generate_flow_diagram sample_repr (mk_interface [])
    = Ok (join_lines ["graph TD"; "A[No flows found]"], [])
  /\ FlowVisualizer.generate_flow_diagram sample_repr PNone
    = Ok (join_lines ["graph TD"; "A[No flows found]"], []).
Proof.
  split.
  - apply (no_flows_is_normal_return sample_repr (mk_interface [])).
    right. right. reflexivity.
  - apply (no_flows_is_normal_return sample_repr PNone).
    left. reflexivity.
Defined.

(** ** Flow references *)

Section References.

Variable repr_text : pyval -> string.

Local Abbreviation processor_step := (FlowVisualizer.processor_step repr_text).

(** C3, as the code has it.  On a processor of type [flow-ref] the
    target name is [config.name] whenever the processor has a [config]
    with a [name] attribute, empty or not; the flat [name] is read only
    when there is no such attribute.  A processor whose target name is
    empty leaves the diagram and the references as they are. *)
Theorem flow_ref_target_by_presence (processor : pyval) :
  hasattr processor "type" = true ->
  eq_text (dot processor "type") "flow-ref" = true ->
  (forall config name,
     attr processor "config" = Some config -> attr config "name" = Some name ->
     ref_name_of processor = name)
  /\ ((forall config,
         attr processor "config" = Some config -> attr config "name" = None) ->
      ref_name_of processor = getattr processor "name" PNone)
  /\ (truthy (ref_name_of processor) = false ->
      forall flow_id st, processor_step flow_id st processor = st).
Proof.
  intros Ht He. unfold ref_name_of. rewrite Ht, He. cbn [andb].
  repeat split.
  - intros config name Hc Hn. unfold hasattr, dot, getattr.
    rewrite Hc. cbv beta iota. rewrite Hn. reflexivity.
  - intros Hno. unfold hasattr, dot, getattr.
    destruct (attr processor "config") as [config|] eqn:Hc.
    + cbv beta iota. rewrite (Hno config eq_refl). cbn [andb].
      destruct (attr processor "name"); reflexivity.
    + cbn [andb]. destruct (attr processor "name"); reflexivity.
  - intros Hf flow_id [b references].
    unfold FlowVisualizer.processor_step, ref_name_of.
    rewrite Ht, He. cbn [andb].
    rewrite Hf. reflexivity.
Qed.

End References.

(** C3 fails as stated: with an empty [config.name] the flat name [B] is
    not used, although the flow [B] exists; the diagram has no edge and
    the reference index is empty. *)
Lemma empty_config_name_hides_flat_name :
  dot empty_config_name "name" = PStr "B"
  /\ ref_name_of empty_config_name = PStr EmptyString
  /\ ref_name_of empty_config_name <> PStr "B"
  /\ FlowVisualizer.generate_flow_diagram sample_repr (mk_interface caller_and_target)
     = Ok (join_lines
             ["graph TD"; "A(A)"; "style A fill:#e8f5e9,stroke:#2e7d32";
              "B[B]"; "style B fill:#f9f9f9,stroke:#333"], []).
Proof.
  split; [reflexivity|]. split; [reflexivity|]. split; [discriminate|].
  vm_compute. reflexivity.
Qed.

Lemma flow_ref_target_witness :
  ref_name_of empty_config_name = PStr EmptyString
  /\ ref_name_of (flow_ref "B") = PStr "B".
Proof.
  split.
  - apply (proj1 (flow_ref_target_by_presence sample_repr empty_config_name
                    eq_refl eq_refl)
             (PObj 92 [("name", PStr EmptyString)]) (PStr EmptyString));
      reflexivity.
  - apply (proj1 (proj2 (flow_ref_target_by_presence sample_repr (flow_ref "B")
                           eq_refl eq_refl))).
    intros config H. discriminate H.
Defined.

(** ** Classification *)

Section Classification.

Variable repr_text : pyval -> string.

Local Abbreviation _escape_text := (FlowVisualizer._escape_text repr_text).
Local Abbreviation node_lines := (FlowVisualizer.node_lines repr_text).

(** The branch of [node_lines] is the shape of the category. *)
Lemma node_lines_shape flow_id flow :
  node_lines flow_id flow =
  let '(opening, closing, style) := shape (classify flow) in
  [ flow_id +:+ opening +:+ _escape_text (label_of flow) +:+ closing;
    "style " +:+ flow_id +:+ " " +:+ style ].
Proof.
  unfold FlowVisualizer.node_lines, classify.
  destruct (hasattr flow "is_subflow" && truthy (dot flow "is_subflow"));
    [reflexivity|].
  destruct (hasattr flow "source" && truthy (dot flow "source")); reflexivity.
Qed.

Lemma viz_type_of_object flow :
  hasattr flow "is_subflow" = true ->
  viz_type_of flow
  = viz_type (getattr flow "is_subflow" (PBool false)) (getattr flow "source" PNone).
Proof.
  unfold hasattr, attr. destruct flow; try discriminate. reflexivity.
Qed.

Lemma getattr_dot flow name default :
  hasattr flow name = true -> getattr flow name default = dot flow name.
Proof.
  unfold hasattr, dot, getattr. destruct (attr flow name); [reflexivity|discriminate].
Qed.

(** C1, as the code has it.  A flow record that has a true sub-flow flag
    and a non-empty source is REUSABLE in the diagram (bracket node,
    light-blue style) and gets the type [source], that is ENTRY, in the
    visualization: in [generate_visualization] the source overrides the
    sub-flow flag, so the two outputs do not agree. *)
Theorem both_signals_disagree (flow : pyval) (flow_id : string) :
  hasattr flow "is_subflow" = true -> truthy (dot flow "is_subflow") = true ->
  hasattr flow "source" = true -> truthy (dot flow "source") = true ->
  classify flow = REUSABLE
  /\ node_lines flow_id flow
     = [ flow_id +:+ "[" +:+ _escape_text (label_of flow) +:+ "]";
         "style " +:+ flow_id +:+ " fill:#e1f5fe,stroke:#0277bd" ]
  /\ viz_type_of flow = "source"
  /\ type_category (viz_type_of flow) = Some ENTRY.
Proof.
  intros Hs Hst Hr Hrt.
  assert (Hc : classify flow = REUSABLE).
  { unfold classify. rewrite Hs, Hst. reflexivity. }
  assert (Hv : viz_type_of flow = "source").
  { rewrite (viz_type_of_object flow Hs).
    rewrite (getattr_dot flow "source" PNone Hr).
    unfold viz_type. rewrite Hrt. reflexivity. }
  split; [exact Hc|]. split.
  - rewrite node_lines_shape, Hc. reflexivity.
  - rewrite Hv. split; reflexivity.
Qed.

End Classification.

(** C1 fails as stated: the sub-flow [Job] with an HTTP source is drawn
    as a REUSABLE node, and its visualization node has the type [source]. *)
Lemma both_signals_not_reusable_twice :
  FlowVisualizer.diagram_lines sample_repr (mk_interface [both_signals])
    = Ok ["graph TD"; "Job[Job]"; "style Job fill:#e1f5fe,stroke:#0277bd"]
  /\ classify both_signals = REUSABLE
  /\ build_flow_data (mk_interface [both_signals]) []
     = Ok (FlowData [VizNode 0 (PStr "Job") "source"] [])
  /\ type_category (viz_type_of both_signals) <> Some REUSABLE.
Proof.
  split; [vm_compute; reflexivity|]. split; [reflexivity|].
  split; [vm_compute; reflexivity|]. discriminate.
Qed.

Lemma both_signals_witness :
  classify both_signals = REUSABLE
  /\ type_category (viz_type_of both_signals) = Some ENTRY.
Proof.
  pose proof (both_signals_disagree sample_repr both_signals "Job"
                eq_refl eq_refl eq_refl eq_refl) as H.
  split; [exact (proj1 H) | exact (proj2 (proj2 (proj2 H)))].
Defined.

(** ** The lines of a diagram *)

Section LineGrammar.

Lemma split_word_app w rest :
  all_word w = true -> word_end rest = true ->
  split_word (w +:+ rest) = (w, rest).
Proof.
  intros Hw Hr. induction w as [|c w IH].
  - rewrite append_nil. destruct rest as [|c r]; [reflexivity|].
    cbn [split_word]. cbn [word_end] in Hr.
    apply negb_true_iff in Hr. by rewrite Hr.
  - cbn [all_word] in Hw. apply andb_true_iff in Hw as [Hc Hw].
    rewrite append_cons. cbn [split_word]. rewrite Hc, (IH Hw). reflexivity.
Qed.

Lemma eqb_word_char a c :
  word_char a = false -> word_char c = true -> Ascii.eqb a c = false.
Proof.
  intros Ha Hc. destruct (Ascii.eqb a c) eqn:E; [|reflexivity].
  apply Ascii.eqb_eq in E. congruence.
Qed.

(** A node declaration reads as one, and as nothing else. *)
Lemma read_declaration id (bracket : ascii) label :
  all_word id = true -> bracket = "["%char \/ bracket = "("%char ->
  let line := id +:+ String bracket label in
  decl_id line = Some id /\ style_id line = None /\ edge_ends line = None.
Proof.
  intros Hid Hb line. subst line.
  unfold decl_id, style_id, edge_ends.
  rewrite (split_word_app id (String bracket label) Hid)
    by (destruct Hb as [-> | ->]; reflexivity).
  destruct Hb as [-> | ->]; cbn;
    destruct (String.eqb id "style"); auto.
Qed.

Lemma strip_arrow_word id rest :
  all_word id = true ->
  strip_prefix " --> " (String " " (id +:+ String " " rest)) = None.
Proof.
  intros Hid.
  change (strip_prefix "--> " (id +:+ String " " rest) = None).
  destruct id as [|x id]; [reflexivity|].
  cbn [all_word] in Hid. apply andb_true_iff in Hid as [Hx _].
  rewrite append_cons.
  change (strip_prefix "--> " (String x (id +:+ String " " rest)))
    with (if Ascii.eqb "-" x
          then strip_prefix "-> " (id +:+ String " " rest) else None).
  rewrite (eqb_word_char "-" x eq_refl Hx). reflexivity.
Qed.

(** A style line reads as one, and as nothing else. *)
Lemma read_style id c :
  all_word id = true ->
  let line := "style " +:+ id +:+ " " +:+ snd (shape c) in
  decl_id line = None /\ style_id line = Some id /\ edge_ends line = None.
Proof.
  intros Hid line. subst line.
  change ("style " +:+ id +:+ " " +:+ snd (shape c))
    with ("style" +:+ String " " (id +:+ String " " (snd (shape c)))).
  unfold decl_id, style_id, edge_ends.
  rewrite (split_word_app "style" (String " " (id +:+ String " " (snd (shape c))))
             eq_refl eq_refl).
  split; [reflexivity|]. split.
  - change (String.eqb "style" "style") with true. cbv iota.
    change (strip_prefix " " (String " " (id +:+ String " " (snd (shape c)))))
      with (Some (id +:+ String " " (snd (shape c)))).
    cbv iota beta.
    rewrite (split_word_app id (String " " (snd (shape c))) Hid eq_refl).
    destruct c; reflexivity.
  - rewrite (strip_arrow_word id _ Hid). reflexivity.
Qed.

(** An edge line reads as one, and as nothing else. *)
Lemma read_edge a c :
  all_word a = true -> all_word c = true ->
  let line := edge_line a c in
  decl_id line = None /\ style_id line = None /\ edge_ends line = Some (a, c).
Proof.
  intros Ha Hc line. subst line. unfold edge_line.
  change (a +:+ " --> " +:+ c) with (a +:+ String " " ("--> " +:+ c)).
  unfold decl_id, style_id, edge_ends.
  rewrite (split_word_app a (String " " ("--> " +:+ c)) Ha eq_refl).
  split; [reflexivity|]. split.
  - destruct (String.eqb a "style"); reflexivity.
  - change (strip_prefix " --> " (String " " ("--> " +:+ c))) with (Some c).
    cbv iota beta. rewrite Hc. reflexivity.
Qed.

Lemma edge_line_inj a c a' c' :
  all_word a = true -> all_word c = true ->
  all_word a' = true -> all_word c' = true ->
  edge_line a c = edge_line a' c' -> a = a' /\ c = c'.
Proof.
  intros Ha Hc Ha' Hc' E.
  pose proof (proj2 (proj2 (read_edge a c Ha Hc))) as H1.
  pose proof (proj2 (proj2 (read_edge a' c' Ha' Hc'))) as H2.
  cbv zeta in H1, H2. rewrite E, H2 in H1. by inversion H1.
Qed.

End LineGrammar.

(** ** The two loops *)

Ltac unfold_bind := unfold mbind, result_mbind, bind in *.

Section Loops.

Context {S A : Type} (P : S -> Prop) (body : S -> A -> result S).

Hypothesis body_keeps : forall s x s', P s -> body s x = Ok s' -> P s'.

Lemma for_each_keeps xs : forall s s', P s -> for_each body s xs = Ok s' -> P s'.
Proof.
  induction xs as [|x xs IH]; intros s s' Hs H; cbn in H.
  - by inversion H; subst.
  - unfold_bind. destruct (body s x) as [s1|] eqn:E; [|discriminate].
    eapply IH; [|exact H]. eapply body_keeps; eassumption.
Qed.

End Loops.

Section FirstPass.

Variable repr_text : pyval -> string.

Local Abbreviation _sanitize_id := (FlowVisualizer._sanitize_id repr_text).
Local Abbreviation node_lines := (FlowVisualizer.node_lines repr_text).
Local Abbreviation node_step := (FlowVisualizer.node_step repr_text).
Local Abbreviation first_pass_lines := (Spec.first_pass_lines repr_text).
Local Abbreviation has_safe_id := (Spec.has_safe_id repr_text).
Local Abbreviation first_with := (Spec.first_with repr_text).

Lemma append_lines ls : forall b,
  let b' := foldl (fun b line => append_line line b) b ls in
  nodes b' = nodes b /\ links b' = links b
  /\ flow_references b' = flow_references b
  /\ mermaid_diagram b' = mermaid_diagram b ++ ls.
Proof.
  induction ls as [|l ls IH]; intros b; cbn.
  - by rewrite app_nil_r.
  - destruct (IH (append_line l b)) as (Hn & Hl & Hr & Hd).
    cbn in Hn, Hl, Hr, Hd. rewrite Hn, Hl, Hr, Hd.
    by rewrite <- app_assoc.
Qed.

Lemma has_safe_id_no_id s flow : no_id flow = true -> has_safe_id s flow = false.
Proof. intros H. unfold Spec.has_safe_id. by rewrite H. Qed.

Lemma has_safe_id_eq s flow :
  no_id flow = false ->
  has_safe_id s flow = true <-> _sanitize_id (dot flow "id") = s.
Proof.
  intros H. unfold Spec.has_safe_id. rewrite H. cbn [negb andb].
  apply String.eqb_eq.
Qed.

(** What the first loop leaves behind. *)
Lemma first_pass flows : forall b,
  let b' := foldl node_step b flows in
  links b' = links b
  /\ flow_references b' = flow_references b
  /\ mermaid_diagram b' = mermaid_diagram b ++ first_pass_lines (nodes b) flows
  /\ (forall s, s ∈ nodes b' <->
                s ∈ nodes b \/ exists f, f ∈ flows /\ has_safe_id s f = true).
Proof.
  induction flows as [|flow flows IH]; intros b.
  - cbn. rewrite app_nil_r. repeat split; [tauto|].
    intros [H | (f & Hf & _)]; [exact H | by apply elem_of_nil in Hf].
  - cbn [foldl Spec.first_pass_lines]. cbv zeta.
    specialize (IH (node_step b flow)). cbv zeta in IH.
    destruct IH as (Hl & Hr & Hd & Hn).
    remember (node_step b flow) as b1 eqn:E.
    unfold FlowVisualizer.node_step in E.
    destruct (no_id flow) eqn:Hid.
    { subst b1. split; [exact Hl|]. split; [exact Hr|]. split; [exact Hd|].
      intros s. rewrite Hn. split.
      - intros [H | (f & Hf & Hs)]; [by left|].
        right. exists f. split; [by apply list_elem_of_further | exact Hs].
      - intros [H | (f & Hf & Hs)]; [by left|].
        apply elem_of_cons in Hf as [-> | Hf].
        + by rewrite (has_safe_id_no_id s flow Hid) in Hs.
        + right. by exists f. }
    destruct (decide (_sanitize_id (dot flow "id") ∈ nodes b)) as [Hin | Hout].
    { subst b1. split; [exact Hl|]. split; [exact Hr|]. split; [exact Hd|].
      intros s. rewrite Hn. split.
      - intros [H | (f & Hf & Hs)]; [by left|].
        right. exists f. split; [by apply list_elem_of_further | exact Hs].
      - intros [H | (f & Hf & Hs)]; [by left|].
        apply elem_of_cons in Hf as [-> | Hf].
        + left. apply (has_safe_id_eq s flow Hid) in Hs. by subst s.
        + right. by exists f. }
    destruct (append_lines (node_lines (_sanitize_id (dot flow "id")) flow) b)
      as (Hn' & Hl' & Hr' & Hd').
    cbv zeta in Hn', Hl', Hr', Hd'.
    assert (E1 : nodes b1 = {[_sanitize_id (dot flow "id")]} ∪ nodes b)
      by (subst b1; cbn; by rewrite Hn').
    assert (E2 : links b1 = links b) by (subst b1; exact Hl').
    assert (E3 : flow_references b1 = flow_references b) by (subst b1; exact Hr').
    assert (E4 : mermaid_diagram b1
                 = mermaid_diagram b
                   ++ node_lines (_sanitize_id (dot flow "id")) flow)
      by (subst b1; exact Hd').
    clear E. rewrite E2 in Hl. rewrite E3 in Hr. rewrite E4, E1 in Hd.
    rewrite <- app_assoc in Hd.
    split; [exact Hl|]. split; [exact Hr|]. split; [exact Hd|].
    intros s. rewrite Hn, E1.
    rewrite elem_of_union, elem_of_singleton. split.
    + intros [[-> | H] | (f & Hf & Hs)].
      * right. exists flow. split; [apply list_elem_of_here|].
        by apply has_safe_id_eq.
      * by left.
      * right. exists f. split; [by apply list_elem_of_further | exact Hs].
    + intros [H | (f & Hf & Hs)]; [by left; right|].
      apply elem_of_cons in Hf as [-> | Hf].
      * left. left. symmetry. by apply has_safe_id_eq.
      * right. by exists f.
Qed.

End FirstPass.

Section NodeLines.

Variable repr_text : pyval -> string.

Local Abbreviation _sanitize_id := (FlowVisualizer._sanitize_id repr_text).
Local Abbreviation _escape_text := (FlowVisualizer._escape_text repr_text).
Local Abbreviation node_lines := (FlowVisualizer.node_lines repr_text).
Local Abbreviation first_pass_lines := (Spec.first_pass_lines repr_text).
Local Abbreviation has_safe_id := (Spec.has_safe_id repr_text).
Local Abbreviation first_with := (Spec.first_with repr_text).

Lemma some_eqb (a b : string) : bool_decide (Some a = Some b) = String.eqb a b.
Proof.
  destruct (String.eqb_spec a b) as [-> | Hne].
  - by apply bool_decide_eq_true_2.
  - apply bool_decide_eq_false_2. congruence.
Qed.

Lemma about_read s id line :
  (decl_id line = Some id /\ style_id line = None)
  \/ (decl_id line = None /\ style_id line = Some id) ->
  about s line = String.eqb id s.
Proof.
  unfold about. intros [[-> ->] | [-> ->]]; rewrite some_eqb.
  - rewrite bool_decide_eq_false_2 by discriminate. apply orb_false_r.
  - by rewrite bool_decide_eq_false_2 by discriminate.
Qed.


(** The two lines of a node, read back. *)
Lemma node_lines_read id flow :
  all_word id = true ->
  exists decl style,
    node_lines id flow = [decl; style]
    /\ decl_id decl = Some id /\ style_id decl = None /\ edge_ends decl = None
    /\ decl_id style = None /\ style_id style = Some id /\ edge_ends style = None.
Proof.
  intros Hid. rewrite node_lines_shape.
  pose proof (read_style id (classify flow) Hid) as Hs. cbv zeta in Hs.
  destruct (classify flow); cbn [shape snd] in Hs |- *.
  - pose proof (read_declaration id "(" (_escape_text (label_of flow) +:+ ")")
                  Hid (or_intror eq_refl)) as Hd.
    eexists _, _. split; [reflexivity|]. cbv zeta in Hd. tauto.
  - pose proof (read_declaration id "[" (_escape_text (label_of flow) +:+ "]")
                  Hid (or_introl eq_refl)) as Hd.
    eexists _, _. split; [reflexivity|]. cbv zeta in Hd. tauto.
  - pose proof (read_declaration id "[" (_escape_text (label_of flow) +:+ "]")
                  Hid (or_introl eq_refl)) as Hd.
    eexists _, _. split; [reflexivity|]. cbv zeta in Hd. tauto.
Qed.

Lemma about_node_lines s id flow :
  all_word id = true ->
  List.filter (about s) (node_lines id flow)
  = if String.eqb id s then node_lines id flow else [].
Proof.
  intros Hid.
  destruct (node_lines_read id flow Hid)
    as (decl & style & -> & Hd1 & Hd2 & _ & Hs1 & Hs2 & _).
  cbn [List.filter].
  rewrite (about_read s id decl) by tauto.
  rewrite (about_read s id style) by tauto.
  by destruct (String.eqb id s).
Qed.

(** Among the lines of the first loop, those about an identifier are the
    two lines of the first flow that has it. *)
Lemma about_first_pass s flows : forall seen,
  List.filter (about s) (first_pass_lines seen flows)
  = if decide (s ∈ seen) then []
    else match first_with s flows with
         | Some first => node_lines s first
         | None => []
         end.
Proof.
  induction flows as [|flow flows IH]; intros seen.
  - cbn. by destruct (decide (s ∈ seen)).
  - cbn [Spec.first_pass_lines]. unfold Spec.first_with. cbn [List.find].
    fold (first_with s flows).
    destruct (no_id flow) eqn:Hid.
    { rewrite (has_safe_id_no_id repr_text s flow Hid). apply IH. }
    cbv zeta.
    assert (Hsafe : has_safe_id s flow
                    = String.eqb (_sanitize_id (dot flow "id")) s).
    { unfold Spec.has_safe_id. by rewrite Hid. }
    rewrite Hsafe.
    destruct (decide (_sanitize_id (dot flow "id") ∈ seen)) as [Hin | Hout].
    { rewrite IH. destruct (decide (s ∈ seen)) as [|Hs]; [reflexivity|].
      destruct (String.eqb_spec (_sanitize_id (dot flow "id")) s) as [E|];
        [|reflexivity].
      subst s. contradiction. }
    rewrite List.filter_app, about_node_lines by apply all_word_sanitize.
    rewrite IH.
    destruct (String.eqb_spec (_sanitize_id (dot flow "id")) s) as [E | Hne].
    + subst s. rewrite decide_True by set_solver.
      rewrite decide_False by exact Hout. apply app_nil_r.
    + cbn [app]. destruct (decide (s ∈ seen)) as [Hs | Hs].
      * by rewrite decide_True by set_solver.
      * by rewrite decide_False by set_solver.
Qed.

End NodeLines.

Section SecondPass.

Variable repr_text : pyval -> string.

Local Abbreviation _sanitize_id := (FlowVisualizer._sanitize_id repr_text).
Local Abbreviation processor_step := (FlowVisualizer.processor_step repr_text).
Local Abbreviation link_step := (FlowVisualizer.link_step repr_text).
Local Abbreviation scanned := Spec.scanned.

(** One processor either changes nothing or adds one new edge, between
    the identifier of the flow and a registered identifier. *)
Lemma processor_step_cases flow_id b references processor :
  processor_step flow_id (b, references) processor = (b, references)
  \/ (truthy (ref_name_of processor) = true
      /\ _sanitize_id (ref_name_of processor) ∈ nodes b
      /\ (edge_line flow_id (_sanitize_id (ref_name_of processor)) ∉ links b)
      /\ processor_step flow_id (b, references) processor
         = (add_link (edge_line flow_id (_sanitize_id (ref_name_of processor)))
              (append_line
                 (edge_line flow_id (_sanitize_id (ref_name_of processor))) b),
            references ++ [ref_name_of processor])).
Proof.
  unfold FlowVisualizer.processor_step.
  destruct (truthy (ref_name_of processor)) eqn:Ht; [|by left].
  destruct (decide (_sanitize_id (ref_name_of processor) ∈ nodes b)); [|by left].
  fold (edge_line flow_id (_sanitize_id (ref_name_of processor))).
  destruct (decide (edge_line flow_id (_sanitize_id (ref_name_of processor))
                    ∈ links b)); [by left|].
  right. repeat split; assumption.
Qed.

(** A processor that refers to a registered flow leaves its edge in
    [links]. *)
Lemma processor_step_links flow_id b references processor :
  truthy (ref_name_of processor) = true ->
  _sanitize_id (ref_name_of processor) ∈ nodes b ->
  edge_line flow_id (_sanitize_id (ref_name_of processor))
    ∈ links (processor_step flow_id (b, references) processor).1.
Proof.
  intros Ht Hin. unfold FlowVisualizer.processor_step. rewrite Ht.
  rewrite decide_True by exact Hin.
  fold (edge_line flow_id (_sanitize_id (ref_name_of processor))).
  destruct (decide (edge_line flow_id (_sanitize_id (ref_name_of processor))
                    ∈ links b)); [assumption|].
  cbn. set_solver.
Qed.

Lemma processor_step_keeps flow_id st processor :
  let st' := processor_step flow_id st processor in
  nodes st'.1 = nodes st.1
  /\ flow_references st'.1 = flow_references st.1
  /\ links st.1 ⊆ links st'.1
  /\ (st.2 <> [] -> st'.2 <> []).
Proof.
  destruct st as [b references].
  destruct (processor_step_cases flow_id b references processor)
    as [-> | (_ & _ & _ & ->)]; cbn.
  - done.
  - repeat split; [set_solver|]. intros _. by destruct references.
Qed.

Lemma processors_keep flow_id processors : forall st,
  let st' := foldl (processor_step flow_id) st processors in
  nodes st'.1 = nodes st.1
  /\ flow_references st'.1 = flow_references st.1
  /\ links st.1 ⊆ links st'.1.
Proof.
  induction processors as [|p ps IH]; intros st; cbn [foldl]; [done|].
  destruct (processor_step_keeps flow_id st p) as (Hn & Hr & Hl & _).
  destruct (IH (processor_step flow_id st p)) as (Hn' & Hr' & Hl').
  cbv zeta in *. rewrite Hn', Hr'. repeat split; [done..|set_solver].
Qed.

Lemma processors_links flow_id processors : forall st processor,
  processor ∈ processors ->
  truthy (ref_name_of processor) = true ->
  _sanitize_id (ref_name_of processor) ∈ nodes st.1 ->
  edge_line flow_id (_sanitize_id (ref_name_of processor))
    ∈ links (foldl (processor_step flow_id) st processors).1.
Proof.
  induction processors as [|p ps IH]; intros st processor Hin Ht Hk.
  - by apply elem_of_nil in Hin.
  - cbn [foldl]. apply elem_of_cons in Hin as [-> | Hin].
    + destruct (processors_keep flow_id ps (processor_step flow_id st p))
        as (_ & _ & Hl).
      apply Hl. destruct st as [b references]. by apply processor_step_links.
    + apply IH; [assumption..|].
      destruct (processor_step_keeps flow_id st p) as (-> & _).
      exact Hk.
Qed.

Lemma processor_step_edges known pre flow_id st processor :
  all_word flow_id = true ->
  edges_inv known pre st.1 ->
  edges_inv known pre (processor_step flow_id st processor).1.
Proof.
  intros Hw Hinv. destruct st as [b references].
  destruct (processor_step_cases flow_id b references processor)
    as [-> | (_ & _ & Hnew & ->)]; [exact Hinv|].
  destruct Hinv as (Hn & es & Hd & Hnd & Hl & Hall). cbn in *.
  split; [exact Hn|].
  exists (es ++ [edge_line flow_id (_sanitize_id (ref_name_of processor))]).
  unfold add_link, append_line. cbn [mermaid_diagram links].
  split; [by rewrite Hd, app_assoc|]. split.
  - apply NoDup_app. split; [exact Hnd|]. split; [|apply NoDup_singleton].
    intros l Hles Hl1. apply list_elem_of_singleton in Hl1. subst l.
    apply Hnew. by apply Hl.
  - split.
    + intros l. rewrite elem_of_app, list_elem_of_singleton, elem_of_union,
        elem_of_singleton, Hl. tauto.
    + apply Forall_app. split; [exact Hall|].
      apply Forall_singleton. eexists _, _.
      split; [exact Hw|]. split; [apply all_word_sanitize | reflexivity].
Qed.

Lemma processors_edges known pre flow_id processors : forall st,
  all_word flow_id = true ->
  edges_inv known pre st.1 ->
  edges_inv known pre (foldl (processor_step flow_id) st processors).1.
Proof.
  induction processors as [|p ps IH]; intros st Hw Hinv; cbn [foldl];
    [exact Hinv|].
  apply IH; [exact Hw|]. by apply processor_step_edges.
Qed.

Lemma processors_references flow_id processors : forall st,
  st.2 <> [] -> (foldl (processor_step flow_id) st processors).2 <> [].
Proof.
  induction processors as [|p ps IH]; intros st H; cbn [foldl]; [exact H|].
  apply IH. by apply processor_step_keeps.
Qed.

(** What a successful iteration of the second loop does. *)
Lemma link_step_cases b flow b' :
  link_step b flow = Ok b' ->
  (no_id flow = true /\ b' = b)
  \/ (no_id flow = false
      /\ exists processors,
           scanned flow processors
           /\ let st := foldl (processor_step (_sanitize_id (dot flow "id")))
                          (b, []) processors in
              (st.2 = [] /\ b' = st.1)
              \/ (st.2 <> [] /\ hashable (dot flow "id") = true
                  /\ b' = store_references (dot flow "id") st.2 st.1)).
Proof.
  unfold FlowVisualizer.link_step, Spec.scanned. intros H.
  destruct (no_id flow); [left; split; [reflexivity | congruence]|].
  right. split; [reflexivity|]. unfold_bind.
  destruct (hasattr flow "processors").
  - destruct (iterate (dot flow "processors")) as [ps|] eqn:E; [|discriminate].
    exists ps. split; [reflexivity|]. cbv zeta.
    destruct (foldl _ (b, []) ps) as [b1 [|r refs]]; cbn.
    + left. split; [reflexivity | congruence].
    + right. destruct (hashable (dot flow "id")); [|discriminate].
      split; [discriminate|]. split; [reflexivity | congruence].
  - exists []. split; [reflexivity|]. cbn. left. split; [reflexivity|congruence].
Qed.

End SecondPass.

Section Passes.

Variable repr_text : pyval -> string.

Local Abbreviation _sanitize_id := (FlowVisualizer._sanitize_id repr_text).
Local Abbreviation node_lines := (FlowVisualizer.node_lines repr_text).
Local Abbreviation processor_step := (FlowVisualizer.processor_step repr_text).
Local Abbreviation link_step := (FlowVisualizer.link_step repr_text).
Local Abbreviation run_passes := (FlowVisualizer.run_passes repr_text).
Local Abbreviation first_pass_lines := (Spec.first_pass_lines repr_text).
Local Abbreviation registered := (Spec.registered repr_text).
Local Abbreviation scanned := Spec.scanned.

Lemma scanned_fun flow ps ps' : scanned flow ps -> scanned flow ps' -> ps = ps'.
Proof.
  unfold Spec.scanned. destruct (hasattr flow "processors"); congruence.
Qed.

Lemma link_step_keeps b flow b' :
  link_step b flow = Ok b' -> nodes b' = nodes b /\ links b ⊆ links b'.
Proof.
  intros H. apply link_step_cases in H as [[_ ->] | (_ & ps & _ & H)]; [done|].
  cbv zeta in H.
  destruct (processors_keep repr_text (_sanitize_id (dot flow "id")) ps (b, []))
    as (Hn & _ & Hl).
  cbv zeta in Hn, Hl. cbn [fst] in Hn, Hl.
  destruct H as [[_ ->] | (_ & _ & ->)]; cbn; by rewrite ?Hn.
Qed.

Lemma link_step_edges known pre b flow b' :
  edges_inv known pre b -> link_step b flow = Ok b' -> edges_inv known pre b'.
Proof.
  intros Hinv H.
  apply link_step_cases in H as [[_ ->] | (_ & ps & _ & H)]; [exact Hinv|].
  cbv zeta in H.
  pose proof (processors_edges repr_text known pre
                (_sanitize_id (dot flow "id")) ps (b, [])
                (all_word_sanitize repr_text _) Hinv) as Hinv'.
  destruct H as [[_ ->] | (_ & _ & ->)]; exact Hinv'.
Qed.

Lemma dict_set_refs key (value : list pyval) refs :
  value <> [] -> refs_inv refs -> refs_inv (dict_set key value refs).
Proof.
  intros Hv. unfold refs_inv.
  induction refs as [|[k v] refs IH]; intros H; cbn [dict_set].
  - by apply Forall_singleton.
  - apply Forall_cons in H as [Hk H].
    destruct (key_eqb k key); apply Forall_cons; split; auto.
Qed.

Lemma link_step_refs b flow b' :
  refs_inv (flow_references b) -> link_step b flow = Ok b' ->
  refs_inv (flow_references b').
Proof.
  intros Hinv H.
  apply link_step_cases in H as [[_ ->] | (_ & ps & _ & H)]; [exact Hinv|].
  cbv zeta in H.
  destruct (processors_keep repr_text (_sanitize_id (dot flow "id")) ps (b, []))
    as (_ & Hr & _).
  cbv zeta in Hr. cbn [fst] in Hr.
  destruct H as [[_ ->] | (Hne & _ & ->)]; [by rewrite Hr|].
  cbn [store_references flow_references]. rewrite Hr.
  by apply dict_set_refs.
Qed.

Lemma link_step_links b flow b' processors processor :
  link_step b flow = Ok b' ->
  no_id flow = false -> scanned flow processors -> processor ∈ processors ->
  truthy (ref_name_of processor) = true ->
  _sanitize_id (ref_name_of processor) ∈ nodes b ->
  edge_line (_sanitize_id (dot flow "id")) (_sanitize_id (ref_name_of processor))
    ∈ links b'.
Proof.
  intros H Hid Hsc Hin Ht Hk.
  apply link_step_cases in H as [[Hid' _] | (_ & ps & Hsc' & H)]; [congruence|].
  rewrite (scanned_fun flow ps processors Hsc' Hsc) in H. cbv zeta in H.
  pose proof (processors_links repr_text (_sanitize_id (dot flow "id"))
                processors (b, []) processor Hin Ht Hk) as Hl.
  destruct H as [[_ ->] | (_ & _ & ->)]; exact Hl.
Qed.

Lemma for_each_links flows : forall b b' flow processors processor,
  for_each link_step b flows = Ok b' ->
  flow ∈ flows -> no_id flow = false -> scanned flow processors ->
  processor ∈ processors -> truthy (ref_name_of processor) = true ->
  _sanitize_id (ref_name_of processor) ∈ nodes b ->
  edge_line (_sanitize_id (dot flow "id")) (_sanitize_id (ref_name_of processor))
    ∈ links b'.
Proof.
  induction flows as [|f flows IH];
    intros b b' flow ps p H Hin Hid Hsc Hp Ht Hk.
  - by apply elem_of_nil in Hin.
  - cbn [for_each] in H. unfold_bind.
    destruct (link_step b f) as [b1|] eqn:E; [|discriminate].
    destruct (link_step_keeps b f b1 E) as [Hn Hl].
    apply elem_of_cons in Hin as [-> | Hin].
    + pose proof (link_step_links b f b1 ps p E Hid Hsc Hp Ht Hk) as H1.
      assert (Hmono : links b1 ⊆ links b').
      { revert H. apply (for_each_keeps (fun s => links b1 ⊆ links s) link_step);
          [|done].
        intros s x s' Hs Hx. apply link_step_keeps in Hx as [_ Hx]. set_solver. }
      by apply Hmono.
    + eapply IH; try eassumption. by rewrite Hn.
Qed.

(** What the two loops leave behind. *)
Lemma run_passes_inv flows b :
  run_passes flows = Ok b ->
  edges_inv (registered flows) ("graph TD" :: first_pass_lines ∅ flows) b
  /\ refs_inv (flow_references b).
Proof.
  unfold FlowVisualizer.run_passes. cbv zeta. intros H.
  destruct (first_pass repr_text flows initial) as (Hl & Hr & Hd & _).
  cbv zeta in Hl, Hr, Hd. cbn [initial links flow_references mermaid_diagram nodes]
    in Hl, Hr, Hd.
  split.
  - revert H. apply for_each_keeps.
    + intros s x s'. apply link_step_edges.
    + split; [reflexivity|]. exists []. rewrite app_nil_r.
      split; [exact Hd|]. split; [apply NoDup_nil_2|]. split; [|apply Forall_nil_2].
      intros l. rewrite Hl. set_solver.
  - revert H. apply (for_each_keeps (fun s => refs_inv (flow_references s))).
    + intros s x s'. apply link_step_refs.
    + rewrite Hr. apply Forall_nil_2.
Qed.

Lemma run_passes_links flows b flow processors processor :
  run_passes flows = Ok b ->
  flow ∈ flows -> no_id flow = false -> scanned flow processors ->
  processor ∈ processors -> truthy (ref_name_of processor) = true ->
  _sanitize_id (ref_name_of processor) ∈ registered flows ->
  edge_line (_sanitize_id (dot flow "id")) (_sanitize_id (ref_name_of processor))
    ∈ links b.
Proof.
  unfold FlowVisualizer.run_passes. cbv zeta. intros H.
  by apply for_each_links.
Qed.

Lemma first_pass_no_edges flows : forall seen,
  Forall (fun l => edge_ends l = None) (first_pass_lines seen flows).
Proof.
  induction flows as [|flow flows IH]; intros seen; cbn [Spec.first_pass_lines].
  - apply Forall_nil_2.
  - destruct (no_id flow); [apply IH|]. cbv zeta.
    destruct (decide (_ ∈ seen)); [apply IH|].
    apply Forall_app. split; [|apply IH].
    destruct (node_lines_read repr_text (_sanitize_id (dot flow "id")) flow
                (all_word_sanitize repr_text _))
      as (decl & style & -> & _ & _ & Hd & _ & _ & Hs).
    by repeat apply Forall_cons_2.
Qed.

End Passes.

(** ** The diagram *)

Section Diagram.

Variable repr_text : pyval -> string.

Local Abbreviation _sanitize_id := (FlowVisualizer._sanitize_id repr_text).
Local Abbreviation _escape_text := (FlowVisualizer._escape_text repr_text).
Local Abbreviation node_lines := (FlowVisualizer.node_lines repr_text).
Local Abbreviation run_passes := (FlowVisualizer.run_passes repr_text).
Local Abbreviation generate_flow_diagram := (FlowVisualizer.generate_flow_diagram repr_text).
Local Abbreviation diagram_lines := (FlowVisualizer.diagram_lines repr_text).
Local Abbreviation first_pass_lines := (Spec.first_pass_lines repr_text).
Local Abbreviation has_safe_id := (Spec.has_safe_id repr_text).
Local Abbreviation first_with := (Spec.first_with repr_text).
Local Abbreviation registered := (Spec.registered repr_text).
Local Abbreviation scanned := Spec.scanned.

(** The diagram text is the lines of [diagram_lines], joined. *)
Lemma diagram_text_lines interface text refs :
  generate_flow_diagram interface = Ok (text, refs) ->
  exists lines, diagram_lines interface = Ok lines /\ text = join_lines lines.
Proof.
  unfold FlowVisualizer.generate_flow_diagram, FlowVisualizer.diagram_lines.
  destruct (no_flows interface).
  - intros [= <- <-]. by eexists.
  - unfold_bind.
    destruct (iterate (dot interface "flows")) as [flows|]; [|discriminate].
    destruct (run_passes flows) as [b|]; [|discriminate].
    intros [= <- <-]. by eexists.
Qed.

(** The lines of a diagram with flows. *)
Lemma diagram_lines_inv interface flows lines :
  no_flows interface = false ->
  iterate (dot interface "flows") = Ok flows ->
  diagram_lines interface = Ok lines ->
  exists b, run_passes flows = Ok b /\ lines = mermaid_diagram b.
Proof.
  unfold FlowVisualizer.diagram_lines. intros -> ->. unfold_bind.
  destruct (run_passes flows) as [b|]; [|discriminate].
  intros [= <-]. by eexists.
Qed.

Lemma registered_iff s flows :
  s ∈ registered flows <-> exists f, f ∈ flows /\ has_safe_id s f = true.
Proof.
  unfold Spec.registered.
  destruct (first_pass repr_text flows initial) as (_ & _ & _ & Hn).
  cbv zeta in Hn. rewrite Hn. cbn [initial nodes]. set_solver.
Qed.

(** C10. In the reference index that [generate_flow_diagram] returns,
    no key maps to the empty list: a flow without resolved references
    gets no entry. *)
Theorem reference_lists_not_empty (interface : pyval) (text : string)
    (refs : list (pyval * list pyval)) :
  generate_flow_diagram interface = Ok (text, refs) ->
  forall key targets, (key, targets) ∈ refs -> targets <> [].
Proof.
  intros H key targets Hin.
  assert (Hinv : refs_inv refs).
  { unfold FlowVisualizer.generate_flow_diagram in H.
    destruct (no_flows interface).
    - injection H as _ <-. apply Forall_nil_2.
    - unfold_bind.
      destruct (iterate (dot interface "flows")) as [flows|]; [|discriminate].
      destruct (run_passes flows) as [b|] eqn:E; [|discriminate].
      injection H as _ <-. by apply (run_passes_inv repr_text flows b). }
  unfold refs_inv in Hinv. rewrite Forall_forall in Hinv.
  exact (Hinv (key, targets) Hin).
Qed.

Lemma occurrences_app x l1 l2 :
  occurrences x (l1 ++ l2) = (occurrences x l1 + occurrences x l2)%nat.
Proof. apply count_occ_app. Qed.

Lemma occurrences_unread x lines :
  edge_ends x <> None -> Forall (fun l => edge_ends l = None) lines ->
  occurrences x lines = 0%nat.
Proof.
  intros Hx Hall. apply count_occ_not_In. intros Hin.
  apply list_elem_of_In in Hin. rewrite Forall_forall in Hall.
  apply Hx. by apply Hall.
Qed.

Lemma occurrences_nodup x lines : NoDup lines -> (occurrences x lines <= 1)%nat.
Proof.
  intros H. apply NoDup_ListNoDup in H.
  exact (proj1 (List.NoDup_count_occ string_dec lines) H x).
Qed.

(** Edges in the lines of a diagram: at most one line per edge, and
    exactly one for an invoke-processor with a registered target. *)
Lemma edges_once_in_lines (interface : pyval) (lines : list string) :
  diagram_lines interface = Ok lines ->
  (forall a c, all_word a = true -> all_word c = true ->
     (occurrences (edge_line a c) lines <= 1)%nat)
  /\ (forall flows flow processors processor target,
        no_flows interface = false ->
        iterate (dot interface "flows") = Ok flows ->
        flow ∈ flows -> no_id flow = false ->
        scanned flow processors -> processor ∈ processors ->
        truthy (ref_name_of processor) = true ->
        target ∈ flows ->
        has_safe_id (_sanitize_id (ref_name_of processor)) target = true ->
        occurrences
          (edge_line (_sanitize_id (dot flow "id"))
             (_sanitize_id (ref_name_of processor))) lines = 1%nat).
Proof.
  intros H.
  assert (Hread : forall a c, all_word a = true -> all_word c = true ->
                    edge_ends (edge_line a c) <> None).
  { intros a c Ha Hc. pose proof (read_edge a c Ha Hc) as Hr.
    cbv zeta in Hr. destruct Hr as (_ & _ & ->). discriminate. }
  assert (Hlines :
    forall flows b, run_passes flows = Ok b ->
      exists es, mermaid_diagram b = ("graph TD" :: first_pass_lines ∅ flows) ++ es
        /\ NoDup es /\ (forall l, l ∈ es <-> l ∈ links b)
        /\ forall a c, all_word a = true -> all_word c = true ->
             occurrences (edge_line a c) (mermaid_diagram b)
             = occurrences (edge_line a c) es).
  { intros flows b Hb.
    destruct (run_passes_inv repr_text flows b Hb)
      as [(_ & es & Hd & Hnd & Hl & _) _].
    exists es. repeat split; try assumption; try apply Hl.
    intros a c Ha Hc. rewrite Hd, occurrences_app.
    rewrite occurrences_unread; [reflexivity | by apply Hread |].
    apply Forall_cons_2; [reflexivity | apply first_pass_no_edges]. }
  split.
  - intros a c Ha Hc. unfold FlowVisualizer.diagram_lines in H.
    destruct (no_flows interface).
    + injection H as <-. rewrite occurrences_unread; [lia | by apply Hread |].
      by repeat apply Forall_cons_2.
    + unfold_bind.
      destruct (iterate (dot interface "flows")) as [flows|]; [|discriminate].
      destruct (run_passes flows) as [b|] eqn:E; [|discriminate].
      injection H as <-.
      destruct (Hlines flows b E) as (es & _ & Hnd & _ & Hocc).
      rewrite (Hocc a c Ha Hc). by apply occurrences_nodup.
  - intros flows flow ps p target Hnf Hit Hin Hid Hsc Hp Ht Htin Hts.
    assert (Hk : _sanitize_id (ref_name_of p) ∈ registered flows).
    { apply registered_iff. by exists target. }
    destruct (diagram_lines_inv interface flows lines Hnf Hit H) as (b & E & ->).
    destruct (Hlines flows b E) as (es & _ & Hnd & Hl & Hocc).
    rewrite Hocc by apply all_word_sanitize.
    pose proof (run_passes_links repr_text flows b flow ps p E Hin Hid Hsc Hp Ht Hk)
      as Hlink.
    apply Hl, list_elem_of_In in Hlink.
    apply (count_occ_In string_dec) in Hlink.
    pose proof (occurrences_nodup
                  (edge_line (_sanitize_id (dot flow "id"))
                     (_sanitize_id (ref_name_of p))) es Hnd) as Hle.
    unfold occurrences in *. lia.
Qed.

(** C7. The diagram text is a sequence of lines joined by newlines, and
    among them an edge [a --> b] between two identifiers appears at most
    once.  An invoke-processor of a flow whose target is a registered
    flow gives exactly one such line, however many processors of that
    flow invoke the same target. *)
Theorem edges_appear_once (interface : pyval) (text : string)
    (refs : list (pyval * list pyval)) :
  generate_flow_diagram interface = Ok (text, refs) ->
  exists lines,
    diagram_lines interface = Ok lines /\ text = join_lines lines
    /\ (forall a c, all_word a = true -> all_word c = true ->
          (occurrences (edge_line a c) lines <= 1)%nat)
    /\ (forall flows flow processors processor target,
          no_flows interface = false ->
          iterate (dot interface "flows") = Ok flows ->
          flow ∈ flows -> no_id flow = false ->
          scanned flow processors -> processor ∈ processors ->
          truthy (ref_name_of processor) = true ->
          target ∈ flows ->
          has_safe_id (_sanitize_id (ref_name_of processor)) target = true ->
          occurrences
            (edge_line (_sanitize_id (dot flow "id"))
               (_sanitize_id (ref_name_of processor))) lines = 1%nat).
Proof.
  intros H. destruct (diagram_text_lines interface text refs H) as (lines & Hl & ->).
  exists lines. split; [exact Hl|]. split; [reflexivity|].
  exact (edges_once_in_lines interface lines Hl).
Qed.

End Diagram.

Lemma reference_lists_witness :
  FlowVisualizer.generate_flow_diagram sample_repr (mk_interface twice)
    = Ok (join_lines
            ["graph TD"; "A(A)"; "style A fill:#e8f5e9,stroke:#2e7d32";
             "B[B]"; "style B fill:#f9f9f9,stroke:#333"; "A --> B"],
          [(PStr "A", [PStr "B"])])
  /\ [PStr "B"] <> [].
Proof.
  assert (H : FlowVisualizer.generate_flow_diagram sample_repr (mk_interface twice)
              = Ok (join_lines
                      ["graph TD"; "A(A)"; "style A fill:#e8f5e9,stroke:#2e7d32";
                       "B[B]"; "style B fill:#f9f9f9,stroke:#333"; "A --> B"],
                    [(PStr "A", [PStr "B"])]))
    by (vm_compute; reflexivity).
  split; [exact H|].
  apply (reference_lists_not_empty sample_repr _ _ _ H (PStr "A") [PStr "B"]).
  apply list_elem_of_here.
Defined.

(** Two processors of [A] invoke [B]; the diagram has one line [A --> B]. *)
Lemma edges_appear_once_witness :
  exists lines,
    FlowVisualizer.diagram_lines sample_repr (mk_interface twice) = Ok lines
    /\ occurrences "A --> B" lines = 1%nat.
Proof.
  destruct (edges_appear_once sample_repr (mk_interface twice)
              (join_lines
                 ["graph TD"; "A(A)"; "style A fill:#e8f5e9,stroke:#2e7d32";
                  "B[B]"; "style B fill:#f9f9f9,stroke:#333"; "A --> B"])
              [(PStr "A", [PStr "B"])])
    as (lines & Hl & _ & _ & Hone).
  - vm_compute. reflexivity.
  - exists lines. split; [exact Hl|].
    apply (Hone twice
             (mk_flow 2 "A" false http [flow_ref "B"; flow_ref "B"])
             [flow_ref "B"; flow_ref "B"] (flow_ref "B")
             (mk_flow 3 "B" false PNone [])).
    + reflexivity.
    + reflexivity.
    + apply list_elem_of_here.
    + reflexivity.
    + reflexivity.
    + apply list_elem_of_here.
    + reflexivity.
    + apply list_elem_of_further, list_elem_of_here.
    + reflexivity.
Defined.

(** ** Colliding identifiers *)

Section Collisions.

Variable repr_text : pyval -> string.

Local Abbreviation _sanitize_id := (FlowVisualizer._sanitize_id repr_text).
Local Abbreviation _escape_text := (FlowVisualizer._escape_text repr_text).
Local Abbreviation node_lines := (FlowVisualizer.node_lines repr_text).
Local Abbreviation diagram_lines := (FlowVisualizer.diagram_lines repr_text).
Local Abbreviation generate_flow_diagram := (FlowVisualizer.generate_flow_diagram repr_text).
Local Abbreviation first_pass_lines := (Spec.first_pass_lines repr_text).
Local Abbreviation has_safe_id := (Spec.has_safe_id repr_text).
Local Abbreviation first_with := (Spec.first_with repr_text).

Lemma has_safe_id_word s flow : has_safe_id s flow = true -> all_word s = true.
Proof.
  unfold Spec.has_safe_id. intros H. apply andb_true_iff in H as [_ H].
  apply String.eqb_eq in H. subst s. apply all_word_sanitize.
Qed.

(** [first_with] finds the first flow with the identifier. *)
Lemma first_with_split s flows flow :
  flow ∈ flows -> has_safe_id s flow = true ->
  exists first before after,
    first_with s flows = Some first
    /\ flows = before ++ first :: after
    /\ Forall (fun f => has_safe_id s f = false) before
    /\ has_safe_id s first = true.
Proof.
  unfold Spec.first_with.
  induction flows as [|f flows IH]; intros Hin Hs.
  - by apply elem_of_nil in Hin.
  - cbn [List.find]. destruct (has_safe_id s f) eqn:E.
    + exists f, [], flows.
      split; [reflexivity|]. split; [reflexivity|].
      split; [apply Forall_nil_2 | exact E].
    + apply elem_of_cons in Hin as [-> | Hin]; [congruence|].
      destruct (IH Hin Hs) as (first & before & after & Hf & -> & Hb & Hfirst).
      exists first, (f :: before), after.
      split; [exact Hf|]. split; [reflexivity|].
      split; [by apply Forall_cons_2 | exact Hfirst].
Qed.

Lemma filter_none {X} (p : X -> bool) l :
  Forall (fun x => p x = false) l -> List.filter p l = [].
Proof.
  induction 1 as [|x l Hx _ IH]; [reflexivity|].
  cbn [List.filter]. by rewrite Hx.
Qed.





End Collisions.


(** ** The visualization graph *)

Section Visualization.

Variable repr_text : pyval -> string.

Local Abbreviation generate_visualization := (Adapter.generate_visualization repr_text).

Lemma viz_node_step_ok st item st' :
  viz_node_step st item = Ok st' -> st'.2 = st.2 ++ [viz_node_of item].
Proof.
  destruct st as [node_map nodes], item as [i flow].
  unfold viz_node_step, viz_node_of, viz_id, viz_type_of. cbn [fst snd].
  destruct (viz_fields flow) as [[flow_id is_subflow] source].
  destruct (hashable flow_id); [|discriminate].
  by intros [= <-].
Qed.

Lemma viz_nodes_ok items : forall st st',
  for_each viz_node_step st items = Ok st' ->
  st'.2 = st.2 ++ map viz_node_of items.
Proof.
  induction items as [|item items IH]; intros st st' H; cbn [for_each] in H.
  - injection H as <-. cbn. by rewrite app_nil_r.
  - unfold_bind. destruct (viz_node_step st item) as [st1|] eqn:E; [|discriminate].
    rewrite (IH st1 st' H), (viz_node_step_ok st item st1 E).
    by rewrite <- app_assoc.
Qed.

Lemma enumerate_length {X} (l : list X) : forall start,
  length (enumerate_from start l) = length l.
Proof. induction l as [|x l IH]; intros start; cbn; [done | by rewrite IH]. Qed.

(** The nodes of [flow_data]: one per element of [interface.flows]. *)
Lemma build_flow_data_nodes interface refs data :
  build_flow_data interface refs = Ok data ->
  exists fl flows,
    attr interface "flows" = Some fl /\ iterate fl = Ok flows
    /\ fd_nodes data = map viz_node_of (enumerate flows).
Proof.
  unfold build_flow_data, read_flows. intros H. unfold_bind.
  destruct (attr interface "flows") as [fl|]; [|discriminate].
  destruct (iterate fl) as [flows|] eqn:Ei; [|discriminate].
  destruct (for_each viz_node_step ([], []) (enumerate flows))
    as [[node_map nodes]|] eqn:E; [|discriminate].
  destruct (for_each (viz_link_step node_map) [] refs) as [links|]; [|discriminate].
  injection H as <-. exists fl, flows.
  split; [reflexivity|]. split; [exact Ei|].
  by apply viz_nodes_ok in E.
Qed.

Lemma io_bind_ok {X Y} (m : io X) (k : X -> io Y) w w' y :
  io_bind m k w = (w', Ok y) ->
  exists w1 x, m w = (w1, Ok x) /\ k x w1 = (w', Ok y).
Proof.
  unfold io_bind. destruct (m w) as [w1 [x|e]]; [|discriminate].
  intros H. by exists w1, x.
Qed.

Lemma write_log path c w w' u :
  write path c w = (w', Ok u) -> log w' = log w ++ [Wrote path c].
Proof.
  unfold write, mbind, io_mbind. intros H.
  apply io_bind_ok in H as (w1 & [] & H1 & H2).
  unfold guard_io in H1. injection H1 as <- _.
  unfold emit in H2. by injection H2 as <- _.
Qed.

Lemma json_dump_log path d w w' u :
  json_dump path d w = (w', Ok u) -> log w' = log w ++ [Wrote path (Json d)].
Proof.
  unfold json_dump, mbind, io_mbind. intros H.
  apply io_bind_ok in H as (w1 & [] & H1 & H2).
  unfold lift in H1. injection H1 as <- _.
  by apply write_log in H2.
Qed.

Lemma with_open_ok path body w w' u :
  with_open path body w = (w', Ok u) ->
  exists w1, body w1 = (w', Ok u).
Proof.
  unfold with_open, mbind, io_mbind. intros H.
  apply io_bind_ok in H as (w1 & [] & _ & H).
  apply io_bind_ok in H as (w2 & [] & _ & H).
  by exists w2.
Qed.

(** C2, as the code has it.  The visualization graph that
    [generate_visualization] writes has exactly one node per flow record
    of the input sequence, in input order and with its zero-based
    position as index, whether or not the diagram registered a node for
    that record. *)
Theorem one_node_per_flow_record (interface : pyval) (output_dir : string)
    (w w' : world) (paths : list (string * string)) :
  generate_visualization interface output_dir w = (w', Ok paths) ->
  exists fl flows data earlier,
    attr interface "flows" = Some fl /\ iterate fl = Ok flows
    /\ log w' = earlier ++ [Wrote (path_join output_dir d3_file) (Json data)]
    /\ fd_nodes data = map viz_node_of (enumerate flows)
    /\ length (fd_nodes data) = length flows.
Proof.
  unfold Adapter.generate_visualization, mbind, io_mbind. intros H.
  apply io_bind_ok in H as (w1 & [text refs] & _ & H).
  apply io_bind_ok in H as (w2 & [] & _ & H).
  apply io_bind_ok in H as (w3 & [] & _ & H).
  apply io_bind_ok in H as (w4 & data & Hdata & H).
  apply io_bind_ok in H as (w5 & [] & Hdump & H).
  unfold mret, io_mret, ret in H. injection H as <- _.
  unfold lift in Hdata. injection Hdata as _ Hdata.
  apply with_open_ok in Hdump as (w6 & Hdump).
  apply json_dump_log in Hdump.
  destruct (build_flow_data_nodes interface refs data Hdata)
    as (fl & flows & Hfl & Hit & Hnodes).
  exists fl, flows, data, (log w6). repeat split; try assumption.
  rewrite Hnodes, length_map. apply enumerate_length.
Qed.

End Visualization.

(** C2 fails as stated: of three flow records the diagram registers one
    node, [a_b]; the visualization graph has three nodes, one of them for
    the merged flow and one for the flow without identifier. *)
Lemma visualization_keeps_skipped_flows :
  FlowVisualizer.diagram_lines sample_repr (mk_interface colliding)
    = Ok ["graph TD"; "a_b(a b)"; "style a_b fill:#e8f5e9,stroke:#2e7d32"]
  /\ size (registered sample_repr colliding) = 1%nat
  /\ (Adapter.generate_visualization sample_repr (mk_interface colliding)
        "out" all_ok).2
     = Ok [("mermaid", "static/flow_diagram.mmd"); ("d3", "static/flow_data.json")]
  /\ last (log (Adapter.generate_visualization sample_repr
                  (mk_interface colliding) "out" all_ok).1)
     = Some (Wrote "out/static/flow_data.json"
               (Json (FlowData
                        [ VizNode 0 (PStr "a b") "source";
                          VizNode 1 (PStr "a_b") "subflow";
                          VizNode 2 (PStr EmptyString) "flow" ] []))).
Proof.
  split; [vm_compute; reflexivity|]. split; [vm_compute; reflexivity|].
  split; vm_compute; reflexivity.
Qed.

Lemma one_node_per_flow_record_witness :
  exists data earlier,
    log (Adapter.generate_visualization sample_repr (mk_interface colliding)
           "out" all_ok).1
    = earlier ++ [Wrote (path_join "out" d3_file) (Json data)]
    /\ length (fd_nodes data) = 3%nat.
Proof.
  destruct (one_node_per_flow_record sample_repr (mk_interface colliding) "out"
              all_ok
              (Adapter.generate_visualization sample_repr (mk_interface colliding)
                 "out" all_ok).1
              [("mermaid", "static/flow_diagram.mmd");
               ("d3", "static/flow_data.json")])
    as (fl & flows & data & earlier & Hfl & Hit & Hlog & _ & Hlen).
  - vm_compute. reflexivity.
  - exists data, earlier. split; [exact Hlog|].
    injection Hfl as <-. injection Hit as <-. exact Hlen.
Defined.

(** ** Errors *)

(** C5 fails on the code: without an interface, [generate_flow_diagram]
    returns the placeholder diagram and the diagram file is written, and
    then [generate_visualization] reads [interface.flows] and raises
    [AttributeError], although every file-system call succeeds. *)
Theorem absent_interface_raises (repr_text : pyval -> string) (output_dir : string) :
  FlowVisualizer.generate_flow_diagram repr_text PNone = Ok (no_flows_diagram, [])
  /\ (Adapter.generate_visualization repr_text PNone output_dir all_ok).2
     = Raise AttributeError
  /\ log (Adapter.generate_visualization repr_text PNone output_dir all_ok).1
     = [ Mkdir (path_join output_dir "static");
         Opened (path_join output_dir mermaid_file);
         Wrote (path_join output_dir mermaid_file) (Text no_flows_diagram) ].
Proof. repeat split. Qed.

(** * Further properties *)

Import Model Shape MoreSamples.

(** ** More on the identifier normalizer *)

Section NormalizerMore.

Variable repr_text : pyval -> string.

Local Abbreviation str := (Py.str repr_text).
Local Abbreviation _sanitize_id := (FlowVisualizer._sanitize_id repr_text).

Lemma re_sub_word s : all_word s = true -> re_sub_nonword s = s.
Proof.
  unfold re_sub_nonword. induction s as [|c s IH]; [reflexivity|].
  cbn [all_word map_chars]. intros H. apply andb_true_iff in H as [Hc Hs].
  by rewrite Hc, (IH Hs).
Qed.

Lemma ascii_letter_facts c :
  ascii_letter c = true -> word_char c = true /\ isalpha c = true.
Proof.
  unfold ascii_letter, word_char, isalpha. intros H.
  apply orb_true_iff in H as [-> | ->]; rewrite ?orb_true_r; split; reflexivity.
Qed.

Lemma sanitize_valid_fixed s :
  valid_identifier s = true -> _sanitize_id (PStr s) = s.
Proof.
  destruct s as [|c s]; [discriminate|]. cbn [valid_identifier]. intros H.
  apply andb_true_iff in H as [Hc Hs].
  destruct (ascii_letter_facts c Hc) as [Hw Ha].
  unfold FlowVisualizer._sanitize_id.
  change (truthy (PStr (String c s))) with true. cbn [negb].
  change (str (PStr (String c s))) with (String c s).
  rewrite (re_sub_word (String c s)) by (cbn [all_word]; by rewrite Hw, Hs).
  by rewrite Ha.
Qed.

(** X1. The texts that [_sanitize_id] returns unchanged are exactly the
    matches of [^[A-Za-z][A-Za-z0-9_]*$]. *)
Theorem sanitize_fixed_points (s : string) :
  _sanitize_id (PStr s) = s <-> valid_identifier s = true.
Proof.
  split; [|apply sanitize_valid_fixed].
  intros H. destruct s as [|c s]; [discriminate H|].
  rewrite <- H. apply sanitize_valid; [reflexivity | discriminate].
Qed.

(** X2. Normalizing twice is normalizing once: the result of
    [_sanitize_id] on a text is a text that [_sanitize_id] leaves as it
    is.  The same holds for any value whose result is not empty. *)
Theorem sanitize_idempotent :
  (forall s : string,
     _sanitize_id (PStr (_sanitize_id (PStr s))) = _sanitize_id (PStr s))
  /\ (forall v : pyval,
        _sanitize_id v <> EmptyString ->
        _sanitize_id (PStr (_sanitize_id v)) = _sanitize_id v).
Proof.
  assert (H : forall v, _sanitize_id v <> EmptyString ->
                _sanitize_id (PStr (_sanitize_id v)) = _sanitize_id v).
  { intros v Hne. apply sanitize_valid_fixed.
    destruct (truthy v) eqn:Ht.
    - apply sanitize_valid; [exact Ht|]. intros Hs. apply Hne.
      unfold FlowVisualizer._sanitize_id. rewrite Ht, Hs. reflexivity.
    - unfold FlowVisualizer._sanitize_id. rewrite Ht. reflexivity. }
  split; [|exact H].
  intros s. apply H. destruct s as [|c s]; [discriminate|].
  intros Hs.
  assert (Hv : valid_identifier (_sanitize_id (PStr (String c s))) = true)
    by (apply sanitize_valid; [reflexivity | discriminate]).
  rewrite Hs in Hv. discriminate Hv.
Qed.

Lemma length_map_chars f s : length_of (map_chars f s) = length_of s.
Proof. induction s as [|c s IH]; [reflexivity|]. cbn. by rewrite IH. Qed.

(** X3. On a non-empty text [_sanitize_id] keeps every character in its
    place or replaces it by an underscore, and adds at most the prefix
    [f_]: the result has the length of the text, or two more, and it has
    two more exactly when the text does not start with an ASCII letter. *)
Theorem sanitize_length (c : ascii) (s : string) :
  length_of (_sanitize_id (PStr (String c s)))
  = (if ascii_letter c then length_of (String c s)
     else 2 + length_of (String c s))%nat.
Proof.
  unfold FlowVisualizer._sanitize_id.
  change (truthy (PStr (String c s))) with true. cbn [negb].
  change (str (PStr (String c s))) with (String c s).
  unfold re_sub_nonword. cbn [map_chars].
  destruct (word_char c) eqn:Hw.
  - rewrite (word_char_isalpha c Hw).
    destruct (ascii_letter c); cbn [negb].
    + cbn [length_of]. by rewrite length_map_chars.
    + rewrite !append_cons, append_nil. cbn [length_of].
      by rewrite length_map_chars.
  - assert (Hl : ascii_letter c = false).
    { destruct (ascii_letter c) eqn:E; [|reflexivity].
      apply ascii_letter_facts in E as [E _]. congruence. }
    rewrite Hl. change (isalpha "_") with false. cbn [negb].
    rewrite !append_cons, append_nil. cbn [length_of].
    by rewrite length_map_chars.
Qed.

End NormalizerMore.

Lemma sanitize_idempotent_witness :
  FlowVisualizer._sanitize_id sample_repr
    (PStr (FlowVisualizer._sanitize_id sample_repr (PInt 7))) = "f_7".
Proof.
  apply (proj2 (sanitize_idempotent sample_repr) (PInt 7)). discriminate.
Defined.

(** ** More on display labels *)

Section LabelsMore.

Variable repr_text : pyval -> string.

Local Abbreviation str := (Py.str repr_text).
Local Abbreviation _escape_text := (FlowVisualizer._escape_text repr_text).

Lemma has_char_app c a b : has_char c (a +:+ b) = has_char c a || has_char c b.
Proof.
  induction a as [|x a IH]; [reflexivity|].
  rewrite append_cons. cbn [has_char]. rewrite IH. apply orb_assoc.
Qed.

(** After [replace], the replaced character is gone. *)
Lemma replace_removes old new s :
  has_char old new = false -> has_char old (replace old new s) = false.
Proof.
  intros Hn. induction s as [|x s IH]; [reflexivity|].
  cbn [replace]. destruct (Ascii.eqb x old) eqn:E.
  - by rewrite has_char_app, Hn, IH.
  - cbn [has_char]. by rewrite E, IH.
Qed.

(** [replace] brings in no character that is neither in the text nor in
    the replacement. *)
Lemma replace_keeps_out c old new s :
  has_char c new = false -> has_char c s = false ->
  has_char c (replace old new s) = false.
Proof.
  intros Hn. induction s as [|x s IH]; [reflexivity|].
  cbn [has_char replace]. intros H. apply orb_false_iff in H as [Hx Hs].
  destruct (Ascii.eqb x old).
  - by rewrite has_char_app, Hn, IH.
  - cbn [has_char]. by rewrite Hx, IH.
Qed.

(** [replace] of a character that does not occur changes nothing. *)
Lemma replace_absent old new s :
  has_char old s = false -> replace old new s = s.
Proof.
  induction s as [|x s IH]; [reflexivity|].
  cbn [has_char replace]. intros H. apply orb_false_iff in H as [Hx Hs].
  by rewrite Hx, (IH Hs).
Qed.

Ltac escaped :=
  unfold escape_rules;
  repeat first
    [ apply replace_removes; reflexivity
    | apply replace_keeps_out; [reflexivity|] ].

Lemma escape_rules_clean s :
  Forall (fun c => has_char c (escape_rules s) = false) special_chars.
Proof.
  unfold special_chars. repeat (apply Forall_cons_2; [escaped|]).
  apply Forall_nil_2.
Qed.

Lemma escape_text_specials text :
  Forall (fun c => has_char c (_escape_text text) = false) special_chars.
Proof.
  rewrite escape_text_rules. destruct (truthy text).
  - apply escape_rules_clean.
  - unfold special_chars. repeat (apply Forall_cons_2; [reflexivity|]).
    apply Forall_nil_2.
Qed.

(** X4. The text [_escape_text] returns contains none of the characters
    it rewrites: no double quote, square bracket, angle bracket,
    ampersand or backslash, whatever the label. *)
Theorem escape_text_clean (text : pyval) :
  Forall (fun c => has_char c (_escape_text text) = false) special_chars.
Proof. apply escape_text_specials. Qed.

Lemma escape_rules_fixed s :
  Forall (fun c => has_char c s = false) special_chars -> escape_rules s = s.
Proof.
  unfold special_chars. intros H.
  repeat (apply Forall_cons in H as [? H]).
  unfold escape_rules.
  rewrite (replace_absent "034" EmptyString s) by assumption.
  rewrite (replace_absent "[" "(" s) by assumption.
  rewrite (replace_absent "]" ")" s) by assumption.
  rewrite (replace_absent "<" "(" s) by assumption.
  rewrite (replace_absent ">" ")" s) by assumption.
  rewrite (replace_absent "&" "+" s) by assumption.
  by apply replace_absent.
Qed.

(** X5. Escaping an escaped label changes nothing, unless the escaped
    label is empty: then the second call returns the fallback. *)
Theorem escape_text_idempotent (text : pyval) :
  _escape_text (PStr (_escape_text text))
  = if String.eqb (_escape_text text) EmptyString
    then "Unnamed Flow" else _escape_text text.
Proof.
  rewrite (escape_text_rules repr_text (PStr (_escape_text text))).
  change (str (PStr (_escape_text text))) with (_escape_text text).
  cbn [truthy]. destruct (String.eqb (_escape_text text) EmptyString); cbn [negb];
    [reflexivity|].
  apply escape_rules_fixed, escape_text_specials.
Qed.

End LabelsMore.

(** ** More on the two loops *)

Section LoopsMore.

Context {S A : Type} (body : S -> A -> result S).

(** An invariant that the body keeps on the elements of the list. *)
Lemma for_each_keeps_in (P : S -> Prop) xs :
  (forall s x s', x ∈ xs -> P s -> body s x = Ok s' -> P s') ->
  forall s s', P s -> for_each body s xs = Ok s' -> P s'.
Proof.
  induction xs as [|x xs IH]; intros Hbody s s' Hs H; cbn [for_each] in H.
  - by injection H as <-.
  - unfold_bind. destruct (body s x) as [s1|] eqn:E; [|discriminate].
    apply (IH (fun s0 y s0' Hy => Hbody s0 y s0' (list_elem_of_further _ _ _ Hy))
              s1 s'); [|exact H].
    apply (Hbody s x s1); [apply list_elem_of_here | exact Hs | exact E].
Qed.

(** A loop raises what one of its iterations raises. *)
Lemma for_each_raises xs : forall s e,
  for_each body s xs = Raise e -> exists s0 x, x ∈ xs /\ body s0 x = Raise e.
Proof.
  induction xs as [|x xs IH]; intros s e H; cbn [for_each] in H; [discriminate|].
  unfold_bind. destruct (body s x) as [s1|e1] eqn:E.
  - destruct (IH s1 e H) as (s0 & y & Hy & Hb).
    exists s0, y. split; [by apply list_elem_of_further | exact Hb].
  - injection H as <-. exists s, x. split; [apply list_elem_of_here | exact E].
Qed.

(** A loop whose iterations all return, returns. *)
Lemma for_each_returns (P : S -> Prop) xs :
  (forall s x, x ∈ xs -> P s -> exists s', body s x = Ok s' /\ P s') ->
  forall s, P s -> exists s', for_each body s xs = Ok s' /\ P s'.
Proof.
  induction xs as [|x xs IH]; intros Hbody s Hs; cbn [for_each].
  - by exists s.
  - destruct (Hbody s x (list_elem_of_here _ _) Hs) as (s1 & E & Hs1).
    unfold_bind. rewrite E.
    apply IH; [|exact Hs1].
    intros s0 y Hy. apply Hbody. by apply list_elem_of_further.
Qed.

End LoopsMore.

Section Counting.

Variable repr_text : pyval -> string.

Local Abbreviation _sanitize_id := (FlowVisualizer._sanitize_id repr_text).
Local Abbreviation node_lines := (FlowVisualizer.node_lines repr_text).
Local Abbreviation node_step := (FlowVisualizer.node_step repr_text).
Local Abbreviation processor_step := (FlowVisualizer.processor_step repr_text).
Local Abbreviation link_step := (FlowVisualizer.link_step repr_text).
Local Abbreviation run_passes := (FlowVisualizer.run_passes repr_text).
Local Abbreviation diagram_lines := (FlowVisualizer.diagram_lines repr_text).
Local Abbreviation first_pass_lines := (Spec.first_pass_lines repr_text).
Local Abbreviation registered := (Spec.registered repr_text).

Lemma node_lines_length flow_id flow : length (node_lines flow_id flow) = 2%nat.
Proof.
  unfold FlowVisualizer.node_lines.
  destruct (hasattr flow "is_subflow" && truthy (dot flow "is_subflow"));
    [reflexivity|].
  destruct (hasattr flow "source" && truthy (dot flow "source")); reflexivity.
Qed.

Lemma size_add (x : string) (X : gset string) :
  x ∉ X -> size ({[x]} ∪ X) = Datatypes.S (size X).
Proof.
  intros H. rewrite size_union by set_solver. by rewrite size_singleton.
Qed.

Lemma node_step_counted b flow : counted b -> counted (node_step b flow).
Proof.
  unfold counted, FlowVisualizer.node_step. intros H.
  destruct (no_id flow); [exact H|].
  destruct (decide (_sanitize_id (dot flow "id") ∈ nodes b)) as [|Hout];
    [exact H|].
  destruct (append_lines (node_lines (_sanitize_id (dot flow "id")) flow) b)
    as (Hn & Hl & _ & Hd).
  cbv zeta in Hn, Hl, Hd. unfold add_node. cbn [mermaid_diagram nodes links].
  rewrite Hd, Hn, Hl, length_app, node_lines_length, (size_add _ _ Hout). lia.
Qed.

Lemma first_pass_counted flows : forall b,
  counted b -> counted (foldl node_step b flows).
Proof.
  induction flows as [|flow flows IH]; intros b H; [exact H|].
  cbn [foldl]. apply IH. by apply node_step_counted.
Qed.

Lemma processor_step_counted flow_id st processor :
  counted st.1 -> counted (processor_step flow_id st processor).1.
Proof.
  destruct st as [b references]. unfold counted. intros H.
  destruct (processor_step_cases repr_text flow_id b references processor)
    as [-> | (_ & _ & Hnew & ->)]; [exact H|].
  unfold add_link, append_line. cbn [fst mermaid_diagram nodes links] in H |- *.
  rewrite length_app, (size_add _ _ Hnew). cbn [length]. lia.
Qed.

Lemma processors_counted flow_id processors : forall st,
  counted st.1 -> counted (foldl (processor_step flow_id) st processors).1.
Proof.
  induction processors as [|p ps IH]; intros st H; [exact H|].
  cbn [foldl]. apply IH. by apply processor_step_counted.
Qed.

Lemma link_step_counted b flow b' :
  counted b -> link_step b flow = Ok b' -> counted b'.
Proof.
  intros Hc H.
  apply link_step_cases in H as [[_ ->] | (_ & ps & _ & H)]; [exact Hc|].
  cbv zeta in H.
  pose proof (processors_counted (_sanitize_id (dot flow "id")) ps (b, []) Hc)
    as Hc'.
  destruct H as [[_ ->] | (_ & _ & ->)]; exact Hc'.
Qed.

Lemma run_passes_counted flows b : run_passes flows = Ok b -> counted b.
Proof.
  unfold FlowVisualizer.run_passes. cbv zeta.
  apply (for_each_keeps counted link_step link_step_counted).
  apply first_pass_counted. reflexivity.
Qed.

Lemma filter_all {X} (p : X -> bool) l :
  Forall (fun x => p x = true) l -> List.filter p l = l.
Proof.
  induction 1 as [|x l Hx _ IH]; [reflexivity|].
  cbn [List.filter]. by rewrite Hx, IH.
Qed.

Lemma is_edge_edge_line a c :
  all_word a = true -> all_word c = true -> is_edge (edge_line a c) = true.
Proof.
  intros Ha Hc. unfold is_edge.
  pose proof (read_edge a c Ha Hc) as H. cbv zeta in H.
  by destruct H as (_ & _ & ->).
Qed.

Lemma lines_counted (interface : pyval) (flows : list pyval)
    (lines : list string) :
  no_flows interface = false ->
  iterate (dot interface "flows") = Ok flows ->
  diagram_lines interface = Ok lines ->
  length lines
  = (1 + 2 * size (registered flows) + length (List.filter is_edge lines))%nat.
Proof.
  intros Hnf Hit H.
  destruct (diagram_lines_inv repr_text interface flows lines Hnf Hit H)
    as (b & E & ->).
  pose proof (run_passes_counted flows b E) as Hc.
  destruct (run_passes_inv repr_text flows b E)
    as [(Hn & es & Hd & Hnd & Hl & Hall) _].
  assert (Hlinks : links b = list_to_set es).
  { apply leibniz_equiv, set_equiv. intros l.
    rewrite elem_of_list_to_set. symmetry. apply Hl. }
  assert (Hedges : List.filter is_edge (mermaid_diagram b) = es).
  { rewrite Hd, List.filter_app.
    rewrite (filter_none is_edge ("graph TD" :: first_pass_lines ∅ flows)).
    - apply filter_all. eapply Forall_impl; [exact Hall|].
      intros l (a & c & Ha & Hc' & ->). by apply is_edge_edge_line.
    - apply Forall_cons_2; [reflexivity|].
      eapply Forall_impl; [apply first_pass_no_edges|].
      intros l Hl'. unfold is_edge. by rewrite Hl'. }
  unfold counted in Hc. rewrite Hc, Hedges, Hn, Hlinks.
  by rewrite (size_list_to_set es Hnd).
Qed.


End Counting.

(** ** The reference index and the edges *)

Section ReferencesMore.

Variable repr_text : pyval -> string.

Local Abbreviation _sanitize_id := (FlowVisualizer._sanitize_id repr_text).
Local Abbreviation processor_step := (FlowVisualizer.processor_step repr_text).
Local Abbreviation link_step := (FlowVisualizer.link_step repr_text).
Local Abbreviation run_passes := (FlowVisualizer.run_passes repr_text).
Local Abbreviation generate_flow_diagram := (FlowVisualizer.generate_flow_diagram repr_text).
Local Abbreviation diagram_lines := (FlowVisualizer.diagram_lines repr_text).
Local Abbreviation first_pass_lines := (Spec.first_pass_lines repr_text).
Local Abbreviation has_safe_id := (Spec.has_safe_id repr_text).
Local Abbreviation registered := (Spec.registered repr_text).
Local Abbreviation references_ok := (Shape.references_ok repr_text).
Local Abbreviation entry_ok := (Shape.entry_ok repr_text).

Lemma references_ok_mono flow_id b b' references :
  nodes b' = nodes b -> links b ⊆ links b' ->
  references_ok flow_id b references -> references_ok flow_id b' references.
Proof.
  intros Hn Hl [Hall Hnd]. split; [|exact Hnd].
  eapply Forall_impl; [exact Hall|].
  intros t (Ht & Hk & He). rewrite Hn. repeat split; [assumption..|].
  by apply Hl.
Qed.

Lemma processor_step_references flow_id b references processor :
  references_ok flow_id b references ->
  let st' := processor_step flow_id (b, references) processor in
  references_ok flow_id st'.1 st'.2.
Proof.
  intros Hok.
  destruct (processor_step_cases repr_text flow_id b references processor)
    as [-> | (Ht & Hk & Hnew & ->)]; [exact Hok|].
  cbv zeta. cbn [fst snd].
  assert (Hmono : references_ok flow_id
                    (add_link (edge_line flow_id (_sanitize_id (ref_name_of processor)))
                       (append_line
                          (edge_line flow_id (_sanitize_id (ref_name_of processor))) b))
                    references).
  { apply (references_ok_mono flow_id b); [reflexivity | cbn; set_solver | exact Hok]. }
  destruct Hmono as [Hall Hnd]. destruct Hok as [Hall0 _].
  split.
  - apply Forall_app. split; [exact Hall|]. apply Forall_singleton.
    split; [exact Ht|]. split; [exact Hk|]. cbn. set_solver.
  - rewrite map_app. apply NoDup_app. split; [exact Hnd|].
    split; [|apply NoDup_singleton].
    intros x Hx Hx'. apply list_elem_of_singleton in Hx'. subst x.
    apply list_elem_of_fmap in Hx as (t & Hxt & Hin).
    rewrite Forall_forall in Hall0. destruct (Hall0 t Hin) as (_ & _ & He).
    apply Hnew. by rewrite Hxt.
Qed.

Lemma processors_references_ok flow_id processors : forall b references,
  references_ok flow_id b references ->
  let st' := foldl (processor_step flow_id) (b, references) processors in
  references_ok flow_id st'.1 st'.2.
Proof.
  induction processors as [|p ps IH]; intros b references Hok; [exact Hok|].
  cbn [foldl]. pose proof (processor_step_references flow_id b references p Hok) as H.
  cbv zeta in H. destruct (processor_step flow_id (b, references) p) as [b1 r1].
  by apply IH.
Qed.

Lemma entry_ok_mono flows b b' entry :
  nodes b' = nodes b -> links b ⊆ links b' ->
  entry_ok flows b entry -> entry_ok flows b' entry.
Proof.
  intros Hn Hl (flow & Hin & Hid & Hk & Hr).
  exists flow. repeat split; try assumption.
  - by destruct (references_ok_mono _ b b' _ Hn Hl Hr).
  - by destruct (references_ok_mono _ b b' _ Hn Hl Hr).
Qed.

Lemma dict_set_forall {V} (Q : pyval * V -> Prop) key value d :
  Forall Q d ->
  (forall k v, Q (k, v) -> key_eqb k key = true -> Q (k, value)) ->
  Q (key, value) ->
  Forall Q (dict_set key value d).
Proof.
  intros Hall Hrep Hnew.
  induction d as [|[k v] d IH]; cbn [dict_set].
  - by apply Forall_singleton.
  - apply Forall_cons in Hall as [Hk Hall].
    destruct (key_eqb k key) eqn:E; apply Forall_cons_2; eauto.
Qed.

Lemma key_eqb_refl v : hashable v = true -> key_eqb v v = true.
Proof.
  destruct v as [|b|z|s|l|d|i attrs]; cbn; try discriminate; intros _.
  - reflexivity.
  - by destruct b.
  - apply Z.eqb_refl.
  - apply String.eqb_refl.
  - apply Pos.eqb_refl.
Qed.

Lemma key_eqb_text a s : key_eqb a (PStr s) = true -> a = PStr s.
Proof.
  destruct a as [|b|z|t|l|d|i attrs]; cbn; try discriminate.
  intros H. apply String.eqb_eq in H. by subst.
Qed.

Lemma link_step_index flows b flow b' :
  flow ∈ flows ->
  Forall (entry_ok flows b) (flow_references b) ->
  link_step b flow = Ok b' ->
  Forall (entry_ok flows b') (flow_references b').
Proof.
  intros Hin Hinv H.
  destruct (link_step_keeps repr_text b flow b' H) as [Hn Hl].
  assert (Hold : Forall (entry_ok flows b') (flow_references b)).
  { eapply Forall_impl; [exact Hinv|]. intros entry. by apply entry_ok_mono. }
  apply link_step_cases in H as [[_ ->] | (Hid & ps & _ & H)]; [exact Hinv|].
  cbv zeta in H.
  pose proof (processors_references_ok (_sanitize_id (dot flow "id")) ps b []
                (conj (Forall_nil_2 _) (NoDup_nil_2))) as Hrefs.
  cbv zeta in Hrefs.
  destruct (processors_keep repr_text (_sanitize_id (dot flow "id")) ps (b, []))
    as (_ & Hr & _).
  cbv zeta in Hr. cbn [fst] in Hr.
  destruct H as [[_ ->] | (_ & Hh & ->)].
  - by rewrite Hr.
  - cbn [store_references flow_references nodes links] in Hold, Hn, Hl |- *.
    rewrite Hr.
    assert (Hnew : forall k, key_eqb k (dot flow "id") = true ->
              entry_ok flows
                (store_references (dot flow "id")
                   (foldl (processor_step (_sanitize_id (dot flow "id"))) (b, []) ps).2
                   (foldl (processor_step (_sanitize_id (dot flow "id"))) (b, []) ps).1)
                (k, (foldl (processor_step (_sanitize_id (dot flow "id"))) (b, []) ps).2)).
    { intros k Hk. exists flow. split; [exact Hin|]. split; [exact Hid|].
      split; [exact Hk|]. exact Hrefs. }
    apply dict_set_forall.
    + exact Hold.
    + intros k v _ Hk. by apply Hnew.
    + by apply Hnew, key_eqb_refl.
Qed.

Lemma run_passes_index flows b :
  run_passes flows = Ok b -> Forall (entry_ok flows b) (flow_references b).
Proof.
  unfold FlowVisualizer.run_passes. cbv zeta.
  apply (for_each_keeps_in link_step
           (fun s => Forall (entry_ok flows s) (flow_references s))).
  - intros s x s' Hx. by apply link_step_index.
  - destruct (first_pass repr_text flows initial) as (_ & -> & _).
    apply Forall_nil_2.
Qed.

Lemma diagram_result_inv interface flows text refs :
  no_flows interface = false ->
  iterate (dot interface "flows") = Ok flows ->
  generate_flow_diagram interface = Ok (text, refs) ->
  exists b, run_passes flows = Ok b
            /\ text = join_lines (mermaid_diagram b) /\ refs = flow_references b.
Proof.
  unfold FlowVisualizer.generate_flow_diagram. intros -> ->. unfold_bind.
  destruct (run_passes flows) as [b|]; [|discriminate].
  intros [= <- <-]. by eexists.
Qed.

Lemma links_in_lines flows b l :
  run_passes flows = Ok b -> l ∈ links b -> l ∈ mermaid_diagram b.
Proof.
  intros E Hl.
  destruct (run_passes_inv repr_text flows b E) as [(_ & es & -> & _ & Hes & _) _].
  apply elem_of_app. right. by apply Hes.
Qed.

(** X7. Every entry of the reference index belongs to a flow of the
    input: its key is, as a dictionary key, the identifier of that flow,
    every target is a non-empty name that normalizes to the identifier
    of a flow of the input, and the edge from the flow to the target is
    a line of the diagram. *)
Theorem references_are_edges (interface : pyval) (flows : list pyval)
    (text : string) (refs : list (pyval * list pyval)) :
  no_flows interface = false ->
  iterate (dot interface "flows") = Ok flows ->
  generate_flow_diagram interface = Ok (text, refs) ->
  exists lines,
    diagram_lines interface = Ok lines /\ text = join_lines lines
    /\ forall key targets, (key, targets) ∈ refs ->
         exists flow,
           flow ∈ flows /\ no_id flow = false
           /\ key_eqb key (dot flow "id") = true
           /\ (forall s, dot flow "id" = PStr s -> key = PStr s)
           /\ Forall
                (fun t =>
                   truthy t = true
                   /\ (exists target,
                         target ∈ flows /\ has_safe_id (_sanitize_id t) target = true)
                   /\ edge_line (_sanitize_id (dot flow "id")) (_sanitize_id t) ∈ lines)
                targets.
Proof.
  intros Hnf Hit H.
  destruct (diagram_text_lines repr_text interface text refs H) as (lines & Hl & ->).
  exists lines. split; [exact Hl|]. split; [reflexivity|].
  destruct (diagram_result_inv interface flows _ refs Hnf Hit H) as (b & E & _ & ->).
  destruct (diagram_lines_inv repr_text interface flows lines Hnf Hit Hl)
    as (b' & E' & ->).
  rewrite E in E'. injection E' as <-.
  pose proof (run_passes_index flows b E) as Hindex.
  rewrite Forall_forall in Hindex.
  intros key targets Hin.
  destruct (Hindex (key, targets) Hin) as (flow & Hf & Hid & Hk & Hall & _).
  exists flow. split; [exact Hf|]. split; [exact Hid|]. split; [exact Hk|].
  split.
  - intros s Hs. cbn [fst] in Hk. rewrite Hs in Hk. by apply key_eqb_text.
  - eapply Forall_impl; [exact Hall|].
    intros t (Ht & Hn & He). split; [exact Ht|]. split.
    + apply (registered_iff repr_text).
      destruct (run_passes_inv repr_text flows b E) as [(<- & _) _]. exact Hn.
    + by apply (links_in_lines flows).
Qed.

(** X8. Within one entry of the reference index no two targets have the
    same normalized identifier: a flow that invokes one target through
    several processors, or through several spellings, lists it once. *)
Theorem reference_targets_distinct (interface : pyval) (text : string)
    (refs : list (pyval * list pyval)) :
  generate_flow_diagram interface = Ok (text, refs) ->
  forall key targets, (key, targets) ∈ refs -> NoDup (map _sanitize_id targets).
Proof.
  unfold FlowVisualizer.generate_flow_diagram. intros H key targets Hin.
  destruct (no_flows interface).
  - injection H as _ <-. by apply elem_of_nil in Hin.
  - unfold_bind.
    destruct (iterate (dot interface "flows")) as [flows|]; [|discriminate].
    destruct (run_passes flows) as [b|] eqn:E; [|discriminate].
    injection H as _ <-.
    pose proof (run_passes_index flows b E) as Hindex.
    rewrite Forall_forall in Hindex.
    by destruct (Hindex (key, targets) Hin) as (flow & _ & _ & _ & _ & Hnd).
Qed.

Lemma processor_step_ends known flow_id st processor :
  flow_id ∈ known -> ends_known known st.1 ->
  ends_known known (processor_step flow_id st processor).1.
Proof.
  intros Hf Hinv. destruct st as [b references].
  destruct (processor_step_cases repr_text flow_id b references processor)
    as [-> | (_ & Hk & _ & ->)]; [exact Hinv|].
  destruct Hinv as [Hn Hl]. cbn [fst] in Hn, Hl |- *.
  split; [exact Hn|]. intros l. cbn [links add_link].
  rewrite elem_of_union, elem_of_singleton. intros [-> | Hin].
  - eexists _, _. split; [exact Hf|]. split; [|reflexivity]. by rewrite <- Hn.
  - by apply Hl.
Qed.

Lemma processors_ends known flow_id processors : forall st,
  flow_id ∈ known -> ends_known known st.1 ->
  ends_known known (foldl (processor_step flow_id) st processors).1.
Proof.
  induction processors as [|p ps IH]; intros st Hf Hinv; [exact Hinv|].
  cbn [foldl]. apply IH; [exact Hf|]. by apply processor_step_ends.
Qed.

Lemma flow_registered flows flow :
  flow ∈ flows -> no_id flow = false ->
  _sanitize_id (dot flow "id") ∈ registered flows.
Proof.
  intros Hin Hid. apply (registered_iff repr_text). exists flow.
  split; [exact Hin|]. by apply has_safe_id_eq.
Qed.

Lemma link_step_ends flows b flow b' :
  flow ∈ flows -> ends_known (registered flows) b ->
  link_step b flow = Ok b' -> ends_known (registered flows) b'.
Proof.
  intros Hin Hinv H.
  apply link_step_cases in H as [[_ ->] | (Hid & ps & _ & H)]; [exact Hinv|].
  cbv zeta in H.
  pose proof (processors_ends (registered flows) (_sanitize_id (dot flow "id"))
                ps (b, []) (flow_registered flows flow Hin Hid) Hinv) as Hinv'.
  destruct H as [[_ ->] | (_ & _ & ->)]; exact Hinv'.
Qed.

Lemma run_passes_ends flows b :
  run_passes flows = Ok b -> ends_known (registered flows) b.
Proof.
  unfold FlowVisualizer.run_passes. cbv zeta.
  apply (for_each_keeps_in link_step (ends_known (registered flows))).
  - intros s x s' Hx. by apply link_step_ends.
  - split; [reflexivity|].
    destruct (first_pass repr_text flows initial) as (-> & _).
    intros l Hl. by apply elem_of_empty in Hl.
Qed.

(** A registered identifier has its declaration among the lines of the
    first loop. *)
Lemma registered_declared flows a :
  a ∈ registered flows ->
  exists d, d ∈ first_pass_lines ∅ flows /\ decl_id d = Some a.
Proof.
  intros Ha. apply (registered_iff repr_text) in Ha as (f & Hf & Hs).
  destruct (first_with_split repr_text a flows f Hf Hs)
    as (first & _ & _ & Hfirst & _).
  pose proof (about_first_pass repr_text a flows ∅) as Habout.
  rewrite decide_False in Habout by set_solver. rewrite Hfirst in Habout.
  destruct (node_lines_read repr_text a first (has_safe_id_word repr_text a f Hs))
    as (decl & style & Hnl & Hd & _).
  rewrite Hnl in Habout. exists decl. split; [|exact Hd].
  apply list_elem_of_In.
  apply (proj1 (List.filter_In (about a) decl (first_pass_lines ∅ flows))).
  rewrite Habout. by left.
Qed.

(** X9. In a diagram the edge lines come last, and each of them joins
    two declared nodes: the declarations of both ends are among the
    lines before the first edge.  No edge points at an undeclared node. *)
Theorem edges_join_declared_nodes (interface : pyval) (lines : list string) :
  diagram_lines interface = Ok lines ->
  exists before edges,
    lines = before ++ edges
    /\ Forall (fun l => is_edge l = false) before
    /\ Forall
         (fun l =>
            exists a c,
              l = edge_line a c
              /\ (exists d, d ∈ before /\ decl_id d = Some a)
              /\ (exists d, d ∈ before /\ decl_id d = Some c))
         edges.
Proof.
  unfold FlowVisualizer.diagram_lines. intros H.
  destruct (no_flows interface).
  - injection H as <-. exists ["graph TD"; "A[No flows found]"], [].
    split; [reflexivity|]. split; [|apply Forall_nil_2].
    by repeat apply Forall_cons_2.
  - unfold_bind.
    destruct (iterate (dot interface "flows")) as [flows|]; [|discriminate].
    destruct (run_passes flows) as [b|] eqn:E; [|discriminate].
    injection H as <-.
    destruct (run_passes_inv repr_text flows b E)
      as [(_ & es & Hd & _ & Hes & _) _].
    destruct (run_passes_ends flows b E) as [_ Hends].
    exists ("graph TD" :: first_pass_lines ∅ flows), es.
    split; [exact Hd|]. split.
    + apply Forall_cons_2; [reflexivity|].
      eapply Forall_impl; [apply first_pass_no_edges|].
      intros l Hl. unfold is_edge. by rewrite Hl.
    + apply Forall_forall. intros l Hl. apply Hes in Hl.
      destruct (Hends l Hl) as (a & c & Ha & Hc & ->).
      exists a, c. split; [reflexivity|].
      destruct (registered_declared flows a Ha) as (da & Hda & Hda').
      destruct (registered_declared flows c Hc) as (dc & Hdc & Hdc').
      split; [exists da | exists dc];
        (split; [by apply list_elem_of_further | assumption]).
Qed.

End ReferencesMore.

(** ** When the diagram is trivial, and when it cannot be built *)

Section Outcomes.

Variable repr_text : pyval -> string.

Local Abbreviation _sanitize_id := (FlowVisualizer._sanitize_id repr_text).
Local Abbreviation node_step := (FlowVisualizer.node_step repr_text).
Local Abbreviation processor_step := (FlowVisualizer.processor_step repr_text).
Local Abbreviation link_step := (FlowVisualizer.link_step repr_text).
Local Abbreviation run_passes := (FlowVisualizer.run_passes repr_text).
Local Abbreviation generate_flow_diagram := (FlowVisualizer.generate_flow_diagram repr_text).
Local Abbreviation diagram_lines := (FlowVisualizer.diagram_lines repr_text).
Local Abbreviation first_pass_lines := (Spec.first_pass_lines repr_text).
Local Abbreviation registered := (Spec.registered repr_text).

Lemma no_id_not_object flow : hasattr flow "id" = false -> no_id flow = true.
Proof. unfold no_id. by intros ->. Qed.

Lemma skipped_first_pass flows : forall b,
  Forall (fun f => no_id f = true) flows -> foldl node_step b flows = b.
Proof.
  induction flows as [|f flows IH]; intros b H; [reflexivity|].
  apply Forall_cons in H as [Hf H]. cbn [foldl].
  assert (E : node_step b f = b)
    by (unfold FlowVisualizer.node_step; by rewrite Hf).
  rewrite E. by apply IH.
Qed.

Lemma skipped_second_pass flows : forall b,
  Forall (fun f => no_id f = true) flows -> for_each link_step b flows = Ok b.
Proof.
  induction flows as [|f flows IH]; intros b H; [reflexivity|].
  apply Forall_cons in H as [Hf H]. cbn [for_each].
  assert (E : link_step b f = Ok b)
    by (unfold FlowVisualizer.link_step; by rewrite Hf).
  rewrite E. unfold_bind. by apply IH.
Qed.

(** X10. When no flow record has a non-empty [id] attribute, the diagram
    is the header line alone and the reference index is empty.  This is
    the case of flows given as dictionaries: a dictionary has keys, not
    attributes. *)
Theorem flows_without_id_attribute (interface : pyval) (flows : list pyval) :
  no_flows interface = false ->
  iterate (dot interface "flows") = Ok flows ->
  Forall (fun f => is_dict f = true \/ no_id f = true) flows ->
  generate_flow_diagram interface = Ok ("graph TD", [])
  /\ diagram_lines interface = Ok ["graph TD"].
Proof.
  intros Hnf Hit H.
  assert (Hskip : Forall (fun f => no_id f = true) flows).
  { eapply Forall_impl; [exact H|]. intros f [Hd | Hn]; [|exact Hn].
    destruct f; try discriminate Hd. reflexivity. }
  unfold FlowVisualizer.generate_flow_diagram, FlowVisualizer.diagram_lines,
    FlowVisualizer.run_passes.
  rewrite Hnf, Hit. unfold_bind. cbv zeta.
  rewrite (skipped_first_pass flows initial Hskip).
  by rewrite (skipped_second_pass flows initial Hskip).
Qed.

Lemma ref_name_of_dict processor :
  is_dict processor = true -> ref_name_of processor = PNone.
Proof. destruct processor; try discriminate. reflexivity. Qed.

Lemma dict_processors_scan flow_id processors : forall st,
  forallb is_dict processors = true ->
  foldl (processor_step flow_id) st processors = st.
Proof.
  induction processors as [|p ps IH]; intros st H; [reflexivity|].
  cbn [forallb] in H. apply andb_true_iff in H as [Hp H]. cbn [foldl].
  assert (E : processor_step flow_id st p = st).
  { destruct st as [b references]. unfold FlowVisualizer.processor_step.
    by rewrite (ref_name_of_dict p Hp). }
  rewrite E. by apply IH.
Qed.

Lemma dict_processors_step b flow :
  dict_processors flow = true -> link_step b flow = Ok b.
Proof.
  unfold dict_processors, FlowVisualizer.link_step, hasattr, dot, getattr.
  intros H. destruct (no_id flow); [reflexivity|]. unfold_bind.
  destruct (attr flow "processors") as [[| | | |ps| |]|]; try discriminate H.
  - cbn [iterate]. by rewrite dict_processors_scan.
  - reflexivity.
Qed.

Lemma dict_processors_pass flows : forall b,
  forallb dict_processors flows = true -> for_each link_step b flows = Ok b.
Proof.
  induction flows as [|f flows IH]; intros b H; [reflexivity|].
  cbn [forallb] in H. apply andb_true_iff in H as [Hf H]. cbn [for_each].
  rewrite (dict_processors_step b f Hf). unfold_bind. by apply IH.
Qed.

Lemma no_edges_of_dict_processors interface flows :
  no_flows interface = false ->
  iterate (dot interface "flows") = Ok flows ->
  forallb dict_processors flows = true ->
  exists lines,
    diagram_lines interface = Ok lines
    /\ generate_flow_diagram interface = Ok (join_lines lines, [])
    /\ Forall (fun l => is_edge l = false) lines
    /\ length lines = (1 + 2 * size (registered flows))%nat.
Proof.
  intros Hnf Hit H.
  exists ("graph TD" :: first_pass_lines ∅ flows).
  destruct (first_pass repr_text flows initial) as (_ & Hr & Hd & _).
  cbv zeta in Hr, Hd. cbn [initial mermaid_diagram flow_references nodes] in Hr, Hd.
  assert (E : run_passes flows = Ok (foldl node_step initial flows)).
  { unfold FlowVisualizer.run_passes. cbv zeta. by apply dict_processors_pass. }
  assert (Hl : diagram_lines interface = Ok ("graph TD" :: first_pass_lines ∅ flows)).
  { unfold FlowVisualizer.diagram_lines. rewrite Hnf, Hit. unfold_bind.
    rewrite E. by rewrite Hd. }
  assert (Hno : Forall (fun l => is_edge l = false)
                  ("graph TD" :: first_pass_lines ∅ flows)).
  { apply Forall_cons_2; [reflexivity|].
    eapply Forall_impl; [apply first_pass_no_edges|].
    intros l Hl'. unfold is_edge. by rewrite Hl'. }
  split; [exact Hl|]. split; [|split; [exact Hno|]].
  - unfold FlowVisualizer.generate_flow_diagram. rewrite Hnf, Hit. unfold_bind.
    rewrite E. by rewrite Hd, Hr.
  - rewrite (lines_counted repr_text interface flows _ Hnf Hit Hl).
    rewrite (filter_none is_edge _ Hno). cbn [length]. lia.
Qed.

(** X11. When the processors of every flow are a list of dictionaries,
    the shape [XmlParser] and [Flow.from_dict] give them, no processor
    is recognised as a flow reference: [generate_flow_diagram] returns,
    the reference index is empty, and the diagram has the header and the
    node lines and no edge. *)
Theorem dict_processors_give_no_edges (interface : pyval) (flows : list pyval) :
  no_flows interface = false ->
  iterate (dot interface "flows") = Ok flows ->
  forallb dict_processors flows = true ->
  exists lines,
    diagram_lines interface = Ok lines
    /\ generate_flow_diagram interface = Ok (join_lines lines, [])
    /\ Forall (fun l => is_edge l = false) lines
    /\ length lines = (1 + 2 * size (registered flows))%nat.
Proof. apply no_edges_of_dict_processors. Qed.

Lemma link_step_raises b flow e : link_step b flow = Raise e -> e = TypeError.
Proof.
  unfold FlowVisualizer.link_step. destruct (no_id flow); [discriminate|].
  unfold_bind. destruct (hasattr flow "processors").
  - destruct (iterate (dot flow "processors")) as [ps|e1] eqn:E.
    + destruct (foldl _ (b, []) ps) as [b1 [|r refs]]; [discriminate|].
      destruct (hashable (dot flow "id")); [discriminate | congruence].
    + destruct (dot flow "processors"); cbn in E; congruence.
  - discriminate.
Qed.

Lemma iterate_raises v e : iterate v = Raise e -> e = TypeError.
Proof. destruct v; cbn; congruence. Qed.

Lemma diagram_raises interface e :
  generate_flow_diagram interface = Raise e -> e = TypeError.
Proof.
  unfold FlowVisualizer.generate_flow_diagram, FlowVisualizer.run_passes.
  destruct (no_flows interface); [discriminate|]. unfold_bind.
  destruct (iterate (dot interface "flows")) as [flows|e1] eqn:Hit.
  - cbv zeta.
    destruct (for_each link_step (foldl node_step initial flows) flows)
      as [b|e2] eqn:E; [discriminate|].
    intros [= <-].
    apply for_each_raises in E as (s0 & x & _ & E).
    by apply link_step_raises in E.
  - intros [= <-]. by apply iterate_raises in Hit.
Qed.

(** X12. [generate_flow_diagram] raises nothing but [TypeError]: from a
    flow collection or a processor collection that cannot be iterated,
    or from a flow identifier that cannot be a dictionary key. *)
Theorem diagram_raises_type_error_only (interface : pyval) (e : exn) :
  generate_flow_diagram interface = Raise e -> e = TypeError.
Proof. apply diagram_raises. Qed.

Lemma loop_safe_step b flow :
  loop_safe flow = true -> exists b', link_step b flow = Ok b'.
Proof.
  unfold loop_safe, iterable, FlowVisualizer.link_step. intros H.
  destruct (no_id flow); [by eexists|]. cbn [orb] in H.
  apply andb_true_iff in H as [Hp Hh]. unfold_bind.
  destruct (hasattr flow "processors"); cbn [negb orb] in Hp.
  - destruct (iterate (dot flow "processors")) as [ps|]; [|discriminate].
    destruct (foldl _ (b, []) ps) as [b1 [|r refs]]; [by eexists|].
    rewrite Hh. by eexists.
  - by eexists.
Qed.

Lemma diagram_returns interface flows :
  iterate (dot interface "flows") = Ok flows ->
  forallb loop_safe flows = true ->
  exists text refs, generate_flow_diagram interface = Ok (text, refs).
Proof.
  intros Hit H. unfold FlowVisualizer.generate_flow_diagram.
  destruct (no_flows interface); [by eexists _, _|].
  rewrite Hit. unfold_bind. unfold FlowVisualizer.run_passes. cbv zeta.
  destruct (for_each_returns link_step (fun _ => True) flows) with
    (s := foldl node_step initial flows) as (b & -> & _); [|exact I|by eexists _, _].
  intros s x Hx _.
  pose proof (proj1 (List.forallb_forall loop_safe flows) H x
                (proj1 (list_elem_of_In _ _) Hx)) as Hsafe.
  destruct (loop_safe_step s x Hsafe) as (s' & E). by exists s'.
Qed.

(** X13. [generate_flow_diagram] returns whenever the flow collection
    can be iterated and every flow with an identifier has processors
    that can be iterated, if it has any, and an identifier that can be a
    dictionary key. *)
Theorem diagram_returns_on_safe_flows (interface : pyval) (flows : list pyval) :
  iterate (dot interface "flows") = Ok flows ->
  forallb loop_safe flows = true ->
  exists text refs, generate_flow_diagram interface = Ok (text, refs).
Proof. apply diagram_returns. Qed.

End Outcomes.

(** ** More on the adapter *)

Section AdapterMore.

Variable repr_text : pyval -> string.

Local Abbreviation _sanitize_id := (FlowVisualizer._sanitize_id repr_text).
Local Abbreviation generate_flow_diagram := (FlowVisualizer.generate_flow_diagram repr_text).
Local Abbreviation generate_visualization := (Adapter.generate_visualization repr_text).

Lemma logged_logged w a b : logged (logged w a) b = logged w (a ++ b).
Proof. unfold logged. cbn. by rewrite app_assoc. Qed.

Lemma makedirs_run path w :
  makedirs path w
  = if mkdir_ok w path then (logged w [Mkdir path], Ok tt) else (w, Raise OSError).
Proof.
  unfold makedirs, mbind, io_mbind, io_bind, guard_io, emit, logged.
  by destruct (mkdir_ok w path).
Qed.

Lemma write_file_run path c w :
  with_open path (write path c) w
  = if open_ok w path
    then if write_ok w path
         then (logged w [Opened path; Wrote path c], Ok tt)
         else (logged w [Opened path], Raise OSError)
    else (w, Raise OSError).
Proof.
  unfold with_open, write, mbind, io_mbind, io_bind, guard_io, emit, logged.
  destruct (open_ok w path); [|reflexivity]. cbn.
  destruct (write_ok w path); [|reflexivity]. cbn. by rewrite <- app_assoc.
Qed.

Lemma json_file_run path d w :
  with_open path (json_dump path d) w
  = if open_ok w path
    then if forallb (fun n => json_serializable (node_name n)) (fd_nodes d)
         then if write_ok w path
              then (logged w [Opened path; Wrote path (Json d)], Ok tt)
              else (logged w [Opened path], Raise OSError)
         else (logged w [Opened path], Raise TypeError)
    else (w, Raise OSError).
Proof.
  unfold with_open, json_dump, write, mbind, io_mbind, io_bind, guard_io, emit,
    lift, logged.
  destruct (open_ok w path); [|reflexivity]. cbn.
  destruct (forallb _ (fd_nodes d)); [|reflexivity].
  destruct (write_ok w path); [|reflexivity]. cbn. by rewrite <- app_assoc.
Qed.

(** [generate_visualization], one step after the other. *)
Lemma generate_visualization_run interface output_dir w :
  generate_visualization interface output_dir w
  = match generate_flow_diagram interface with
    | Raise e => (w, Raise e)
    | Ok (text, refs) =>
        match makedirs (path_join output_dir "static") w with
        | (w1, Raise e) => (w1, Raise e)
        | (w1, Ok _) =>
            match with_open (path_join output_dir mermaid_file)
                    (write (path_join output_dir mermaid_file) (Text text)) w1 with
            | (w2, Raise e) => (w2, Raise e)
            | (w2, Ok _) =>
                match build_flow_data interface refs with
                | Raise e => (w2, Raise e)
                | Ok data =>
                    match with_open (path_join output_dir d3_file)
                            (json_dump (path_join output_dir d3_file) data) w2 with
                    | (w3, Raise e) => (w3, Raise e)
                    | (w3, Ok _) =>
                        (w3, Ok [("mermaid", mermaid_file); ("d3", d3_file)])
                    end
                end
            end
        end
    end.
Proof.
  unfold Adapter.generate_visualization, generate_flow_visualization.
  unfold mbind at 1, io_mbind at 1, io_bind at 1, lift at 1.
  destruct (generate_flow_diagram interface) as [[text refs]|e]; [|reflexivity].
  unfold mbind at 1, io_mbind at 1, io_bind at 1.
  destruct (makedirs (path_join output_dir "static") w) as [w1 [[]|e]];
    [|reflexivity].
  unfold mbind at 1, io_mbind at 1, io_bind at 1.
  destruct (with_open (path_join output_dir mermaid_file)
              (write (path_join output_dir mermaid_file) (Text text)) w1)
    as [w2 [[]|e]]; [|reflexivity].
  unfold mbind at 1, io_mbind at 1, io_bind at 1, lift at 1.
  destruct (build_flow_data interface refs) as [data|e]; [|reflexivity].
  unfold mbind at 1, io_mbind at 1, io_bind at 1.
  destruct (with_open (path_join output_dir d3_file)
              (json_dump (path_join output_dir d3_file) data) w2)
    as [w3 [[]|e]]; reflexivity.
Qed.

(** X14. When [generate_visualization] returns, it returns the two
    relative paths, whatever the output directory, and it has done
    exactly this, in this order: created the directory [static], written
    the text of [generate_flow_diagram] verbatim to the diagram file,
    and written the graph to the data file. *)
Theorem visualization_success_contract (interface : pyval) (output_dir : string)
    (w w' : world) (paths : list (string * string)) :
  generate_visualization interface output_dir w = (w', Ok paths) ->
  paths = [("mermaid", "static/flow_diagram.mmd"); ("d3", "static/flow_data.json")]
  /\ exists text refs data,
       generate_flow_diagram interface = Ok (text, refs)
       /\ build_flow_data interface refs = Ok data
       /\ w' = logged w (success_log output_dir text data).
Proof.
  rewrite generate_visualization_run.
  destruct (generate_flow_diagram interface) as [[text refs]|e] eqn:Hd;
    [|discriminate].
  rewrite makedirs_run.
  destruct (mkdir_ok w (path_join output_dir "static")); [|discriminate].
  rewrite write_file_run. cbn [logged open_ok write_ok].
  destruct (open_ok w (path_join output_dir mermaid_file)); [|discriminate].
  destruct (write_ok w (path_join output_dir mermaid_file)); [|discriminate].
  destruct (build_flow_data interface refs) as [data|e] eqn:Hb; [|discriminate].
  rewrite json_file_run. cbn [logged open_ok write_ok].
  destruct (open_ok w (path_join output_dir d3_file)); [|discriminate].
  destruct (forallb _ (fd_nodes data)); [|discriminate].
  destruct (write_ok w (path_join output_dir d3_file)); [|discriminate].
  intros [= <- <-]. split; [reflexivity|].
  exists text, refs, data. split; [reflexivity|]. split; [exact Hb|].
  by rewrite !logged_logged.
Qed.


End AdapterMore.

(** ** The graph of the adapter *)

Section Graph.

Lemma key_eqb_sym a b : key_eqb a b = key_eqb b a.
Proof.
  destruct a, b; cbn; try reflexivity;
    auto using Z.eqb_sym, String.eqb_sym, Pos.eqb_sym.
Qed.

Lemma key_eqb_trans a b c :
  key_eqb a b = true -> key_eqb b c = true -> key_eqb a c = true.
Proof.
  destruct a, b; cbn; try discriminate; destruct c; cbn; try discriminate;
    rewrite ?Z.eqb_eq, ?String.eqb_eq, ?Pos.eqb_eq; congruence.
Qed.

(** Reading a dictionary after [d[k] = v]. *)
Lemma lookup_dict_set {V} key k (v : V) d :
  lookup_key key (dict_set k v d)
  = if key_eqb k key then Some v else lookup_key key d.
Proof.
  induction d as [|[k0 v0] d IH]; cbn [dict_set lookup_key]; [reflexivity|].
  destruct (key_eqb k0 k) eqn:E0; cbn [lookup_key].
  - destruct (key_eqb k0 key) eqn:E1.
    + rewrite (key_eqb_trans k k0 key); [reflexivity | by rewrite key_eqb_sym | exact E1].
    + destruct (key_eqb k key) eqn:E2; [|reflexivity].
      rewrite (key_eqb_trans k0 k key E0 E2) in E1. discriminate.
  - destruct (key_eqb k0 key) eqn:E1; [|exact IH].
    destruct (key_eqb k key) eqn:E2; [|reflexivity].
    rewrite (key_eqb_trans k0 key k E1) in E0; [discriminate | by rewrite key_eqb_sym].
Qed.

Lemma viz_node_step_eq m ns i flow :
  viz_node_step (m, ns) (i, flow)
  = if hashable (viz_id flow)
    then Ok (dict_set (viz_id flow) i m, ns ++ [viz_node_of (i, flow)])
    else Raise TypeError.
Proof.
  unfold viz_node_step, viz_node_of, viz_id, viz_type_of. cbn [fst snd].
  by destruct (viz_fields flow) as [[a b] c].
Qed.

(** After the loop over the flows, [node_map] sends a name to the
    position of the last flow with that name. *)
Lemma node_map_last flows : forall start m ns m' ns' key,
  for_each viz_node_step (m, ns) (enumerate_from start flows) = Ok (m', ns') ->
  lookup_key key m'
  = match last_named start key flows with
    | Some i => Some i
    | None => lookup_key key m
    end.
Proof.
  induction flows as [|flow flows IH]; intros start m ns m' ns' key H;
    cbn [enumerate_from for_each last_named] in *.
  - by injection H as <- _.
  - rewrite viz_node_step_eq in H. unfold_bind.
    destruct (hashable (viz_id flow)); [|discriminate].
    rewrite (IH _ _ _ _ _ key H).
    destruct (last_named (S start) key flows); [reflexivity|].
    rewrite lookup_dict_set. by destruct (key_eqb (viz_id flow) key).
Qed.

Lemma viz_target_step_eq m source_idx links target :
  viz_target_step m source_idx links target
  = if hashable target
    then Ok (links ++ match lookup_key target m with
                      | Some target_idx => [(source_idx, target_idx)]
                      | None => []
                      end)
    else Raise TypeError.
Proof.
  unfold viz_target_step, contains. unfold_bind.
  destruct (hashable target); [|reflexivity].
  destruct (lookup_key target m); [reflexivity | by rewrite app_nil_r].
Qed.

Lemma viz_link_step_eq m links key targets :
  viz_link_step m links (key, targets)
  = if hashable key
    then match lookup_key key m with
         | Some source_idx => for_each (viz_target_step m source_idx) links targets
         | None => Ok links
         end
    else Raise TypeError.
Proof.
  unfold viz_link_step, contains. unfold_bind.
  destruct (hashable key); [|reflexivity].
  by destruct (lookup_key key m).
Qed.

Lemma viz_targets_closed m source_idx targets : forall links links',
  for_each (viz_target_step m source_idx) links targets = Ok links' ->
  links'
  = links ++ flat_map (fun target =>
                         match lookup_key target m with
                         | Some target_idx => [(source_idx, target_idx)]
                         | None => []
                         end) targets.
Proof.
  induction targets as [|t targets IH]; intros links links' H;
    cbn [for_each flat_map] in *.
  - injection H as <-. by rewrite app_nil_r.
  - rewrite viz_target_step_eq in H. unfold_bind.
    destruct (hashable t); [|discriminate].
    rewrite (IH _ _ H). by rewrite <- app_assoc.
Qed.

Lemma viz_links_closed m refs : forall links links',
  for_each (viz_link_step m) links refs = Ok links' ->
  links'
  = links ++ flat_map (fun entry =>
                         match lookup_key entry.1 m with
                         | Some source_idx =>
                             flat_map (fun target =>
                                         match lookup_key target m with
                                         | Some target_idx => [(source_idx, target_idx)]
                                         | None => []
                                         end) entry.2
                         | None => []
                         end) refs.
Proof.
  induction refs as [|[key targets] refs IH]; intros links links' H;
    cbn [for_each flat_map fst snd] in *.
  - injection H as <-. by rewrite app_nil_r.
  - rewrite viz_link_step_eq in H. unfold_bind.
    destruct (hashable key); [|discriminate].
    destruct (lookup_key key m) as [i|].
    + destruct (for_each (viz_target_step m i) links targets) as [links1|] eqn:E;
        [|discriminate].
      rewrite (IH _ _ H), (viz_targets_closed m i targets _ _ E).
      by rewrite <- app_assoc.
    + by rewrite (IH _ _ H).
Qed.

Lemma build_flow_data_links interface refs data :
  build_flow_data interface refs = Ok data ->
  exists fl flows,
    attr interface "flows" = Some fl /\ iterate fl = Ok flows
    /\ fd_nodes data = map viz_node_of (enumerate flows)
    /\ fd_links data = flat_map (links_of flows) refs.
Proof.
  unfold build_flow_data, read_flows. intros H. unfold_bind.
  destruct (attr interface "flows") as [fl|]; [|discriminate].
  destruct (iterate fl) as [flows|] eqn:Ei; [|discriminate].
  destruct (for_each viz_node_step ([], []) (enumerate flows))
    as [[node_map nodes]|] eqn:E; [|discriminate].
  destruct (for_each (viz_link_step node_map) [] refs) as [links|] eqn:El;
    [|discriminate].
  injection H as <-. exists fl, flows.
  split; [reflexivity|]. split; [exact Ei|]. cbn [fd_nodes fd_links].
  split; [by apply viz_nodes_ok in E|].
  rewrite (viz_links_closed node_map refs _ _ El). cbn [app].
  assert (Hmap : forall key, lookup_key key node_map = last_named 0 key flows).
  { intros key. rewrite (node_map_last flows 0 [] [] node_map nodes key E).
    by destruct (last_named 0 key flows). }
  apply List.flat_map_ext. intros [key targets]. unfold links_of. cbn [fst snd].
  rewrite Hmap. destruct (last_named 0 key flows); [|reflexivity].
  apply List.flat_map_ext. intros target. by rewrite Hmap.
Qed.

(** X16. The links of the graph are computed from the reference index
    alone: an entry gives one link per target, from the last flow named
    like its key to the last flow named like the target, and none when
    either name belongs to no flow.  Where several flows share a name,
    the last one receives the links, while the diagram draws the first. *)
Theorem links_join_last_flows (interface : pyval)
    (refs : list (pyval * list pyval)) (data : flow_data) :
  build_flow_data interface refs = Ok data ->
  exists fl flows,
    attr interface "flows" = Some fl /\ iterate fl = Ok flows
    /\ fd_links data = flat_map (links_of flows) refs.
Proof.
  intros H.
  destruct (build_flow_data_links interface refs data H)
    as (fl & flows & Ha & Hi & _ & Hl).
  by exists fl, flows.
Qed.

Lemma last_named_some flows : forall start key i,
  last_named start key flows = Some i ->
  exists flow,
    flows !! (i - start)%nat = Some flow /\ (start <= i)%nat
    /\ key_eqb (viz_id flow) key = true.
Proof.
  induction flows as [|flow flows IH]; intros start key i H;
    cbn [last_named] in H; [discriminate|].
  destruct (last_named (S start) key flows) as [j|] eqn:E.
  - injection H as ->. destruct (IH _ _ _ E) as (f & Hf & Hle & Hk).
    exists f. split; [|split; [lia | exact Hk]].
    replace (i - start)%nat with (S (i - S start)) by lia. exact Hf.
  - destruct (key_eqb (viz_id flow) key) eqn:Hk; [|discriminate].
    injection H as <-. exists flow.
    rewrite Nat.sub_diag. split; [reflexivity|]. split; [lia | exact Hk].
Qed.

Lemma enumerate_lookup {X} (l : list X) : forall start i x,
  l !! i = Some x -> enumerate_from start l !! i = Some ((start + i)%nat, x).
Proof.
  induction l as [|y l IH]; intros start i x H; [discriminate|].
  destruct i as [|i]; cbn [enumerate_from].
  - injection H as ->. by rewrite Nat.add_0_r.
  - change (enumerate_from (S start) l !! i = Some ((start + S i)%nat, x)).
    rewrite (IH (S start) i x H). f_equal. f_equal. lia.
Qed.

Lemma map_lookup {X Y} (f : X -> Y) l i x :
  l !! i = Some x -> map f l !! i = Some (f x).
Proof.
  revert i. induction l as [|y l IH]; intros i H; [discriminate|].
  destruct i as [|i]; cbn in *; [by injection H as -> | by apply IH].
Qed.

Lemma named_node flows key i :
  last_named 0 key flows = Some i ->
  exists a,
    map viz_node_of (enumerate flows) !! i = Some a
    /\ node_index a = i /\ key_eqb (node_name a) key = true.
Proof.
  intros H. destruct (last_named_some flows 0 key i H) as (flow & Hf & _ & Hk).
  rewrite Nat.sub_0_r in Hf.
  exists (viz_node_of (i, flow)). split; [|split; [reflexivity | exact Hk]].
  apply map_lookup. apply (enumerate_lookup flows 0 i flow Hf).
Qed.

(** X17. Every link of the graph joins two of its nodes: both ends are
    positions in the node list, the node at a position carries that
    position as its [id], and the two nodes are named like the key and
    like one target of an entry of the reference index. *)
Theorem links_join_named_nodes (interface : pyval)
    (refs : list (pyval * list pyval)) (data : flow_data) :
  build_flow_data interface refs = Ok data ->
  Forall
    (fun l =>
       exists key targets target a c,
         (key, targets) ∈ refs /\ target ∈ targets
         /\ fd_nodes data !! l.1 = Some a /\ node_index a = l.1
         /\ key_eqb (node_name a) key = true
         /\ fd_nodes data !! l.2 = Some c /\ node_index c = l.2
         /\ key_eqb (node_name c) target = true)
    (fd_links data).
Proof.
  intros H.
  destruct (build_flow_data_links interface refs data H)
    as (fl & flows & _ & _ & -> & ->).
  apply Forall_forall. intros [s t] Hin.
  apply list_elem_of_In, List.in_flat_map in Hin as ([key targets] & Hentry & Hin).
  unfold links_of in Hin. cbn [fst snd] in Hin.
  destruct (last_named 0 key flows) as [i|] eqn:Ei; [|destruct Hin].
  apply List.in_flat_map in Hin as (target & Ht & Hin).
  destruct (last_named 0 target flows) as [j|] eqn:Ej; [|destruct Hin].
  destruct Hin as [[= <- <-]|[]].
  destruct (named_node flows key i Ei) as (a & Ha & Hia & Hka).
  destruct (named_node flows target j Ej) as (c & Hc & Hic & Hkc).
  exists key, targets, target, a, c. cbn [fst snd].
  split; [by apply list_elem_of_In|]. split; [by apply list_elem_of_In|].
  repeat split; assumption.
Qed.

End Graph.

(** ** When the adapter returns *)

Section AdapterOutcomes.

Variable repr_text : pyval -> string.

Local Abbreviation _sanitize_id := (FlowVisualizer._sanitize_id repr_text).
Local Abbreviation processor_step := (FlowVisualizer.processor_step repr_text).
Local Abbreviation link_step := (FlowVisualizer.link_step repr_text).
Local Abbreviation run_passes := (FlowVisualizer.run_passes repr_text).
Local Abbreviation generate_flow_diagram := (FlowVisualizer.generate_flow_diagram repr_text).
Local Abbreviation generate_visualization := (Adapter.generate_visualization repr_text).

Lemma key_eqb_hashable a b : key_eqb a b = true -> hashable a = true.
Proof. destruct a; try reflexivity; destruct b; discriminate. Qed.

Lemma simple_hashable v : simple v = true -> hashable v = true.
Proof. by destruct v. Qed.

Lemma simple_json v : simple v = true -> json_serializable v = true.
Proof. by destruct v. Qed.

Lemma scanned_processors_of flow processors :
  scanned flow processors -> processors_of flow = processors.
Proof.
  unfold scanned, processors_of. destruct (hasattr flow "processors").
  - by intros ->.
  - by intros ->.
Qed.

Lemma processors_hashable flow_id processors : forall st,
  Forall (fun p => hashable (ref_name_of p) = true) processors ->
  Forall (fun t => hashable t = true) st.2 ->
  Forall (fun t => hashable t = true) (foldl (processor_step flow_id) st processors).2.
Proof.
  induction processors as [|p ps IH]; intros [b references] Hps Hst; [exact Hst|].
  apply Forall_cons in Hps as [Hp Hps]. cbn [foldl]. apply IH; [exact Hps|].
  destruct (processor_step_cases repr_text flow_id b references p)
    as [-> | (_ & _ & _ & ->)]; [exact Hst|].
  cbn [snd] in *. apply Forall_app. split; [exact Hst|]. by apply Forall_singleton.
Qed.

Lemma link_step_hashable b flow b' :
  viz_safe flow = true ->
  Forall hashable_entry (flow_references b) ->
  link_step b flow = Ok b' ->
  Forall hashable_entry (flow_references b').
Proof.
  intros Hsafe Hinv H.
  apply link_step_cases in H as [[_ ->] | (_ & ps & Hscan & H)]; [exact Hinv|].
  cbv zeta in H.
  destruct (processors_keep repr_text (_sanitize_id (dot flow "id")) ps (b, []))
    as (_ & Hr & _).
  cbv zeta in Hr. cbn [fst] in Hr.
  assert (Hrefs : Forall (fun t => hashable t = true)
                    (foldl (processor_step (_sanitize_id (dot flow "id"))) (b, []) ps).2).
  { apply processors_hashable; [|apply Forall_nil_2].
    unfold viz_safe in Hsafe. apply andb_true_iff in Hsafe as [_ Hsafe].
    rewrite (scanned_processors_of flow ps Hscan) in Hsafe.
    apply Forall_forall. intros p Hp.
    apply (proj1 (List.forallb_forall _ ps) Hsafe p), list_elem_of_In, Hp. }
  destruct H as [[_ ->] | (_ & Hh & ->)].
  - by rewrite Hr.
  - cbn [store_references flow_references]. rewrite Hr.
    apply dict_set_forall; [exact Hinv| |by split].
    intros k v [Hk _] _. by split.
Qed.

Lemma diagram_refs_hashable interface flows text refs :
  iterate (dot interface "flows") = Ok flows ->
  forallb viz_safe flows = true ->
  generate_flow_diagram interface = Ok (text, refs) ->
  Forall hashable_entry refs.
Proof.
  intros Hit Hsafe. unfold FlowVisualizer.generate_flow_diagram.
  destruct (no_flows interface).
  - intros [= _ <-]. apply Forall_nil_2.
  - rewrite Hit. unfold_bind.
    destruct (run_passes flows) as [b|] eqn:E; [|discriminate].
    intros [= _ <-]. revert E. unfold FlowVisualizer.run_passes. cbv zeta.
    apply (for_each_keeps_in link_step
             (fun s => Forall hashable_entry (flow_references s))).
    + intros s x s' Hx. apply link_step_hashable.
      apply (proj1 (List.forallb_forall _ flows) Hsafe x), list_elem_of_In, Hx.
    + destruct (first_pass repr_text flows initial) as (_ & -> & _).
      apply Forall_nil_2.
Qed.

Lemma viz_nodes_return flows : forall start st,
  Forall (fun f => hashable (viz_id f) = true) flows ->
  exists st', for_each viz_node_step st (enumerate_from start flows) = Ok st'.
Proof.
  induction flows as [|flow flows IH]; intros start [m ns] H;
    cbn [enumerate_from for_each]; [by eexists|].
  apply Forall_cons in H as [Hf H].
  rewrite viz_node_step_eq, Hf. unfold_bind. by apply IH.
Qed.

Lemma viz_targets_return m source_idx targets : forall links,
  Forall (fun t => hashable t = true) targets ->
  exists links', for_each (viz_target_step m source_idx) links targets = Ok links'.
Proof.
  induction targets as [|t targets IH]; intros links H; cbn [for_each];
    [by eexists|].
  apply Forall_cons in H as [Ht H].
  rewrite viz_target_step_eq, Ht. unfold_bind. by apply IH.
Qed.

Lemma viz_links_return m refs : forall links,
  Forall hashable_entry refs ->
  exists links', for_each (viz_link_step m) links refs = Ok links'.
Proof.
  induction refs as [|[key targets] refs IH]; intros links H; cbn [for_each];
    [by eexists|].
  apply Forall_cons in H as [[Hk Ht] H]. cbn [fst snd] in Hk, Ht.
  rewrite viz_link_step_eq, Hk.
  destruct (lookup_key key m) as [i|].
  - destruct (viz_targets_return m i targets links Ht) as (links1 & ->).
    unfold_bind. by apply IH.
  - unfold_bind. by apply IH.
Qed.

Lemma names_serializable flows : forall start,
  Forall (fun f => simple (viz_id f) = true) flows ->
  forallb (fun n => json_serializable (node_name n))
    (map viz_node_of (enumerate_from start flows)) = true.
Proof.
  induction flows as [|flow flows IH]; intros start H; [reflexivity|].
  apply Forall_cons in H as [Hf H]. cbn [enumerate_from map forallb].
  rewrite (IH (S start) H), andb_true_r. by apply simple_json.
Qed.

Lemma viz_safe_parts flows :
  forallb viz_safe flows = true ->
  forallb loop_safe flows = true
  /\ Forall (fun f => simple (viz_id f) = true) flows.
Proof.
  induction flows as [|flow flows IH]; [by split|].
  cbn [forallb]. intros H. apply andb_true_iff in H as [Hf H].
  destruct (IH H) as [Hl Hs]. unfold viz_safe in Hf.
  apply andb_true_iff in Hf as [Hf _]. apply andb_true_iff in Hf as [Hf1 Hf2].
  split; [by rewrite Hf1, Hl | by apply Forall_cons_2].
Qed.

(** X18. [generate_visualization] returns, with both files written, when
    the file system accepts its calls and the flows are well formed:
    the flow collection can be iterated, every flow with an identifier
    has processors that can be iterated and a hashable identifier, the
    name of every flow in the graph is a number, a text, a boolean or
    [None], and the names that processors refer to are hashable. *)
Theorem visualization_returns_on_safe_input (interface : pyval) (output_dir : string)
    (w : world) (fl : pyval) (flows : list pyval) :
  attr interface "flows" = Some fl ->
  iterate fl = Ok flows ->
  forallb viz_safe flows = true ->
  fs_ok w output_dir ->
  exists text refs data,
    generate_flow_diagram interface = Ok (text, refs)
    /\ build_flow_data interface refs = Ok data
    /\ generate_visualization interface output_dir w
       = (logged w (success_log output_dir text data),
          Ok [("mermaid", "static/flow_diagram.mmd"); ("d3", "static/flow_data.json")]).
Proof.
  intros Ha Hit Hsafe (Hm & Ho1 & Hw1 & Ho2 & Hw2).
  destruct (viz_safe_parts flows Hsafe) as [Hloop Hsimple].
  assert (Hdot : dot interface "flows" = fl) by (unfold dot, getattr; by rewrite Ha).
  assert (Hit' : iterate (dot interface "flows") = Ok flows) by (by rewrite Hdot).
  destruct (diagram_returns repr_text interface flows Hit' Hloop) as (text & refs & Hd).
  pose proof (diagram_refs_hashable interface flows text refs Hit' Hsafe Hd) as Hrefs.
  assert (Hhash : Forall (fun f => hashable (viz_id f) = true) flows).
  { eapply Forall_impl; [exact Hsimple|]. intros f. apply simple_hashable. }
  destruct (viz_nodes_return flows 0 ([], []) Hhash) as ([node_map nodes] & En).
  destruct (viz_links_return node_map refs [] Hrefs) as (links & El).
  assert (Hb : build_flow_data interface refs = Ok (FlowData nodes links)).
  { unfold build_flow_data, read_flows. rewrite Ha. unfold_bind. rewrite Hit.
    unfold enumerate. rewrite En. by rewrite El. }
  exists text, refs, (FlowData nodes links).
  split; [exact Hd|]. split; [exact Hb|].
  rewrite generate_visualization_run, Hd, makedirs_run, Hm, write_file_run.
  cbn [logged open_ok write_ok]. rewrite Ho1, Hw1, Hb, json_file_run.
  cbn [logged open_ok write_ok fd_nodes]. rewrite Ho2, Hw2.
  pose proof (viz_nodes_ok _ _ _ En) as Hnodes. cbn [snd app] in Hnodes.
  rewrite Hnodes, (names_serializable flows 0 Hsimple).
  by rewrite !logged_logged.
Qed.

Lemma viz_node_step_raises st item e :
  viz_node_step st item = Raise e -> e = TypeError.
Proof.
  destruct st as [m ns], item as [i flow]. rewrite viz_node_step_eq.
  destruct (hashable (viz_id flow)); [discriminate | congruence].
Qed.

Lemma viz_target_step_raises m source_idx links target e :
  viz_target_step m source_idx links target = Raise e -> e = TypeError.
Proof.
  rewrite viz_target_step_eq. destruct (hashable target); [discriminate | congruence].
Qed.

Lemma viz_link_step_raises m links entry e :
  viz_link_step m links entry = Raise e -> e = TypeError.
Proof.
  destruct entry as [key targets]. rewrite viz_link_step_eq.
  destruct (hashable key); [|congruence].
  destruct (lookup_key key m) as [i|]; [|discriminate].
  intros H. apply for_each_raises in H as (s0 & x & _ & H).
  by apply viz_target_step_raises in H.
Qed.

Lemma build_flow_data_raises interface refs e :
  build_flow_data interface refs = Raise e ->
  (e = AttributeError /\ attr interface "flows" = None)
  \/ (e = TypeError /\ attr interface "flows" <> None).
Proof.
  unfold build_flow_data, read_flows. unfold_bind.
  destruct (attr interface "flows") as [fl|]; [|intros [= <-]; by left].
  intros H. right. split; [|discriminate].
  destruct (iterate fl) as [flows|e1] eqn:Ei.
  - destruct (for_each viz_node_step ([], []) (enumerate flows))
      as [[node_map nodes]|e2] eqn:En.
    + destruct (for_each (viz_link_step node_map) [] refs) as [links|e3] eqn:El;
        [discriminate|].
      injection H as <-.
      apply for_each_raises in El as (s0 & x & _ & El).
      by apply viz_link_step_raises in El.
    + injection H as <-.
      apply for_each_raises in En as (s0 & x & _ & En).
      by apply viz_node_step_raises in En.
  - injection H as <-. by apply iterate_raises in Ei.
Qed.

(** X19. On a file system that accepts its calls, [generate_visualization]
    raises [AttributeError] or [TypeError] and nothing else, and
    [AttributeError] exactly for an interface without the attribute
    [flows]: then the placeholder diagram is already written to the
    diagram file and the data file is not opened. *)
Theorem visualization_errors_with_working_files (interface : pyval)
    (output_dir : string) (w w' : world) (e : exn) :
  fs_ok w output_dir ->
  generate_visualization interface output_dir w = (w', Raise e) ->
  (e = TypeError /\ attr interface "flows" <> None)
  \/ (e = AttributeError /\ attr interface "flows" = None
      /\ w' = logged w [ Mkdir (path_join output_dir "static");
                         Opened (path_join output_dir mermaid_file);
                         Wrote (path_join output_dir mermaid_file)
                           (Text no_flows_diagram) ]).
Proof.
  intros (Hm & Ho1 & Hw1 & Ho2 & Hw2). rewrite generate_visualization_run.
  destruct (generate_flow_diagram interface) as [[text refs]|e0] eqn:Hd.
  - rewrite makedirs_run, Hm, write_file_run. cbn [logged open_ok write_ok].
    rewrite Ho1, Hw1.
    destruct (build_flow_data interface refs) as [data|e1] eqn:Hb.
    + rewrite json_file_run. cbn [logged open_ok write_ok]. rewrite Ho2, Hw2.
      destruct (forallb _ (fd_nodes data)); [discriminate|].
      intros [= _ <-]. left. split; [reflexivity|].
      destruct (build_flow_data_nodes interface refs data Hb) as (fl & _ & -> & _).
      discriminate.
    + intros [= <- <-].
      destruct (build_flow_data_raises interface refs e1 Hb)
        as [[-> Ha] | [-> Ha]]; [right | by left].
      split; [reflexivity|]. split; [exact Ha|].
      unfold FlowVisualizer.generate_flow_diagram, no_flows, hasattr in Hd.
      rewrite Ha in Hd. rewrite orb_true_r in Hd. cbn in Hd.
      injection Hd as <- _. by rewrite logged_logged.
  - intros [= _ <-]. left. split; [by apply (diagram_raises repr_text interface)|].
    unfold FlowVisualizer.generate_flow_diagram, no_flows, hasattr in Hd.
    intros Ha. rewrite Ha in Hd. rewrite orb_true_r in Hd. discriminate.
Qed.

End AdapterOutcomes.

(** ** The interface model *)

Section ModelMore.

Variable repr_text : pyval -> string.

Local Abbreviation generate_flow_diagram := (FlowVisualizer.generate_flow_diagram repr_text).
Local Abbreviation diagram_lines := (FlowVisualizer.diagram_lines repr_text).




(** X21. [Flow.from_dict] keeps what the graph shows of a record: the
    object has the node type and the classification signals of the
    dictionary it is built from.  Only the default name differs
    (["Unknown"] for the object, ["unknown"] for the dictionary), and
    only the object can have a node in the diagram. *)
Theorem from_dict_keeps_graph_node (oid : positive) (d : list (string * pyval)) :
  exists flow,
    Flow_from_dict oid (PDict d) = Ok flow
    /\ viz_type_of flow = viz_type_of (PDict d)
    /\ flow_signals flow = flow_signals (PDict d)
    /\ viz_id flow = dict_get d "id" (PStr "Unknown")
    /\ viz_id (PDict d) = dict_get d "id" (PStr "unknown")
    /\ no_id flow = negb (truthy (dict_get d "id" (PStr "Unknown")))
    /\ no_id (PDict d) = true.
Proof.
  eexists. split; [reflexivity|].
  assert (E : eq_text (dict_get d "type" (PStr "flow")) "sub-flow"
              = eq_text (dict_get d "type" PNone) "sub-flow").
  { unfold dict_get. by destruct (assoc "type" d). }
  unfold viz_type_of, viz_id, flow_signals, no_id, Flow.
  cbn [viz_fields hasattr attr getattr dot assoc String.eqb Ascii.eqb Bool.eqb
       negb orb].
  rewrite E. repeat split; reflexivity.
Qed.

Lemma make_flows_for records : forall next flows,
  make_flows next records = Ok flows ->
  Forall2 (fun record flow =>
             exists oid, (Pos.le next oid) /\ Flow_from_dict oid record = Ok flow)
    records flows.
Proof.
  induction records as [|record records IH]; intros next flows H;
    cbn [make_flows] in H.
  - injection H as <-. constructor.
  - unfold_bind.
    destruct (Flow_from_dict next record) as [flow|] eqn:E; [|discriminate].
    destruct (make_flows (Pos.succ next) records) as [rest|] eqn:Er; [|discriminate].
    injection H as <-. constructor.
    + exists next. split; [lia | exact E].
    + eapply Forall2_impl; [apply (IH _ _ Er)|].
      intros r f (oid & Hle & Hf). exists oid. split; [lia | exact Hf].
Qed.

(** The flows of [make_flows] are objects numbered from [next]. *)
Lemma make_flows_oids records : forall next flows i flow,
  make_flows next records = Ok flows ->
  flows !! i = Some flow ->
  exists oid attrs,
    flow = PObj oid attrs /\ Z.pos oid = Z.pos next + Z.of_nat i.
Proof.
  induction records as [|record records IH]; intros next flows i flow H Hi;
    cbn [make_flows] in H.
  - injection H as <-. discriminate.
  - unfold_bind.
    destruct (Flow_from_dict next record) as [f|] eqn:E; [|discriminate].
    destruct (make_flows (Pos.succ next) records) as [rest|] eqn:Er; [|discriminate].
    injection H as <-. destruct i as [|i]; cbn in Hi.
    + injection Hi as <-. destruct record; try discriminate.
      injection E as <-. eexists _, _. split; [reflexivity | lia].
    + destruct (IH _ _ i flow Er Hi) as (oid & attrs & -> & Hoid).
      exists oid, attrs. split; [reflexivity | lia].
Qed.

Lemma sdict_set_new key value d :
  key ∉ map fst d -> sdict_set key value d = d ++ [(key, value)].
Proof.
  induction d as [|[k v] d IH]; intros H; cbn [sdict_set]; [reflexivity|].
  cbn [map fst] in H. apply not_elem_of_cons in H as [Hk H].
  destruct (String.eqb k key) eqn:E.
  - apply String.eqb_eq in E. congruence.
  - cbn [app]. by rewrite IH.
Qed.

Lemma configs_copied configs : forall acc,
  NoDup (map fst (acc ++ configs)) ->
  foldl (fun d kv => sdict_set kv.1 kv.2 d) acc configs = acc ++ configs.
Proof.
  induction configs as [|[k v] configs IH]; intros acc H; cbn [foldl].
  - by rewrite app_nil_r.
  - cbn [fst snd]. rewrite sdict_set_new.
    + rewrite IH; rewrite <- app_assoc; [reflexivity | exact H].
    + rewrite map_app in H. apply NoDup_app in H as (_ & H & _).
      intros Hin. apply (H k Hin). cbn. apply list_elem_of_here.
Qed.

(** X22. An interface that [from_parser_result] returns is the object
    that the constructor [Interface] builds from its flows and global
    configurations.  It has one flow per record of the parser result, in
    the order of the records, each the object that [Flow.from_dict]
    builds from its record and each a different object; its global
    configurations are those of the parser result, in their order. *)
Theorem from_parser_result_flows (next : positive) (name description : pyval)
    (pr : list (string * pyval)) (interface : pyval) :
  from_parser_result next name (PDict pr) description = Ok interface ->
  exists records flows configs,
    iterate (dict_get pr "flows" (PList [])) = Ok records
    /\ dict_get pr "global_configs" (PDict []) = PDict configs
    /\ attr interface "flows" = Some (PList flows)
    /\ (exists global_configs,
          interface
          = Interface next name description (PList flows) (PDict global_configs) PNone)
    /\ Forall2 (fun record flow => exists oid, Flow_from_dict oid record = Ok flow)
         records flows
    /\ (forall i j f g,
          flows !! i = Some f -> flows !! j = Some g -> key_eqb f g = true -> i = j)
    /\ (NoDup (map fst configs) ->
        attr interface "global_configs" = Some (PDict configs)).
Proof.
  unfold from_parser_result. unfold_bind. intros H.
  destruct (iterate (dict_get pr "flows" (PList []))) as [records|] eqn:Ei;
    [|discriminate].
  destruct (make_flows (Pos.succ next) records) as [flows|] eqn:Ef; [|discriminate].
  destruct (dict_get pr "global_configs" (PDict [])) as [| | | | |configs|] eqn:Ec;
    try discriminate.
  cbn [items] in H. injection H as <-.
  exists records, flows, configs.
  split; [reflexivity|]. split; [reflexivity|]. split; [reflexivity|].
  split; [|split; [|split]].
  - exists (foldl (fun d kv => sdict_set kv.1 kv.2 d) [] configs).
    unfold Interface, or_default. cbn [truthy].
    destruct flows; destruct (foldl _ [] configs); reflexivity.
  - eapply Forall2_impl; [apply (make_flows_for _ _ _ Ef)|].
    intros r f (oid & _ & Hf). by exists oid.
  - intros i j f g Hi Hj Hk.
    destruct (make_flows_oids _ _ _ i f Ef Hi) as (a & attrs & -> & Ha).
    destruct (make_flows_oids _ _ _ j g Ef Hj) as (c & attrs' & -> & Hc).
    cbn in Hk. apply Pos.eqb_eq in Hk. subst c. lia.
  - intros Hnd. cbn. by rewrite (configs_copied configs []).
Qed.

Lemma make_flows_parsed records : forall next,
  forallb parsed_record records = true ->
  exists flows,
    make_flows next records = Ok flows
    /\ forallb dict_processors flows = true
    /\ length flows = length records.
Proof.
  induction records as [|record records IH]; intros next H; [by exists []|].
  cbn [forallb] in H. apply andb_true_iff in H as [Hr H].
  destruct (IH (Pos.succ next) H) as (flows & Ef & Hd & Hlen).
  destruct record as [| | | | |d|]; try discriminate Hr.
  eexists. cbn [make_flows Flow_from_dict]. unfold_bind. rewrite Ef.
  split; [reflexivity|]. cbn [forallb length]. rewrite Hd, Hlen, andb_true_r.
  split; [|reflexivity].
  unfold parsed_record in Hr. unfold dict_processors, Flow, or_default.
  cbn [attr assoc String.eqb Ascii.eqb Bool.eqb].
  destruct (dict_get d "processors" (PList [])) as [| | | |ps| |];
    try discriminate Hr.
  by destruct (truthy (PList ps)).
Qed.

(** X23. The diagram of an interface built by [from_parser_result] from
    records whose processors are lists of dictionaries, as the XML
    parser gives them, has no edge and an empty reference index: the
    diagram reads the target of a flow reference from attributes, and a
    dictionary has none. *)
Theorem parsed_interface_has_no_edges (next : positive) (name description : pyval)
    (pr : list (string * pyval)) (records : list pyval) :
  iterate (dict_get pr "flows" (PList [])) = Ok records ->
  forallb parsed_record records = true ->
  is_dict (dict_get pr "global_configs" (PDict [])) = true ->
  exists interface lines,
    from_parser_result next name (PDict pr) description = Ok interface
    /\ diagram_lines interface = Ok lines
    /\ generate_flow_diagram interface = Ok (join_lines lines, [])
    /\ Forall (fun l => is_edge l = false) lines.
Proof.
  intros Hit Hrec Hcfg.
  destruct (make_flows_parsed records (Pos.succ next) Hrec) as (flows & Ef & Hd & Hlen).
  destruct (dict_get pr "global_configs" (PDict [])) as [| | | | |configs|] eqn:Ec;
    try discriminate Hcfg.
  exists (PObj next
            [ ("name", name); ("description", description);
              ("flows", PList flows);
              ("global_configs",
               PDict (foldl (fun d kv => sdict_set kv.1 kv.2 d) [] configs));
              ("xml_files", PList []) ]).
  assert (Hres : forall lines P,
            P lines ->
            exists lines0 : list string,
              from_parser_result next name (PDict pr) description
              = Ok (PObj next
                      [ ("name", name); ("description", description);
                        ("flows", PList flows);
                        ("global_configs",
                         PDict (foldl (fun d kv => sdict_set kv.1 kv.2 d) [] configs));
                        ("xml_files", PList []) ])
              /\ P lines0).
  { intros lines P HP. exists lines. split; [|exact HP].
    unfold from_parser_result. rewrite Hit. unfold_bind. by rewrite Ef, Ec. }
  destruct flows as [|flow flows].
  - apply (Hres ["graph TD"; "A[No flows found]"]).
    split; [reflexivity|]. split; [reflexivity|].
    repeat (apply Forall_cons_2; [reflexivity|]). apply Forall_nil_2.
  - destruct (no_edges_of_dict_processors repr_text
                (PObj next
                   [ ("name", name); ("description", description);
                     ("flows", PList (flow :: flows));
                     ("global_configs",
                      PDict (foldl (fun d kv => sdict_set kv.1 kv.2 d) [] configs));
                     ("xml_files", PList []) ])
                (flow :: flows) eq_refl eq_refl Hd)
      as (lines & Hl & Hg & Hno & _).
    apply (Hres lines). by split.
Qed.

End ModelMore.

(** ** The purpose of an interface *)

Section Purpose.

Variable repr_text : pyval -> string.

Local Abbreviation processor_step := (FlowVisualizer.processor_step repr_text).
Local Abbreviation node_step := (FlowVisualizer.node_step repr_text).
Local Abbreviation link_step := (FlowVisualizer.link_step repr_text).
Local Abbreviation run_passes := (FlowVisualizer.run_passes repr_text).
Local Abbreviation diagram_lines := (FlowVisualizer.diagram_lines repr_text).
Local Abbreviation first_pass_lines := (Spec.first_pass_lines repr_text).

Lemma flags_or_assoc a b c :
  flags_or a (flags_or b c) = flags_or (flags_or a b) c.
Proof. unfold flags_or. cbn. f_equal; apply orb_assoc. Qed.

Lemma flags_or_comm a b : flags_or a b = flags_or b a.
Proof. unfold flags_or. f_equal; apply orb_comm. Qed.

Lemma flags_or_none a : flags_or no_flags a = a.
Proof. by destruct a. Qed.

Lemma flags_or_none_r a : flags_or a no_flags = a.
Proof. destruct a. unfold flags_or. cbn. by rewrite !orb_false_r. Qed.

Lemma source_step_additive : additive source_step.
Proof.
  intros f source. unfold source_step.
  destruct (truthy source); [|by rewrite <- (flags_or_none_r f) at 1].
  unfold_bind.
  destruct (method_get source "type" (PStr EmptyString)) as [t|]; [|reflexivity].
  destruct f as [a b c d e]. unfold flags_or.
  destruct (eq_text t "file-listener"); [cbn; by rewrite ?orb_false_r, ?orb_true_r|].
  destruct (eq_text t "sftp-listener"); [cbn; by rewrite ?orb_false_r, ?orb_true_r|].
  destruct (eq_text t "http-listener"); cbn; by rewrite ?orb_false_r, ?orb_true_r.
Qed.

Lemma output_step_additive : additive output_step.
Proof.
  intros f processor. unfold output_step. unfold_bind.
  destruct (method_get processor "type" PNone) as [t|]; [|reflexivity].
  destruct f as [a b c d e]. unfold flags_or.
  destruct (eq_text t "file:write"); [cbn; by rewrite ?orb_false_r, ?orb_true_r|].
  destruct (eq_text t "sftp:write"); cbn; by rewrite ?orb_false_r, ?orb_true_r.
Qed.

Lemma for_each_additive {A} (body : purpose_flags -> A -> result purpose_flags) :
  additive body ->
  forall xs f,
    for_each body f xs = (g ← for_each body no_flags xs; Ok (flags_or f g)).
Proof.
  intros H xs. induction xs as [|x xs IH]; intros f; cbn [for_each].
  - unfold_bind. by rewrite flags_or_none_r.
  - rewrite (H f x). unfold_bind.
    destruct (body no_flags x) as [g|]; [|reflexivity].
    rewrite (IH (flags_or f g)), (IH g). unfold_bind.
    destruct (for_each body no_flags xs) as [g'|]; [|reflexivity].
    by rewrite flags_or_assoc.
Qed.

Lemma purpose_step_additive : additive purpose_step.
Proof.
  intros f flow. unfold purpose_step.
  destruct (match flow with
            | PDict d => (dict_get d "source" PNone, dict_get d "processors" (PList []))
            | _ => (getattr flow "source" PNone, getattr flow "processors" (PList []))
            end) as [source processors].
  rewrite (source_step_additive f source). unfold_bind.
  destruct (source_step no_flags source) as [g|]; [|reflexivity].
  destruct (iterate processors) as [ps|]; [|reflexivity].
  rewrite (for_each_additive output_step output_step_additive ps (flags_or f g)).
  rewrite (for_each_additive output_step output_step_additive ps g).
  unfold_bind.
  destruct (for_each output_step no_flags ps) as [g'|]; [|reflexivity].
  by rewrite flags_or_assoc.
Qed.

Lemma additive_swap {A} (body : purpose_flags -> A -> result purpose_flags)
    f x y f1 f2 :
  additive body ->
  body f y = Ok f1 -> body f1 x = Ok f2 ->
  exists f1', body f x = Ok f1' /\ body f1' y = Ok f2.
Proof.
  intros H Hy Hx. rewrite (H f y) in Hy. rewrite (H f1 x) in Hx. unfold_bind.
  destruct (body no_flags y) as [gy|] eqn:Ey; [|discriminate].
  destruct (body no_flags x) as [gx|] eqn:Ex; [|discriminate].
  injection Hy as <-. injection Hx as <-.
  exists (flags_or f gx). rewrite (H f x), (H (flags_or f gx) y), Ex, Ey.
  unfold_bind. split; [reflexivity|].
  by rewrite <- !flags_or_assoc, (flags_or_comm gx gy).
Qed.

Lemma for_each_permutation {A} (body : purpose_flags -> A -> result purpose_flags)
    xs ys :
  additive body -> xs ≡ₚ ys ->
  forall f f', for_each body f xs = Ok f' -> for_each body f ys = Ok f'.
Proof.
  intros H. induction 1 as [|x xs ys _ IH|x y xs|xs ys zs _ IH1 _ IH2];
    intros f f' E.
  - exact E.
  - cbn [for_each] in *. unfold_bind.
    destruct (body f x) as [f1|]; [|discriminate]. by apply IH.
  - cbn [for_each] in *. unfold_bind.
    destruct (body f y) as [f1|] eqn:Ey; [|discriminate].
    destruct (body f1 x) as [f2|] eqn:Ex; [|discriminate].
    destruct (additive_swap body f x y f1 f2 H Ey Ex) as (f1' & -> & ->).
    exact E.
  - by apply IH2, IH1.
Qed.

(** X24. [infer_purpose] does not depend on the order of the flows: when
    it returns a purpose for an interface, it returns the same purpose
    for an interface with the same flows in another order. *)
Theorem infer_purpose_order_independent (interface interface' : pyval)
    (flows flows' : list pyval) (text : string) :
  attr interface "flows" = Some (PList flows) ->
  attr interface' "flows" = Some (PList flows') ->
  flows ≡ₚ flows' ->
  infer_purpose interface = Ok text ->
  infer_purpose interface' = Ok text.
Proof.
  unfold infer_purpose, read_flows. intros -> -> Hperm. unfold_bind. cbn [iterate].
  destruct (for_each purpose_step no_flags flows) as [f|] eqn:E; [|discriminate].
  by rewrite (for_each_permutation purpose_step flows flows'
                purpose_step_additive Hperm no_flags f E).
Qed.








Lemma output_step_dict f processor :
  is_dict processor = true -> exists f', output_step f processor = Ok f'.
Proof.
  destruct processor as [| | | | |d|]; try discriminate. intros _.
  unfold output_step, method_get. unfold_bind.
  destruct (eq_text (dict_get d "type" PNone) "file:write"); [by eexists|].
  destruct (eq_text (dict_get d "type" PNone) "sftp:write"); by eexists.
Qed.

Lemma source_step_parsed f source :
  source = PNone \/ is_dict source = true -> exists f', source_step f source = Ok f'.
Proof.
  intros [-> | H]; [by eexists|].
  destruct source as [| | | | |d|]; try discriminate.
  unfold source_step, method_get. unfold_bind.
  destruct (truthy (PDict d)); [|by eexists].
  destruct (eq_text (dict_get d "type" (PStr EmptyString)) "file-listener");
    [by eexists|].
  destruct (eq_text (dict_get d "type" (PStr EmptyString)) "sftp-listener");
    [by eexists|].
  destruct (eq_text (dict_get d "type" (PStr EmptyString)) "http-listener");
    by eexists.
Qed.

Lemma purpose_step_parsed oid record flow f :
  parsed_record record = true -> parsed_source record = true ->
  Flow_from_dict oid record = Ok flow ->
  exists f', purpose_step f flow = Ok f'.
Proof.
  destruct record as [| | | | |d|]; try discriminate.
  unfold parsed_record, parsed_source. intros Hp Hs [= <-].
  unfold purpose_step, Flow, or_default.
  cbn [getattr attr assoc String.eqb Ascii.eqb Bool.eqb].
  destruct (source_step_parsed f (dict_get d "source" PNone)) as (f1 & ->).
  { destruct (dict_get d "source" PNone); try discriminate Hs; [by left | by right]. }
  unfold_bind.
  destruct (dict_get d "processors" (PList [])) as [| | | |ps| |];
    try discriminate Hp.
  assert (Hps : exists f', for_each output_step f1 ps = Ok f').
  { destruct (for_each_returns output_step (fun _ => True) ps) with (s := f1)
      as (f' & E & _); [|exact I|by exists f'].
    intros s p Hin _.
    destruct (output_step_dict s p) as (s' & ->); [|by exists s'].
    apply (proj1 (List.forallb_forall _ ps) Hp p), list_elem_of_In, Hin. }
  destruct (truthy (PList ps)); cbn [iterate]; [exact Hps | by eexists].
Qed.

(** X26. [infer_purpose] returns a purpose on every interface that
    [from_parser_result] builds from records of the shape the XML parser
    gives them: a source that is absent or a dictionary, and processors
    that are a list of dictionaries. *)
Theorem infer_purpose_returns_on_parsed (next : positive) (name description : pyval)
    (pr : list (string * pyval)) (records : list pyval) :
  iterate (dict_get pr "flows" (PList [])) = Ok records ->
  forallb parsed_record records = true ->
  forallb parsed_source records = true ->
  is_dict (dict_get pr "global_configs" (PDict [])) = true ->
  exists interface text,
    from_parser_result next name (PDict pr) description = Ok interface
    /\ infer_purpose interface = Ok text.
Proof.
  intros Hit Hrec Hsrc Hcfg.
  destruct (make_flows_parsed records (Pos.succ next) Hrec) as (flows & Ef & _ & _).
  destruct (dict_get pr "global_configs" (PDict [])) as [| | | | |configs|] eqn:Ec;
    try discriminate Hcfg.
  assert (Hsteps : Forall (fun flow => forall f, exists f', purpose_step f flow = Ok f')
                     flows).
  { pose proof (make_flows_for records _ flows Ef) as Hall.
    clear Ef Hit. revert Hrec Hsrc.
    induction Hall as [|record flow records flows (oid & _ & Hf) _ IH];
      intros Hrec Hsrc; [constructor|].
    cbn [forallb] in Hrec, Hsrc.
    apply andb_true_iff in Hrec as [Hr Hrec]. apply andb_true_iff in Hsrc as [Hs Hsrc].
    constructor; [|by apply IH].
    intros f. by apply (purpose_step_parsed oid record). }
  eexists. 
  destruct (for_each_returns purpose_step (fun _ => True) flows) with (s := no_flags)
    as (f & E & _); [|exact I|].
  { intros s flow Hin _. rewrite Forall_forall in Hsteps.
    destruct (Hsteps flow Hin s) as (s' & ->). by exists s'. }
  exists (purpose_text f). split.
  - unfold from_parser_result. rewrite Hit. unfold_bind. by rewrite Ef, Ec.
  - unfold infer_purpose, read_flows. cbn [attr assoc String.eqb Ascii.eqb Bool.eqb].
    unfold_bind. cbn [iterate]. by rewrite E.
Qed.

End Purpose.

(** ** Instances *)


Lemma references_are_edges_witness :
  exists lines,
    FlowVisualizer.diagram_lines sample_repr (mk_interface linked) = Ok lines
    /\ join_lines linked_lines = join_lines lines.
Proof.
  assert (H1 : no_flows (mk_interface linked) = false) by reflexivity.
  assert (H2 : iterate (dot (mk_interface linked) "flows") = Ok linked) by reflexivity.
  assert (H3 : FlowVisualizer.generate_flow_diagram sample_repr (mk_interface linked)
               = Ok (join_lines linked_lines, linked_refs))
    by (vm_compute; reflexivity).
  destruct (references_are_edges sample_repr (mk_interface linked) linked
              (join_lines linked_lines) linked_refs H1 H2 H3)
    as (lines & Hl & Ht & _).
  by exists lines.
Defined.

Lemma reference_targets_distinct_witness :
  NoDup (map (FlowVisualizer._sanitize_id sample_repr) [PStr "A"]).
Proof.
  apply (reference_targets_distinct sample_repr (mk_interface linked)
           (join_lines linked_lines) linked_refs) with (key := PStr "B").
  - vm_compute. reflexivity.
  - apply list_elem_of_further, list_elem_of_here.
Defined.

Lemma edges_join_declared_nodes_witness :
  exists before edges,
    linked_lines = before ++ edges
    /\ Forall (fun l => is_edge l = false) before.
Proof.
  assert (H : FlowVisualizer.diagram_lines sample_repr (mk_interface linked)
              = Ok linked_lines) by (vm_compute; reflexivity).
  destruct (edges_join_declared_nodes sample_repr (mk_interface linked)
              linked_lines H) as (before & edges & H1 & H2 & _).
  by exists before, edges.
Defined.

Lemma flows_without_id_attribute_witness :
  FlowVisualizer.generate_flow_diagram sample_repr (mk_interface records)
  = Ok ("graph TD", []).
Proof.
  apply (flows_without_id_attribute sample_repr (mk_interface records) records).
  - reflexivity.
  - reflexivity.
  - repeat (apply Forall_cons_2; [left; reflexivity|]). apply Forall_nil_2.
Defined.

Lemma dict_processors_give_no_edges_witness :
  exists lines,
    FlowVisualizer.diagram_lines sample_repr (mk_interface parsed_flows) = Ok lines
    /\ Forall (fun l => is_edge l = false) lines.
Proof.
  destruct (dict_processors_give_no_edges sample_repr (mk_interface parsed_flows)
              parsed_flows eq_refl eq_refl eq_refl) as (lines & Hl & _ & Hno & _).
  by exists lines.
Defined.

Lemma diagram_raises_type_error_only_witness :
  FlowVisualizer.generate_flow_diagram sample_repr not_iterable = Raise TypeError
  /\ TypeError = TypeError.
Proof.
  split; [reflexivity|].
  apply (diagram_raises_type_error_only sample_repr not_iterable TypeError).
  reflexivity.
Defined.

Lemma diagram_returns_on_safe_flows_witness :
  exists text refs,
    FlowVisualizer.generate_flow_diagram sample_repr (mk_interface linked)
    = Ok (text, refs).
Proof.
  apply (diagram_returns_on_safe_flows sample_repr (mk_interface linked) linked);
    reflexivity.
Defined.

Lemma visualization_success_contract_witness :
  exists text refs data,
    FlowVisualizer.generate_flow_diagram sample_repr (mk_interface linked)
    = Ok (text, refs)
    /\ build_flow_data (mk_interface linked) refs = Ok data
    /\ (Adapter.generate_visualization sample_repr (mk_interface linked)
          "out" all_ok).1
       = logged all_ok (success_log "out" text data).
Proof.
  assert (H : Adapter.generate_visualization sample_repr (mk_interface linked)
                "out" all_ok
              = ((Adapter.generate_visualization sample_repr (mk_interface linked)
                    "out" all_ok).1,
                 Ok [("mermaid", "static/flow_diagram.mmd");
                     ("d3", "static/flow_data.json")]))
    by (vm_compute; reflexivity).
  destruct (visualization_success_contract sample_repr (mk_interface linked)
              "out" all_ok
              (Adapter.generate_visualization sample_repr (mk_interface linked)
                 "out" all_ok).1
              [("mermaid", "static/flow_diagram.mmd"); ("d3", "static/flow_data.json")]
              H) as (_ & text & refs & data & Hd & Hb & Hw).
  by exists text, refs, data.
Defined.

Lemma links_join_last_flows_witness :
  exists fl flows,
    attr (mk_interface linked) "flows" = Some fl /\ iterate fl = Ok flows
    /\ fd_links linked_data = flat_map (links_of flows) linked_refs.
Proof.
  apply (links_join_last_flows (mk_interface linked) linked_refs linked_data).
  reflexivity.
Defined.

Lemma links_join_named_nodes_witness :
  Forall (fun l => is_Some (fd_nodes linked_data !! l.1)
                   /\ is_Some (fd_nodes linked_data !! l.2))
    (fd_links linked_data).
Proof.
  eapply Forall_impl.
  - apply (links_join_named_nodes (mk_interface linked) linked_refs linked_data).
    reflexivity.
  - intros l (key & targets & target & a & c & _ & _ & Ha & _ & _ & Hc & _).
    split; eexists; eassumption.
Defined.

Lemma visualization_returns_on_safe_input_witness :
  exists text data,
    Adapter.generate_visualization sample_repr (mk_interface linked) "out" all_ok
    = (logged all_ok (success_log "out" text data),
       Ok [("mermaid", "static/flow_diagram.mmd"); ("d3", "static/flow_data.json")]).
Proof.
  assert (Hfs : fs_ok all_ok "out") by (repeat split).
  destruct (visualization_returns_on_safe_input sample_repr (mk_interface linked)
              "out" all_ok (PList linked) linked eq_refl eq_refl eq_refl Hfs)
    as (text & refs & data & _ & _ & H).
  by exists text, data.
Defined.

Lemma visualization_errors_with_working_files_witness :
  (Adapter.generate_visualization sample_repr PNone "out" all_ok).1
  = logged all_ok [ Mkdir (path_join "out" "static");
                    Opened (path_join "out" mermaid_file);
                    Wrote (path_join "out" mermaid_file) (Text no_flows_diagram) ].
Proof.
  assert (Hfs : fs_ok all_ok "out") by (repeat split).
  assert (H : Adapter.generate_visualization sample_repr PNone "out" all_ok
              = ((Adapter.generate_visualization sample_repr PNone "out" all_ok).1,
                 Raise AttributeError))
    by (vm_compute; reflexivity).
  destruct (visualization_errors_with_working_files sample_repr PNone "out" all_ok
              (Adapter.generate_visualization sample_repr PNone "out" all_ok).1
              AttributeError Hfs H)
    as [[He _] | (_ & _ & Hw)]; [discriminate He | exact Hw].
Defined.


Lemma from_parser_result_flows_witness :
  exists records flows,
    attr parsed_interface "flows" = Some (PList flows)
    /\ Forall2 (fun record flow => exists oid, Flow_from_dict oid record = Ok flow)
         records flows.
Proof.
  destruct (from_parser_result_flows 1 (PStr "sample") (PStr EmptyString)
              parser_entries parsed_interface eq_refl)
    as (records & flows & configs & _ & _ & Hf & _ & Hall & _).
  by exists records, flows.
Defined.

Lemma parsed_interface_has_no_edges_witness :
  exists interface lines,
    from_parser_result 1 (PStr "sample") (PDict parser_entries) (PStr EmptyString)
    = Ok interface
    /\ FlowVisualizer.diagram_lines sample_repr interface = Ok lines
    /\ FlowVisualizer.generate_flow_diagram sample_repr interface
       = Ok (join_lines lines, [])
    /\ Forall (fun l => is_edge l = false) lines.
Proof.
  apply (parsed_interface_has_no_edges sample_repr 1 (PStr "sample")
           (PStr EmptyString) parser_entries records); reflexivity.
Defined.

Lemma infer_purpose_order_independent_witness :
  infer_purpose (mk_interface (rev transfer)) = Ok "File Transfer/Transformation".
Proof.
  apply (infer_purpose_order_independent (mk_interface transfer)
           (mk_interface (rev transfer)) transfer (rev transfer));
    [reflexivity | reflexivity | apply Permutation_rev | reflexivity].
Defined.


Lemma infer_purpose_returns_on_parsed_witness :
  exists interface text,
    from_parser_result 1 (PStr "sample") (PDict parser_entries) (PStr EmptyString)
    = Ok interface
    /\ infer_purpose interface = Ok text.
Proof.
  apply (infer_purpose_returns_on_parsed 1 (PStr "sample") (PStr EmptyString)
           parser_entries records); reflexivity.
Defined.
